(** * Patient record store: record model, persistence and queries

    A shallow embedding of [Codes/classes.py] (the [VisitRecord],
    [PatientRecord], [PatientDatabase] and [CredentialsManager] classes), of
    the handlers of [Codes/functions.py] once their dialogs are answered
    ([prompt_date], [show_temporal_trends], [add_patient], [remove_patient],
    [view_notes], [record_event]) and of the login of [Codes/main.py].

    Conventions of the embedding.
    - A Python [str] is a [string] whose characters are read as the code
      points U+0000..U+00FF.
    - A Python [dict] is an association list in insertion order with the
      update discipline of the interpreter: assigning to a key that is
      present replaces the value where it stands, assigning to a new key
      appends.  [dict_wf] says that no key occurs twice, which holds of
      every dict the interpreter can build.
    - A method that mutates [self] takes the old object and returns the new
      one; a call that may raise returns an [outcome].  The records of a
      store are reached only through the store, and the code never changes
      a note or a field map it was handed, so values stand for objects.
    - A csv file is the list of rows the [csv] module reads from it or
      writes to it; every row is a list of cells.  The file system maps a
      path to the file it holds.  Which paths [open(path, "w")] can open
      depends on the directories of the machine: the functions that write
      take it as the argument [can_open].

    The definitions come first: the library functions the code calls
    (strings, dates, [strptime], [csv]), then the classes, the notions the
    statements use and the sample data, then the handlers and the login.
    The theorems follow. *)

From Stdlib Require Import ZArith Ascii String List Lia DecimalString.
From stdpp Require Import base option list strings gmap sorting.

Local Open Scope Z_scope.

(** ** Exceptions *)

Inductive exn : Type :=
  | ValueError
  | AttributeError
  | TypeError
  | FileNotFoundError.

Inductive outcome (A : Type) : Type :=
  | Returned (a : A)
  | Raised (e : exn).
Arguments Returned {A} a.
Arguments Raised {A} e.

Global Instance outcome_ret : MRet outcome := fun A a => Returned a.

Global Instance outcome_bind : MBind outcome := fun A B k o =>
  match o with
  | Returned a => k a
  | Raised e => Raised e
  end.

(** ** Strings *)

Module Str.

Abbreviation chars := (list ascii).

Definition code (c : ascii) : Z := Z.of_N (N_of_ascii c).

(** [str.isspace] on the characters below U+0100. *)
Definition isspace (c : ascii) : bool :=
  let n := code c in
  ((9 <=? n) && (n <=? 13)) || ((28 <=? n) && (n <=? 32))
  || (n =? 133) || (n =? 160).

Fixpoint lstrip (s : chars) : chars :=
  match s with
  | [] => []
  | c :: s' => if isspace c then lstrip s' else s
  end.

Definition rstrip (s : chars) : chars := rev (lstrip (rev s)).

(** [s.strip()] *)
Definition strip (s : chars) : chars := rstrip (lstrip s).

(** [s.split(sep)] for a one-character separator. *)
Fixpoint split (sep : ascii) (s : chars) : list chars :=
  match s with
  | [] => [[]]
  | c :: s' =>
      if Ascii.eqb c sep then [] :: split sep s'
      else match split sep s' with
           | [] => [[c]]
           | p :: ps => (c :: p) :: ps
           end
  end.

(** The value of a decimal digit, [None] for any other character. *)
Definition digit_val (c : ascii) : option Z :=
  let n := code c in
  if (48 <=? n) && (n <=? 57) then Some (n - 48) else None.

Definition isdigit (c : ascii) : bool :=
  match digit_val c with Some _ => true | None => false end.

(** The digits of an [int(...)] argument: decimal digits, with single
    underscores allowed between two digits. [prev] tells whether the
    previous character was a digit. *)
Fixpoint int_digits (acc : Z) (prev : bool) (s : chars) : option Z :=
  match s with
  | [] => if prev then Some acc else None
  | c :: s' =>
      match digit_val c with
      | Some d => int_digits (10 * acc + d) true s'
      | None =>
          if Ascii.eqb c "_"%char && prev then int_digits acc false s' else None
      end
  end.

(** The white space [int] drops around the number.  Below U+0080 it is
    that of C (tab to carriage return, and the space): U+001C..U+001F,
    which [str.strip] drops, are not part of it.  From U+0080 on it is that
    of [str.isspace]. *)
Definition isspace_int (c : ascii) : bool :=
  let n := code c in
  ((9 <=? n) && (n <=? 13)) || (n =? 32) || (n =? 133) || (n =? 160).

Fixpoint lstrip_int (s : chars) : chars :=
  match s with
  | [] => []
  | c :: s' => if isspace_int c then lstrip_int s' else s
  end.

Definition strip_int (s : chars) : chars := rev (lstrip_int (rev (lstrip_int s))).

(** [int(s)] in base ten: surrounding white space is dropped, one sign is
    accepted. [None] stands for [ValueError].  (The interpreter's
    configurable limit on the number of digits, 4300 by default, is not
    part of the model.) *)
Definition int (s : chars) : option Z :=
  match strip_int s with
  | "+"%char :: r => int_digits 0 false r
  | "-"%char :: r => Z.opp <$> int_digits 0 false r
  | t => int_digits 0 false t
  end.

(** [s.lower()] on the characters below U+0100. *)
Definition lower_char (c : ascii) : ascii :=
  let n := code c in
  if ((65 <=? n) && (n <=? 90))
     || ((192 <=? n) && (n <=? 222) && negb (n =? 215))
  then ascii_of_N (Z.to_N (n + 32)) else c.

Definition lower (s : chars) : chars := map lower_char s.

Definition isascii (s : chars) : bool := forallb (fun c => code c <? 128) s.

End Str.

Definition py_strip (s : string) : string :=
  string_of_list_ascii (Str.strip (list_ascii_of_string s)).

Definition py_lower (s : string) : string :=
  string_of_list_ascii (Str.lower (list_ascii_of_string s)).

(** ** Python dictionaries *)

Section Dict.
Context {K V : Type} `{EqDecision K}.

Abbreviation dict := (list (K * V)).

(** [d.get(k)] *)
Fixpoint dict_get (k : K) (d : dict) : option V :=
  match d with
  | [] => None
  | (k', v) :: d' => if decide (k = k') then Some v else dict_get k d'
  end.

(** [k in d] *)
Definition dict_mem (k : K) (d : dict) : bool :=
  match dict_get k d with Some _ => true | None => false end.

(** [d[k] = v] *)
Fixpoint dict_set (k : K) (v : V) (d : dict) : dict :=
  match d with
  | [] => [(k, v)]
  | (k', v') :: d' =>
      if decide (k = k') then (k', v) :: d' else (k', v') :: dict_set k v d'
  end.

(** [d.update(other)]: the items of [other] are assigned in order. *)
Definition dict_update (d other : dict) : dict :=
  fold_left (fun acc kv => dict_set kv.1 kv.2 acc) other d.

(** [d.setdefault(k, v)]: the value found or inserted, and the new dict. *)
Definition dict_setdefault (k : K) (v : V) (d : dict) : V * dict :=
  match dict_get k d with
  | Some x => (x, d)
  | None => (v, dict_set k v d)
  end.

Definition dict_keys (d : dict) : list K := map fst d.
Definition dict_values (d : dict) : list V := map snd d.

Definition dict_wf (d : dict) : Prop := NoDup (dict_keys d).

End Dict.

Abbreviation dict K V := (list (K * V)) (only parsing).

(** ** Values and records *)

(** What the code stores under a field name: the cells of a csv row are
    [str]; [csv.DictReader] fills a short row with [None] and collects the
    surplus cells of a long row in a list; the age typed into the form is
    an [int]. *)
Inductive pyval : Type :=
  | VNone
  | VStr (s : string)
  | VInt (z : Z)
  | VList (l : list string).

Global Instance pyval_eq_dec : EqDecision pyval.
Proof. solve_decision. Defined.

(** Keys of a record read by [csv.DictReader]: the column names, and
    [None] (the default [restkey]) for the surplus of a long row. *)
Abbreviation pykey := (option string) (only parsing).
Abbreviation pydict := (list (option string * pyval)) (only parsing).

Record VisitRecord : Type := mkVisit {
  data : pydict;
  notes : list pydict
}.

Record PatientRecord : Type := mkPatient {
  patient_id : string;
  visits : dict string VisitRecord
}.

Record PatientDatabase : Type := mkDatabase {
  patients : dict string PatientRecord
}.

(** ** PatientRecord *)

(** [bool(notes)] for the optional [notes] argument: [None] and the empty
    dict are false. *)
Definition notes_truthy (n : option pydict) : bool :=
  match n with
  | None => false
  | Some [] => false
  | Some (_ :: _) => true
  end.

Definition add_visit (visit_id : string) (data0 : pydict)
    (notes0 : option pydict) (self : PatientRecord) : PatientRecord :=
  (* if visit_id not in self.visits: self.visits[visit_id] = VisitRecord({}, []) *)
  let visits1 :=
    if dict_mem visit_id (visits self) then visits self
    else dict_set visit_id (mkVisit [] []) (visits self) in
  match dict_get visit_id visits1 with
  | None => mkPatient (patient_id self) visits1 (* not reached: the key is there *)
  | Some vr =>
      (* self.visits[visit_id].data.update(data) *)
      let vr1 := mkVisit (dict_update (data vr) data0) (notes vr) in
      (* if notes: self.visits[visit_id].notes.append(notes) *)
      let vr2 :=
        match notes0 with
        | Some n =>
            if notes_truthy notes0 then mkVisit (data vr1) (notes vr1 ++ [n])
            else vr1
        | None => vr1
        end in
      mkPatient (patient_id self) (dict_set visit_id vr2 visits1)
  end.

Definition add_notes_to_visit (visit_id : string) (notes0 : pydict)
    (self : PatientRecord) : bool * PatientRecord :=
  match dict_get visit_id (visits self) with
  | None => (false, self)
  | Some record =>
      (true,
       mkPatient (patient_id self)
         (dict_set visit_id (mkVisit (data record) (notes record ++ [notes0]))
            (visits self)))
  end.

(** ** Calendar dates *)

Record date : Type := mkDate { year : Z; month : Z; day : Z }.

Global Instance date_eq_dec : EqDecision date.
Proof. solve_decision. Defined.

Definition is_leap (y : Z) : bool :=
  (y mod 4 =? 0) && (negb (y mod 100 =? 0) || (y mod 400 =? 0)).

Definition days_in_month (y m : Z) : Z :=
  if m =? 2 then (if is_leap y then 29 else 28)
  else if (m =? 4) || (m =? 6) || (m =? 9) || (m =? 11) then 30
  else 31.

(** [datetime.date(y, m, d)]: [None] stands for the exception raised on a
    value out of range. *)
Definition py_date (y m d : Z) : option date :=
  if (1 <=? y) && (y <=? 9999) && (1 <=? m) && (m <=? 12)
     && (1 <=? d) && (d <=? days_in_month y m)
  then Some (mkDate y m d) else None.

(** *** [datetime.strptime(s, "%m/%d/%Y").date()]

    The library turns the format into the regular expression
    [(?P<m>1[0-2]|0[1-9]|[1-9])/(?P<d>3[0-1]|[1-2]\d|0[1-9]|[1-9]| [1-9])/(?P<Y>\d\d\d\d)],
    matches it at the start of the string, refuses a match that leaves
    characters over, converts the groups with [int] and builds the date.
    A matcher lists its matches in the order in which a backtracking
    engine tries them, each as the text consumed and the text left. *)

Module Re.

Abbreviation chars := (list ascii).
Abbreviation matcher := (chars -> list (chars * chars)).

Definition cls (p : ascii -> bool) : matcher := fun s =>
  match s with
  | c :: r => if p c then [([c], r)] else []
  | [] => []
  end.

Definition lit (c : ascii) : matcher := cls (Ascii.eqb c).

Definition range (lo hi : ascii) : matcher :=
  cls (fun c => (Str.code lo <=? Str.code c) && (Str.code c <=? Str.code hi)).

Definition digit : matcher := cls Str.isdigit.

Definition seq (m1 m2 : matcher) : matcher := fun s =>
  flat_map (fun ar => map (fun br => (ar.1 ++ br.1, br.2)) (m2 ar.2)) (m1 s).

Definition alt (m1 m2 : matcher) : matcher := fun s => m1 s ++ m2 s.

(** [1[0-2]|0[1-9]|[1-9]] *)
Definition re_m : matcher :=
  alt (seq (lit "1") (range "0" "2"))
    (alt (seq (lit "0") (range "1" "9")) (range "1" "9")).

(** [3[0-1]|[1-2]\d|0[1-9]|[1-9]| [1-9]] *)
Definition re_d : matcher :=
  alt (seq (lit "3") (range "0" "1"))
    (alt (seq (range "1" "2") digit)
       (alt (seq (lit "0") (range "1" "9"))
          (alt (range "1" "9") (seq (lit " ") (range "1" "9"))))).

(** [\d\d\d\d] *)
Definition re_Y : matcher := seq digit (seq digit (seq digit digit)).

(** The whole expression: the three groups and the text left. *)
Definition re_mdY (s : chars) : list (chars * chars * chars * chars) :=
  flat_map (fun m =>
    flat_map (fun s1 =>
      flat_map (fun d =>
        flat_map (fun s2 =>
          map (fun y => (m.1, d.1, y.1, y.2)) (re_Y s2.2))
          (lit "/" d.2))
        (re_d s1.2))
      (lit "/" m.2))
    (re_m s).

(** A matcher is sound when each match splits the input into the text
    consumed and the text left, and the text consumed has no slash. *)
Definition sound (m : matcher) : Prop :=
  forall s a r, In (a, r) (m s) -> s = a ++ r /\ Forall (fun c => c <> "/"%char) a.

End Re.

Definition strptime_mdY (s : Str.chars) : option date :=
  match Re.re_mdY s with
  | [] => None
  | (m, d, y, rest) :: _ =>
      match rest with
      | _ :: _ => None
      | [] =>
          y' ← Str.int y; m' ← Str.int m; d' ← Str.int d; py_date y' m' d'
      end
  end.

(** The parse of [count_visits_in_day], on a string already stripped. *)
Definition parse_count (s : string) : option date :=
  strptime_mdY (list_ascii_of_string s).

(** The parse of [view_notes], on a string already stripped:
    [month, day, year = map(int, visit_time.split("/"))] and then
    [date(year, month, day)]; every exception is caught. *)
Definition parse_view (s : string) : option date :=
  match Str.split "/" (list_ascii_of_string s) with
  | [ms; ds; ys] =>
      m' ← Str.int ms; d' ← Str.int ds; y' ← Str.int ys; py_date y' m' d'
  | _ => None
  end.

(** ** Rendering of values in a csv cell *)

Module Repr.

Abbreviation chars := (list ascii).

Definition quote1 : ascii := ascii_of_N 39.
Definition quote2 : ascii := ascii_of_N 34.
Definition backslash : ascii := ascii_of_N 92.

Definition hex_digit (n : Z) : ascii :=
  if n <? 10 then ascii_of_N (Z.to_N (48 + n)) else ascii_of_N (Z.to_N (87 + n)).

(** One character of [repr(s)], [q] being the quote chosen for [s]. *)
Definition repr_char (q c : ascii) : chars :=
  let n := Str.code c in
  if Ascii.eqb c backslash then [backslash; backslash]
  else if Ascii.eqb c q then [backslash; q]
  else if n =? 9 then [backslash; "t"%char]
  else if n =? 10 then [backslash; "n"%char]
  else if n =? 13 then [backslash; "r"%char]
  else if (n <? 32) || (n =? 127) || ((128 <=? n) && (n <=? 160)) || (n =? 173)
  then [backslash; "x"%char; hex_digit (n / 16); hex_digit (n mod 16)]
  else [c].

(** [repr(s)] for a [str]. *)
Definition repr_str (s : chars) : chars :=
  let q :=
    if existsb (Ascii.eqb quote1) s && negb (existsb (Ascii.eqb quote2) s)
    then quote2 else quote1 in
  q :: flat_map (repr_char q) s ++ [q].

Fixpoint join (sep : chars) (l : list chars) : chars :=
  match l with
  | [] => []
  | [x] => x
  | x :: l' => x ++ sep ++ join sep l'
  end.

(** [str(l)] for a list of [str]. *)
Definition str_list (l : list string) : chars :=
  "["%char
  :: join [","%char; " "%char] (map (fun s => repr_str (list_ascii_of_string s)) l)
  ++ ["]"%char].

(** [str(z)] for an [int]. *)
Definition str_int (z : Z) : string := NilZero.string_of_int (Z.to_int z).

End Repr.

(** What [csv.writer] writes for a value: nothing for [None], the string
    itself, [str(v)] otherwise. *)
Definition csv_cell (v : pyval) : string :=
  match v with
  | VNone => ""
  | VStr s => s
  | VInt z => Repr.str_int z
  | VList l => string_of_list_ascii (Repr.str_list l)
  end.

(** ** csv files *)

Abbreviation csv_file := (list (list string)) (only parsing).
Abbreviation filesystem := (gmap string (list (list string))) (only parsing).

(** [dict(zip(fieldnames, row))] *)
Definition dict_of_zip (fieldnames row : list string) : pydict :=
  fold_left (fun acc kv => dict_set (Some kv.1) (VStr kv.2) acc)
    (zip fieldnames row) [].

(** One record of [csv.DictReader] with the default [restkey] and
    [restval], both [None]. *)
Definition read_row (fieldnames row : list string) : pydict :=
  let d := dict_of_zip fieldnames row in
  let lf := length fieldnames in
  let lr := length row in
  if (lf <? lr)%nat then dict_set None (VList (drop lf row)) d
  else fold_left (fun acc key => dict_set (Some key) VNone acc)
         (drop lr fieldnames) d.

Definition row_nonempty (row : list string) : bool :=
  match row with [] => false | _ :: _ => true end.

(** [reader.fieldnames]: the first row of the file, if any. *)
Definition reader_fieldnames (f : csv_file) : option (list string) := head f.

(** The records [csv.DictReader(f)] yields: the first row names the
    columns, rows without cells are passed over. *)
Definition DictReader (f : csv_file) : list pydict :=
  match f with
  | [] => []
  | fieldnames :: rows => map (read_row fieldnames) (List.filter row_nonempty rows)
  end.

(** The keys of the row are all among the field names. *)
Definition row_fits (fieldnames : list string) (rowdict : pydict) : bool :=
  forallb (fun k => bool_decide (k ∈ Some <$> fieldnames)) (dict_keys rowdict).

(** The cells of the row, one for each field name: [rowdict.get(key, "")]
    as [csv.writer] writes it. *)
Definition row_cells (fieldnames : list string) (rowdict : pydict) : list string :=
  map (fun key => csv_cell (default (VStr "") (dict_get (Some key) rowdict)))
    fieldnames.

(** [DictWriter._dict_to_list] with the default [extrasaction="raise"] and
    [restval=""], followed by the conversion of the cells. *)
Definition dict_to_list (fieldnames : list string) (rowdict : pydict)
    : outcome (list string) :=
  if row_fits fieldnames rowdict then Returned (row_cells fieldnames rowdict)
  else Raised ValueError.

(** [writer.writerows(rows)] after the rows [out] already written: the
    rows are written one by one, a row that raises ends the writing. *)
Fixpoint writerows (fieldnames : list string) (rows : list pydict)
    (out : csv_file) : outcome unit * csv_file :=
  match rows with
  | [] => (Returned tt, out)
  | r :: rows' =>
      match dict_to_list fieldnames r with
      | Returned cells => writerows fieldnames rows' (out ++ [cells])
      | Raised e => (Raised e, out)
      end
  end.

(** [open(path, "w")], [writeheader()] and the rows.  Whether the path can
    be opened is decided by the machine, not by the files the file system
    maps: [can_open path] tells whether [open(path, "w")] opens the file;
    it does not for the empty path or a path through a directory that does
    not exist, and the call then raises [FileNotFoundError] before any file
    is touched.  (Permissions are not part of the model.)  Once opened, the
    file is cut to nothing and keeps what was written when a row raises. *)
Definition write_csv (can_open : string -> bool) (file_path : string)
    (fieldnames : list string) (rows : list pydict) (fs : filesystem)
    : outcome unit * filesystem :=
  if can_open file_path
  then
    let r := writerows fieldnames rows [fieldnames] in
    (r.1, <[file_path := r.2]> fs)
  else (Raised FileNotFoundError, fs).

(** ** PatientDatabase *)

Definition ID_PATIENT : string := "Patient_ID".
Definition ID_VISIT : string := "Visit_ID".

(** The test [not pid] on what a record of [csv.DictReader] holds under a
    column name, a [str] or [None]: the key to use, if the test fails. *)
Definition as_id (v : option pyval) : option string :=
  match v with
  | Some (VStr s) => if String.eqb s "" then None else Some s
  | _ => None
  end.

Definition is_id_column (k : option string) : bool :=
  bool_decide (k = Some ID_PATIENT) || bool_decide (k = Some ID_VISIT).

Definition load_data_row (self : PatientDatabase) (row : pydict)
    : PatientDatabase :=
  match as_id (dict_get (Some ID_PATIENT) row),
        as_id (dict_get (Some ID_VISIT) row) with
  | Some pid, Some vid =>
      let data0 := List.filter (fun kv => negb (is_id_column kv.1)) row in
      let '(rec, patients1) :=
        dict_setdefault pid (mkPatient pid []) (patients self) in
      mkDatabase (dict_set pid (add_visit vid data0 None rec) patients1)
  | _, _ => self
  end.

Definition load_data (file_path : string) (fs : filesystem)
    (self : PatientDatabase) : PatientDatabase :=
  match fs !! file_path with
  | None => self
  | Some f => fold_left load_data_row (DictReader f) self
  end.

Definition load_notes_row (self : PatientDatabase) (row : pydict)
    : PatientDatabase :=
  match as_id (dict_get (Some ID_PATIENT) row),
        as_id (dict_get (Some ID_VISIT) row),
        as_id (dict_get (Some "Note_ID") row) with
  | Some pid, Some vid, Some note_id =>
      let note_text := default VNone (dict_get (Some "Note_text") row) in
      let notes0 : pydict :=
        [(Some "Note_ID", VStr note_id); (Some "Note_text", note_text)] in
      let '(patient, patients1) :=
        dict_setdefault pid (mkPatient pid []) (patients self) in
      let '(visit, visits1) :=
        dict_setdefault vid (mkVisit [] []) (visits patient) in
      let visit' := mkVisit (data visit) (notes visit ++ [notes0]) in
      mkDatabase
        (dict_set pid (mkPatient (patient_id patient) (dict_set vid visit' visits1))
           patients1)
  | _, _, _ => self
  end.

Definition load_notes_data (file_path : string) (fs : filesystem)
    (self : PatientDatabase) : PatientDatabase :=
  match fs !! file_path with
  | None => self
  | Some f => fold_left load_notes_row (DictReader f) self
  end.

(** The dict display [{"Patient_ID": pid, "Visit_ID": vid, **rest}]. *)
Definition flat_row (pid vid : string) (rest : pydict) : pydict :=
  dict_update [(Some ID_PATIENT, VStr pid); (Some ID_VISIT, VStr vid)] rest.

Definition get_visit_data_rows (self : PatientDatabase) : list pydict :=
  flat_map (fun pr =>
    map (fun vv => flat_row (patient_id pr) vv.1 (data vv.2)) (visits pr))
    (dict_values (patients self)).

Definition get_visit_notes_rows (self : PatientDatabase) : list pydict :=
  flat_map (fun pr =>
    flat_map (fun vv =>
      map (fun note => flat_row (patient_id pr) vv.1 note) (notes vv.2))
      (visits pr))
    (dict_values (patients self)).

Definition save_visit_data (can_open : string -> bool) (file_path : string)
    (fieldnames : list string) (self : PatientDatabase) (fs : filesystem)
    : outcome unit * filesystem :=
  write_csv can_open file_path fieldnames (get_visit_data_rows self) fs.

Definition NOTES_FIELDNAMES : list string :=
  ["Patient_ID"; "Visit_ID"; "Note_ID"; "Note_text"].

Definition save_visit_notes (can_open : string -> bool) (file_path : string)
    (self : PatientDatabase) (fs : filesystem) : outcome unit * filesystem :=
  write_csv can_open file_path NOTES_FIELDNAMES (get_visit_notes_rows self) fs.

Definition list_patient_ids (self : PatientDatabase) : list string :=
  dict_keys (patients self).

Definition get_patient (patient_id0 : string) (self : PatientDatabase)
    : option PatientRecord :=
  dict_get patient_id0 (patients self).

Definition remove_patient (patient_id0 : string) (self : PatientDatabase)
    : bool * PatientDatabase :=
  match dict_get patient_id0 (patients self) with
  | Some _ =>
      (true,
       mkDatabase
         (List.filter (fun kv => negb (bool_decide (kv.1 = patient_id0))) (patients self)))
  | None => (false, self)
  end.

(** The body of the loop over the notes of one visit. *)
Definition retrieve_note (info_key : string) (result : list pyval)
    (note : pydict) : list pyval :=
  match dict_get (Some info_key) note with
  | Some v => result ++ [v]
  | None => result
  end.

(** The body of the loop over the visits. *)
Definition retrieve_visit (info_key : string) (result : list pyval)
    (vr : VisitRecord) : list pyval :=
  let result1 :=
    match dict_get (Some info_key) (data vr) with
    | Some v => result ++ [v]
    | None => result
    end in
  fold_left (retrieve_note info_key) (notes vr) result1.

(** The value returned and the store after the call. *)
Definition retrieve_patient_info (patient_id0 info_key : string)
    (self : PatientDatabase) : option (list pyval) * PatientDatabase :=
  match get_patient patient_id0 self with
  | None => (None, self)
  | Some record =>
      (Some (fold_left (retrieve_visit info_key) (dict_values (visits record)) []),
       self)
  end.

(** A loop whose body may raise. *)
Fixpoint for_each {A S : Type} (body : S -> A -> outcome S) (l : list A) (s : S)
    : outcome S :=
  match l with
  | [] => Returned s
  | a :: l' => s' ← body s a; for_each body l' s'
  end.

(** [vr.data.get("Visit_time", "").strip()]: only a [str] has [strip]. *)
Definition visit_time (vr : VisitRecord) : outcome string :=
  match dict_get (Some "Visit_time") (data vr) with
  | None => Returned (py_strip "")
  | Some (VStr s) => Returned (py_strip s)
  | Some _ => Raised AttributeError
  end.

Definition count_visit (target : date) (total : Z) (vr : VisitRecord)
    : outcome Z :=
  vt ← visit_time vr;
  match parse_count vt with
  | None => Returned total
  | Some visit_date =>
      if bool_decide (visit_date = target) then Returned (total + 1)
      else Returned total
  end.

Definition count_visits_in_day (day_str : string) (self : PatientDatabase)
    : outcome (option Z) :=
  match parse_count (py_strip day_str) with
  | None => Returned None
  | Some target =>
      total ← for_each
                (fun total pr =>
                   for_each (count_visit target) (dict_values (visits pr)) total)
                (dict_values (patients self)) 0;
      Returned (Some total)
  end.

(** ** CredentialsManager *)

Record Credential : Type := mkCredential { password : string; role : string }.

Definition REQUIRED : list string := ["username"; "password"; "role"].

(** [row[key].strip()] for a required column: the key is present in every
    record once the header names it, under a [str] or [None]. *)
Definition stripped_field (key : string) (row : pydict) : outcome string :=
  match dict_get (Some key) row with
  | Some (VStr s) => Returned (py_strip s)
  | _ => Raised AttributeError
  end.

Definition nonempty (s : string) : bool := negb (String.eqb s "").

Definition load_credential (credentials : dict string Credential) (row : pydict)
    : outcome (dict string Credential) :=
  user0 ← stripped_field "username" row;
  let user := py_lower user0 in
  pwd ← stripped_field "password" row;
  role0 ← stripped_field "role" row;
  if nonempty user && nonempty pwd && nonempty role0
  then Returned (dict_set user (mkCredential pwd role0) credentials)
  else Returned credentials.

(** [CredentialsManager._load], from the empty table of [__init__]. *)
Definition _load (file_path : string) (fs : filesystem)
    : outcome (dict string Credential) :=
  match fs !! file_path with
  | None => Raised FileNotFoundError
  | Some f =>
      let fieldnames := default [] (reader_fieldnames f) in
      if forallb (fun k => bool_decide (k ∈ fieldnames)) REQUIRED
      then for_each load_credential (DictReader f) []
      else Raised ValueError
  end.

(** [hmac.compare_digest] on two [str]: only ASCII strings are compared. *)
Definition compare_digest (a b : string) : outcome bool :=
  if Str.isascii (list_ascii_of_string a) && Str.isascii (list_ascii_of_string b)
  then Returned (String.eqb a b) else Raised TypeError.

Definition authenticate (credentials : dict string Credential)
    (username password0 : string) : outcome (option string) :=
  let key := py_lower (py_strip username) in
  match dict_get key credentials with
  | None => Returned None
  | Some cred =>
      ok ← compare_digest (password cred) password0;
      if ok : bool then Returned (Some (role cred)) else Returned None
  end.

(** ** Notions used in the statements *)

(** The fields and the notes of a visit of a patient record, both empty
    for a visit the record does not have. *)
Definition fields_of (visit_id : string) (r : PatientRecord) : pydict :=
  match dict_get visit_id (visits r) with
  | Some vr => data vr
  | None => []
  end.

Definition notes_of (visit_id : string) (r : PatientRecord) : list pydict :=
  match dict_get visit_id (visits r) with
  | Some vr => notes vr
  | None => []
  end.

(** A run of [add_visit] calls on one visit id, each with its field map and
    its optional note. *)
Definition add_visit_calls (visit_id : string)
    (calls : list (pydict * option pydict)) (self : PatientRecord)
    : PatientRecord :=
  fold_left (fun r c => add_visit visit_id c.1 c.2 r) calls self.

(** The value the last of the maps that has key [k] gives to it. *)
Fixpoint last_supplied (k : option string) (maps : list pydict) : option pyval :=
  match maps with
  | [] => None
  | m :: maps' =>
      match last_supplied k maps' with
      | Some v => Some v
      | None => dict_get k m
      end
  end.

(** No key occurs in two of the maps. *)
Fixpoint pairwise_disjoint (maps : list pydict) : Prop :=
  match maps with
  | [] => True
  | m :: maps' =>
      (forall k m', m' ∈ maps' -> dict_mem k m = true -> dict_mem k m' = false)
      /\ pairwise_disjoint maps'
  end.

(** The notes a run of calls appends: those that are true as a condition. *)
Definition appended_notes (calls : list (pydict * option pydict)) : list pydict :=
  flat_map (fun c =>
    match c.2 with
    | Some n => if notes_truthy (Some n) then [n] else []
    | None => []
    end) calls.

(** What one visit contributes to [retrieve_patient_info]: the field, if
    the visit has it, then the entry of each note that has the key. *)
Definition visit_hits (info_key : string) (vr : VisitRecord) : list pyval :=
  option_list (dict_get (Some info_key) (data vr))
  ++ flat_map (fun note => option_list (dict_get (Some info_key) note)) (notes vr).

(** All the visits of the store, in the order of the two nested loops. *)
Definition all_visits (self : PatientDatabase) : list VisitRecord :=
  flat_map (fun pr => dict_values (visits pr)) (dict_values (patients self)).

(** The date a visit carries: its [Visit_time], when it is a string that
    parses in the month/day/year format. *)
Definition stored_date (vr : VisitRecord) : option date :=
  match dict_get (Some "Visit_time") (data vr) with
  | Some (VStr s) => parse_count (py_strip s)
  | _ => None
  end.

(** The number of visits that carry the date [target]. *)
Definition visits_on (target : date) (self : PatientDatabase) : Z :=
  Z.of_nat
    (length (List.filter (fun vr => bool_decide (stored_date vr = Some target))
               (all_visits self))).

(** One turn of the counting loop, when nothing raises. *)
Definition count_step (target : date) (total : Z) (vr : VisitRecord) : Z :=
  if bool_decide (stored_date vr = Some target) then total + 1 else total.

(** The [Visit_time] of the visit, if it has one, is a string. *)
Definition time_is_str (vr : VisitRecord) : Prop :=
  match dict_get (Some "Visit_time") (data vr) with
  | Some (VStr _) | None => True
  | Some _ => False
  end.

(** The visit of a patient of the store. *)
Definition find_visit (pid vid : string) (self : PatientDatabase)
    : option VisitRecord :=
  pr ← dict_get pid (patients self); dict_get vid (visits pr).

(** Append-only: the notes of [old] are the first notes of [new], and
    every field name of [old] is a field name of [new]. *)
Definition visit_grows (old new : VisitRecord) : Prop :=
  notes old `prefix_of` notes new
  /\ forall k, dict_mem k (data old) = true -> dict_mem k (data new) = true.

(** The visits of a patient record, and of a store, only grow. *)
Definition record_grows (r r' : PatientRecord) : Prop :=
  forall vid old new,
    dict_get vid (visits r) = Some old -> dict_get vid (visits r') = Some new ->
    visit_grows old new.

Definition store_grows (db db' : PatientDatabase) : Prop :=
  forall pid vid old new,
    find_visit pid vid db = Some old -> find_visit pid vid db' = Some new ->
    visit_grows old new.

(** The same, and no visit goes away. *)
Definition store_extends (db db' : PatientDatabase) : Prop :=
  forall pid vid old,
    find_visit pid vid db = Some old ->
    exists new, find_visit pid vid db' = Some new /\ visit_grows old new.

(** The visit after fields [d] are merged into what was there, if
    anything. *)
Definition merge_visit (d : pydict) (o : option VisitRecord) : VisitRecord :=
  let vr := default (mkVisit [] []) o in
  mkVisit (dict_update (data vr) d) (notes vr).

(** The visit after note [n] is appended to what was there, if anything. *)
Definition append_note (n : pydict) (o : option VisitRecord) : VisitRecord :=
  let vr := default (mkVisit [] []) o in
  mkVisit (data vr) (notes vr ++ [n]).

(** The fields [load_data] takes from a record, and the note
    [load_notes_data] makes of one. *)
Definition row_data (row : pydict) : pydict :=
  List.filter (fun kv => negb (is_id_column kv.1)) row.

Definition row_note (note_id : string) (row : pydict) : pydict :=
  [(Some "Note_ID", VStr note_id);
   (Some "Note_text", default VNone (dict_get (Some "Note_text") row))].

(** The required field of a credentials record after trimming, when it
    is a string. *)
Definition trimmed (key : string) (row : pydict) : option string :=
  match dict_get (Some key) row with
  | Some (VStr s) => Some (py_strip s)
  | _ => None
  end.

(** What a credentials row contributes to the table: nothing when the
    user name, the password or the role is empty after trimming. *)
Definition kept (row : pydict) : option (string * Credential) :=
  u ← trimmed "username" row;
  p ← trimmed "password" row;
  r ← trimmed "role" row;
  if nonempty u && nonempty p && nonempty r
  then Some (py_lower u, mkCredential p r) else None.

(** The credential of the last kept row with user name [u]. *)
Definition last_kept (u : string) (rows : list pydict) : option Credential :=
  dict_get u (rev (omap kept rows)).

(** The three required fields of the record are strings. *)
Definition has_required (row : pydict) : Prop :=
  is_Some (trimmed "username" row) /\ is_Some (trimmed "password" row)
  /\ is_Some (trimmed "role" row).

(** *** Writing both files and reading them back *)

(** [save_visit_data] and [save_visit_notes], then [load_data] and
    [load_notes_data] into a fresh store. *)
Definition round_trip (can_open : string -> bool) (data_path notes_path : string)
    (column_order : list string) (self : PatientDatabase) (fs : filesystem)
    : outcome PatientDatabase :=
  let r1 := save_visit_data can_open data_path column_order self fs in
  _ ← r1.1;
  let r2 := save_visit_notes can_open notes_path self r1.2 in
  _ ← r2.1;
  Returned
    (load_notes_data notes_path r2.2 (load_data data_path r2.2 (mkDatabase []))).

(** The visits of the store with the patient id and the visit id the
    rows are written with. *)
Definition visit_triples (self : PatientDatabase)
    : list (string * string * VisitRecord) :=
  flat_map (fun pr => map (fun vv => (patient_id pr, vv.1, vv.2)) (visits pr))
    (dict_values (patients self)).

(** A note as [load_notes_data] and the entry form make it: a note id that
    is not empty and a text, both strings. *)
Definition note_ok (n : pydict) : bool :=
  match n with
  | [(Some k1, VStr id); (Some k2, VStr _)] =>
      String.eqb k1 "Note_ID" && String.eqb k2 "Note_text" && nonempty id
  | _ => false
  end.

(** A field name of the column list that is not one of the id columns. *)
Definition field_ok (column_order : list string) (k : option string) : bool :=
  match k with
  | Some c => bool_decide (c ∈ column_order) && negb (is_id_column k)
  | None => false
  end.

Definition visit_ok (column_order : list string) (vr : VisitRecord) : bool :=
  bool_decide (NoDup (dict_keys (data vr)))
  && forallb (field_ok column_order) (dict_keys (data vr))
  && forallb note_ok (notes vr).

Definition patient_ok (column_order : list string) (kp : string * PatientRecord)
    : bool :=
  String.eqb (patient_id kp.2) kp.1 && nonempty kp.1
  && bool_decide (NoDup (dict_keys (visits kp.2)))
  && forallb (fun vv => nonempty vv.1 && visit_ok column_order vv.2) (visits kp.2).

(** The store is made of Python dicts, every record is filed under its own
    patient id, no id is empty, the field names are columns other than the
    id columns, and the notes are as above. *)
Definition store_ok (column_order : list string) (self : PatientDatabase) : bool :=
  bool_decide (NoDup (dict_keys (patients self)))
  && forallb (patient_ok column_order) (patients self).


(** The two ids of a record of the visit data file, and of the notes
    file, when the loader takes the record. *)
Definition data_key (row : pydict) : option (string * string) :=
  match as_id (dict_get (Some ID_PATIENT) row),
        as_id (dict_get (Some ID_VISIT) row) with
  | Some pid, Some vid => Some (pid, vid)
  | _, _ => None
  end.

Definition note_key (row : pydict) : option (string * string) :=
  match as_id (dict_get (Some ID_PATIENT) row),
        as_id (dict_get (Some ID_VISIT) row),
        as_id (dict_get (Some "Note_ID") row) with
  | Some pid, Some vid, Some _ => Some (pid, vid)
  | _, _, _ => None
  end.

Definition note_of (row : pydict) : pydict :=
  match as_id (dict_get (Some "Note_ID") row) with
  | Some note_id => row_note note_id row
  | None => []
  end.

(** The record the reader makes of the row written for a visit, and of
    the row written for a note. *)
Definition data_record (column_order : list string)
    (t : string * string * VisitRecord) : pydict :=
  read_row column_order
    (row_cells column_order (flat_row t.1.1 t.1.2 (data t.2))).

Definition note_record (pid vid : string) (n : pydict) : pydict :=
  read_row NOTES_FIELDNAMES (row_cells NOTES_FIELDNAMES (flat_row pid vid n)).

Definition triple_ok (column_order : list string)
    (t : string * string * VisitRecord) : bool :=
  nonempty t.1.1 && nonempty t.1.2 && visit_ok column_order t.2.

Definition has_ids (p v : string) (t : string * string * VisitRecord) : bool :=
  bool_decide ((t.1.1, t.1.2) = (p, v)).

(** ** Sample data *)

(** A machine whose working directory has no directory in it: a plain file
    name opens, the empty path and a path through a directory do not. *)
Definition open_here (file_path : string) : bool :=
  negb (String.eqb file_path "")
  && negb (existsb (Ascii.eqb "/") (list_ascii_of_string file_path)).

Definition record_demo : PatientRecord :=
  mkPatient "P1"
    [("V1", mkVisit [(Some "Age", VStr "30")]
              [[(Some "Note_ID", VStr "n1"); (Some "Note_text", VStr "seen")]])].

Definition calls_demo : list (pydict * option pydict) :=
  [([(Some "Age", VStr "31"); (Some "Race", VStr "A")], None);
   ([(Some "Age", VStr "32")], Some [(Some "Note_ID", VStr "n2")])].

(** A visit data file whose only row stops after the visit id. *)
Definition short_row_fs : filesystem :=
  {[ "Patient_data.csv" :=
       [["Patient_ID"; "Visit_ID"; "Visit_time"]; ["P1"; "V1"]] ]}.



Definition credentials_fs : filesystem :=
  {[ "Credentials.csv" :=
       [["username"; "password"; "role"];
        [" Bob "; "pw"; "admin"];
        ["carol"; " "; "nurse"];
        ["BOB"; "pw2"; "nurse"]] ]}.

Definition store_demo : PatientDatabase :=
  mkDatabase
    [("P1", record_demo);
     ("P2", mkPatient "P2"
        [("V8", mkVisit [(Some "Age", VInt 41)]
                  [[(Some "Note_ID", VStr "n3"); (Some "Age", VStr "forty-one")];
                   [(Some "Note_ID", VStr "n4")]]);
         ("V9", mkVisit [(Some "Race", VStr "B")] [])])].

(** The column list of the application. *)
Definition data_fieldnames : list string :=
  ["Patient_ID"; "Visit_ID"; "Visit_time"; "Visit_department"; "Race"; "Gender";
   "Ethnicity"; "Age"; "Zip_code"; "Insurance"; "Chief_complaint"; "Note_ID";
   "Note_type"].


(** A store with string, [int] and [None] fields and two notes. *)
Definition clinic_db : PatientDatabase :=
  mkDatabase
    [("P1", mkPatient "P1"
       [("V1", mkVisit [(Some "Visit_time", VStr "3/14/2024"); (Some "Age", VInt 30)]
                 [[(Some "Note_ID", VStr "n1"); (Some "Note_text", VStr "seen")];
                  [(Some "Note_ID", VStr "n2"); (Some "Note_text", VStr "")]]);
        ("V2", mkVisit [(Some "Race", VNone)] [])]);
     ("P2", mkPatient "P2" [])].

(** A store with a note whose text is [None]. *)
Definition none_text_db : PatientDatabase :=
  mkDatabase
    [("P1", mkPatient "P1"
       [("V1", mkVisit [(Some "Visit_time", VStr "3/14/2024")]
                 [[(Some "Note_ID", VStr "n1"); (Some "Note_text", VNone)]])])].

(** A notes file with one note. *)
Definition one_note_fs : filesystem :=
  {[ "Notes.csv" := [["Patient_ID"; "Visit_ID"; "Note_ID"; "Note_text"];
                     ["P1"; "V1"; "n1"; "seen"]] ]}.



(** A pair as [collect_visit_data] returns it. *)
Definition form_data : pydict :=
  [(Some "Visit_time", VStr "03/14/2024"); (Some "Visit_department", VStr "Er");
   (Some "Race", VStr "Asian"); (Some "Gender", VStr "Female");
   (Some "Ethnicity", VStr "Hispanic"); (Some "Age", VInt 41);
   (Some "Zip_code", VStr "60601"); (Some "Insurance", VStr "Aetna");
   (Some "Chief_complaint", VStr "Cough"); (Some "Note_ID", VStr "a1b2");
   (Some "Note_type", VStr "Triage")].

Definition form_notes : pydict :=
  [(Some "Note_ID", VStr "a1b2"); (Some "Note_text", VStr "seen")].


(** ** The usage log ([record_event] of [Codes/functions.py]) *)

Definition USAGE_FIELDS : list string :=
  ["username"; "role"; "timestamp"; "event"; "action"].

(** One call of [record_event].  [usage_file] is the path [USAGE_FILE] and
    [timestamp] the text of [datetime.now().isoformat()], both given by the
    environment. *)
Definition record_event (usage_file timestamp : string)
    (username role0 event action : string) (fs : filesystem)
    : outcome unit * filesystem :=
  (* open(USAGE_FILE, "x") and writeheader(), unless the file exists *)
  let fs1 :=
    match fs !! usage_file with
    | Some _ => fs
    | None => <[usage_file := [USAGE_FIELDS]]> fs
    end in
  (* open(USAGE_FILE, "a") and writerow({...}) *)
  let rowdict : pydict :=
    [(Some "username", VStr username); (Some "role", VStr role0);
     (Some "timestamp", VStr timestamp); (Some "event", VStr event);
     (Some "action", VStr action)] in
  match dict_to_list USAGE_FIELDS rowdict with
  | Returned cells =>
      (Returned tt,
       <[usage_file := default [] (fs1 !! usage_file) ++ [cells]]> fs1)
  | Raised e => (Raised e, fs1)
  end.

(** An event to record: time stamp, user name, role, event, action. *)
Record usage_event : Type := mkEvent {
  ev_timestamp : string;
  ev_username : string;
  ev_role : string;
  ev_event : string;
  ev_action : string
}.

Definition event_cells (e : usage_event) : list string :=
  [ev_username e; ev_role e; ev_timestamp e; ev_event e; ev_action e].

(** A run of [record_event] calls. *)
Definition record_events (usage_file : string) (events : list usage_event)
    (fs : filesystem) : filesystem :=
  fold_left
    (fun fs0 e =>
       (record_event usage_file (ev_timestamp e) (ev_username e) (ev_role e)
          (ev_event e) (ev_action e) fs0).2)
    events fs.

(** The [Visit_time] of every visit of the list is a string, if there. *)
Definition times_are_str (vrs : list VisitRecord) : bool :=
  forallb
    (fun vr =>
       match dict_get (Some "Visit_time") (data vr) with
       | Some (VStr _) | None => true
       | Some _ => false
       end) vrs.

(** The three required fields of every record are strings. *)
Definition records_have_required (rows : list pydict) : bool :=
  forallb
    (fun row =>
       match trimmed "username" row, trimmed "password" row, trimmed "role" row with
       | Some _, Some _, Some _ => true
       | _, _, _ => false
       end) rows.



(** ** The date dialog ([prompt_date] of [Codes/functions.py]) *)

(** The expression of ["%Y-%m-%d"] and of ["%Y/%m/%d"]:
    [(?P<Y>\d\d\d\d)sep(?P<m>1[0-2]|0[1-9]|[1-9])sep(?P<d>3[0-1]|[1-2]\d|0[1-9]|[1-9]| [1-9])].
    The three groups and the text left. *)
Definition re_Ymd (sep : ascii) (s : Str.chars)
    : list (Str.chars * Str.chars * Str.chars * Str.chars) :=
  flat_map (fun y =>
    flat_map (fun s1 =>
      flat_map (fun m =>
        flat_map (fun s2 =>
          map (fun d => (y.1, m.1, d.1, d.2)) (Re.re_d s2.2))
          (Re.lit sep m.2))
        (Re.re_m s1.2))
      (Re.lit sep y.2))
    (Re.re_Y s).

(** [datetime.strptime(s, "%Y" + sep + "%m" + sep + "%d").date()] *)
Definition strptime_Ymd (sep : ascii) (s : Str.chars) : option date :=
  match re_Ymd sep s with
  | [] => None
  | (y, m, d, rest) :: _ =>
      match rest with
      | _ :: _ => None
      | [] =>
          y' ← Str.int y; m' ← Str.int m; d' ← Str.int d; py_date y' m' d'
      end
  end.

Definition digit_char (n : Z) : ascii := ascii_of_N (Z.to_N (48 + n)).

(** A number below 100 on two digits. *)
Definition pad2 (n : Z) : Str.chars := [digit_char (n / 10); digit_char (n mod 10)].

(** A number below 10000 on four digits. *)
Definition digits4 (y : Z) : Str.chars :=
  [digit_char (y / 1000); digit_char (y / 100 mod 10);
   digit_char (y / 10 mod 10); digit_char (y mod 10)].

Fixpoint drop_zeros (s : Str.chars) : Str.chars :=
  match s with
  | c :: s' => if Ascii.eqb c "0" then drop_zeros s' else s
  | [] => []
  end.

(** [%Y] of [strftime] for a year from 1 to 9999.  The C library decides
    whether a year below 1000 is padded with zeros: [pad_year] tells which
    library the interpreter runs on. *)
Definition year_text (pad_year : bool) (y : Z) : Str.chars :=
  if pad_year then digits4 y else drop_zeros (digits4 y).

(** [dt.strftime("%m/%d/%Y")] *)
Definition strftime_mdY (pad_year : bool) (dt : date) : Str.chars :=
  pad2 (month dt) ++ "/"%char :: pad2 (day dt) ++ "/"%char :: year_text pad_year (year dt).

(** The date [prompt_date] reads in an answer, trying ["%Y-%m-%d"] and then
    ["%Y/%m/%d"] on the answer stripped; [None] when neither parses (the
    dialog then shows an error and asks again). *)
Definition prompt_date_parse (raw : string) : option date :=
  let s := Str.strip (list_ascii_of_string raw) in
  match strptime_Ymd "-" s with
  | Some dt => Some dt
  | None => strptime_Ymd "/" s
  end.

(** What [prompt_date] returns for an answer it accepts. *)
Definition prompt_date_answer (pad_year : bool) (raw : string) : option string :=
  (fun dt => string_of_list_ascii (strftime_mdY pad_year dt)) <$> prompt_date_parse raw.

(** ** The yearly trend ([show_temporal_trends] of [Codes/functions.py]) *)

(** One turn of the loop over [db.get_visit_data_rows()]: a [Visit_time]
    that is false as a condition is passed over, as is one that does not
    parse; [strip] is called on any other value, and only a [str] has
    it. *)
Definition trend_row (year_counts : dict Z Z) (row : pydict) : outcome (dict Z Z) :=
  let count (s : string) :=
    match parse_count (py_strip s) with
    | Some visit_date =>
        dict_set (year visit_date)
          (default 0 (dict_get (year visit_date) year_counts) + 1) year_counts
    | None => year_counts
    end in
  match dict_get (Some "Visit_time") row with
  | None | Some VNone => Returned year_counts
  | Some (VStr s) =>
      if String.eqb s "" then Returned year_counts else Returned (count s)
  | Some (VInt z) => if z =? 0 then Returned year_counts else Raised AttributeError
  | Some (VList l) =>
      match l with [] => Returned year_counts | _ :: _ => Raised AttributeError end
  end.

(** The table of [show_temporal_trends]: [None] stands for the branch that
    reports that there is no valid date; otherwise the years, sorted, each
    with its count. *)
Definition trend_table (self : PatientDatabase) : outcome (option (list (Z * Z))) :=
  year_counts ← for_each trend_row (get_visit_data_rows self) [];
  match year_counts with
  | [] => Returned None
  | _ :: _ =>
      let years := merge_sort Z.le (dict_keys year_counts) in
      let counts := map (fun y => default 0 (dict_get y year_counts)) years in
      Returned (Some (zip years counts))
  end.

(** The number of visits that carry a date of year [y]. *)
Definition visits_in_year (y : Z) (self : PatientDatabase) : Z :=
  Z.of_nat
    (length (List.filter (fun vr => bool_decide (year <$> stored_date vr = Some y))
               (all_visits self))).

(** One turn of the loop, on the visit, when nothing raises. *)
Definition trend_step (year_counts : dict Z Z) (vr : VisitRecord) : dict Z Z :=
  match stored_date vr with
  | Some visit_date =>
      dict_set (year visit_date)
        (default 0 (dict_get (year visit_date) year_counts) + 1) year_counts
  | None => year_counts
  end.

(** The [Visit_time] of the visit is a string or is false as a condition. *)
Definition time_is_usable (vr : VisitRecord) : bool :=
  match dict_get (Some "Visit_time") (data vr) with
  | Some (VInt z) => z =? 0
  | Some (VList l) => match l with [] => true | _ :: _ => false end
  | _ => true
  end.

(** The field maps of the visits are Python dicts. *)
Definition fields_wf (vrs : list VisitRecord) : bool :=
  forallb (fun vr => bool_decide (NoDup (dict_keys (data vr)))) vrs.

(** ** The handlers that change the store ([add_patient], [remove_patient]
    of [Codes/functions.py]) *)

(** [add_patient] after the dialogs: [pid] is the patient id typed ([None]
    when the dialog is cancelled), [pair] the result of
    [collect_visit_data] and [vid] the visit id drawn by [uuid.uuid4()].
    The store is changed in memory before the files are written, and stays
    changed when a save raises.  [can_open] tells which paths the machine
    opens for writing. *)
Definition add_patient (can_open : string -> bool) (pid : option string)
    (pair : option (pydict * pydict)) (vid : string)
    (data_file notes_file : string) (data_fieldnames0 : list string)
    (db : PatientDatabase) (fs : filesystem)
    : outcome unit * PatientDatabase * filesystem :=
  match pid with
  | None => (Returned tt, db, fs)
  | Some pid =>
      if String.eqb pid "" then (Returned tt, db, fs)
      else
        (* if db.get_patient(pid): ... else: db.patients[pid] = PatientRecord(pid) *)
        let db1 :=
          match get_patient pid db with
          | Some _ => db
          | None => mkDatabase (dict_set pid (mkPatient pid []) (patients db))
          end in
        match pair with
        | None => (Returned tt, db1, fs)
        | Some (visit_data, visit_notes) =>
            match get_patient pid db1 with
            | None => (Returned tt, db1, fs) (* not reached: the patient is there *)
            | Some rec =>
                (* rec.add_visit(vid, data=visit_data, notes=visit_notes) *)
                let db2 :=
                  mkDatabase
                    (dict_set pid (add_visit vid visit_data (Some visit_notes) rec)
                       (patients db1)) in
                let r1 := save_visit_data can_open data_file data_fieldnames0 db2 fs in
                match r1.1 with
                | Raised e => (Raised e, db2, r1.2)
                | Returned _ =>
                    let r2 := save_visit_notes can_open notes_file db2 r1.2 in
                    (r2.1, db2, r2.2)
                end
            end
        end
  end.


(** The store after the start-up of the application: [load_data] and
    [load_notes_data] into an empty store. *)
Definition start_up (data_file notes_file : string) (fs : filesystem)
    : PatientDatabase :=
  load_notes_data notes_file fs (load_data data_file fs (mkDatabase [])).

(** The visit [add_patient] makes of the pair when the visit id is new. *)
Definition form_visit (visit_data visit_notes : pydict) : VisitRecord :=
  mkVisit (dict_update [] visit_data) (appended_notes [(visit_data, Some visit_notes)]).

(** The store [add_patient] leaves in memory, whatever becomes of the
    saves. *)
Definition added (pid : string) (visit_data visit_notes : pydict) (vid : string)
    (db : PatientDatabase) : PatientDatabase :=
  (add_patient (fun _ => false) (Some pid) (Some (visit_data, visit_notes)) vid
     "" "" [] db ∅).1.2.

(** ** Logging in ([PatientApp] of [Codes/main.py]) *)

Inductive user_class : Type := ManagerUser | AdminUser | ClinicianUser | NurseUser.

Definition ROLE_MAP : dict string user_class :=
  [("management", ManagerUser); ("admin", AdminUser);
   ("clinician", ClinicianUser); ("nurse", NurseUser)].

(** A user object: its class, [self.username] and [self.role]. *)
Record User : Type := mkUser {
  user_cls : user_class;
  user_name : string;
  user_role : string
}.

(** The paths the application works with. *)
Record app_paths : Type := mkPaths {
  users_file : string;
  data_file_of : string;
  notes_file_of : string;
  usage_file_of : string
}.

(** How a click on the login button ends: with one of the three error
    boxes, with the welcome screen for a user and the store loaded for
    them, or with an exception that nothing catches. *)
Inductive login_answer : Type :=
  | CredentialsError (e : exn)
  | LoginFailed
  | UnsupportedRole (role0 : string)
  | Welcome (u : User) (db : PatientDatabase)
  | Uncaught (e : exn)
  | UncaughtKeyError (key : string).

Module PatientApp.

(** [dispatch_user]; [now] is the time stamp [record_event] would take. *)
Definition dispatch_user (env : app_paths) (now : string)
    (username role0 : string) (credentials : dict string Credential)
    (fs : filesystem) : login_answer * filesystem :=
  match dict_get role0 ROLE_MAP with
  | None =>
      let r := record_event (usage_file_of env) now username role0
                 "login_failed" "unsupported_role" fs in
      match r.1 with
      | Returned _ => (UnsupportedRole role0, r.2)
      | Raised e => (Uncaught e, r.2)
      end
  | Some cls =>
      (* cls(username, credentials[username.lower()]) *)
      match dict_get (py_lower username) credentials with
      | None => (UncaughtKeyError (py_lower username), fs)
      | Some cred =>
          let db :=
            load_notes_data (notes_file_of env) fs
              (load_data (data_file_of env) fs (mkDatabase [])) in
          (Welcome (mkUser cls username (role cred)) db, fs)
      end
  end.

(** [authenticate], the handler of the login button, on the texts of the
    two entries; [now1] and [now2] are the time stamps of the first and of
    the second [record_event] of the run. *)
Definition authenticate (env : app_paths) (now1 now2 : string)
    (username_entry password_entry : string) (fs : filesystem)
    : login_answer * filesystem :=
  let username := py_strip username_entry in
  let password0 := py_strip password_entry in
  match _load (users_file env) fs with
  | Raised e =>
      match e with
      | FileNotFoundError | ValueError =>
          let r := record_event (usage_file_of env) now1 username ""
                     "login_failed" "load_credentials_error" fs in
          match r.1 with
          | Returned _ => (CredentialsError e, r.2)
          | Raised e' => (Uncaught e', r.2)
          end
      | _ => (Uncaught e, fs)
      end
  | Returned credentials =>
      match authenticate credentials username password0 with
      | Raised e => (Uncaught e, fs)
      | Returned role0 =>
          match role0 with
          | Some (String c r as role1) =>
              let r1 := record_event (usage_file_of env) now1 username role1
                          "login_success" "" fs in
              match r1.1 with
              | Returned _ =>
                  dispatch_user env now2 username (py_lower role1) credentials r1.2
              | Raised e => (Uncaught e, r1.2)
              end
          | _ =>
              (* if not role: *)
              let r := record_event (usage_file_of env) now1 username ""
                         "login_failed" "" fs in
              match r.1 with
              | Returned _ => (LoginFailed, r.2)
              | Raised e => (Uncaught e, r.2)
              end
          end
      end
  end.

End PatientApp.

(** The row [record_event] appends. *)
Definition log_row (now username role0 event action : string) : list string :=
  event_cells (mkEvent now username role0 event action).

(** The log after the rows [rows] are appended to it. *)
Definition log_after (usage_file : string) (rows : list (list string))
    (fs : filesystem) : list (list string) :=
  default [USAGE_FIELDS] (fs !! usage_file) ++ rows.

(** The files of the application. *)
Definition paths_demo : app_paths :=
  mkPaths "Credentials.csv" "Patient_data.csv" "Notes.csv" "usage_log.csv".

(** ** Viewing notes ([view_notes] of [Codes/functions.py]) *)

(** [str(v)], as an f-string formats a value. *)
Definition py_str (v : pyval) : string :=
  match v with
  | VNone => "None"
  | VStr s => s
  | VInt z => Repr.str_int z
  | VList l => string_of_list_ascii (Repr.str_list l)
  end.

Definition newline : string := String (ascii_of_N 10) EmptyString.

(** [note.get('Note_text', '').strip()]: only a [str] has [strip]. *)
Definition note_text (note : pydict) : outcome string :=
  match dict_get (Some "Note_text") note with
  | None => Returned (py_strip "")
  | Some (VStr s) => Returned (py_strip s)
  | Some _ => Raised AttributeError
  end.

(** The text appended for one note. *)
Definition note_block (vid : string) (note_type : pyval) (note : pydict)
    : outcome string :=
  let note_id := default (VStr "N/A") (dict_get (Some "Note_ID") note) in
  text ← note_text note;
  Returned
    ("Visit ID: " ++ vid ++ newline
     ++ "  Note ID: " ++ py_str note_id ++ newline
     ++ "  Type:    " ++ py_str note_type ++ newline
     ++ "  Text:    " ++ text ++ newline)%string.

(** [bool(visit.notes)] *)
Definition has_notes (vr : VisitRecord) : bool :=
  match notes vr with [] => false | _ :: _ => true end.

(** The body of the loop over [rec.visits.items()]. *)
Definition view_visit (target : date) (notes_text : list string)
    (kv : string * VisitRecord) : outcome (list string) :=
  vt ← visit_time kv.2;
  match parse_view vt with
  | None => Returned notes_text
  | Some visit_date =>
      (* if visit_date == target_date and visit.notes: *)
      if bool_decide (visit_date = target) && has_notes kv.2
      then
        let note_type :=
          default (VStr "N/A") (dict_get (Some "Note_type") (data kv.2)) in
        for_each
          (fun acc note => b ← note_block kv.1 note_type note; Returned (acc ++ [b]))
          (notes kv.2) notes_text
      else Returned notes_text
  end.

(** What [view_notes] shows: nothing (a dialog was cancelled), one of three
    message boxes, or the window with the texts, which it joins with blank
    lines. *)
Inductive view_answer : Type :=
  | ViewNothing
  | ViewNoRecords
  | ViewInvalidDate
  | ViewNoNotes
  | ViewNotes (notes_text : list string).

(** [view_notes]; [pid] is the answer of the id dialog and [ds] that of
    [prompt_date], [None] when cancelled. *)
Definition view_notes (pid : option string) (ds : option string)
    (db : PatientDatabase) : outcome view_answer :=
  match pid with
  | None | Some EmptyString => Returned ViewNothing
  | Some pid =>
      match get_patient (py_strip pid) db with
      | None => Returned ViewNoRecords
      | Some rec =>
          match ds with
          | None => Returned ViewNothing
          | Some ds =>
              match parse_count (py_strip ds) with
              | None => Returned ViewInvalidDate
              | Some target =>
                  notes_text ← for_each (view_visit target) (visits rec) [];
                  match notes_text with
                  | [] => Returned ViewNoNotes
                  | _ :: _ => Returned (ViewNotes notes_text)
                  end
              end
          end
      end
  end.

(** The date the loop of [view_notes] reads in a visit. *)
Definition viewed_date (vr : VisitRecord) : option date :=
  match dict_get (Some "Visit_time") (data vr) with
  | Some (VStr s) => parse_view (py_strip s)
  | Some _ => None
  | None => parse_view (py_strip "")
  end.

(** The visits of the record whose notes [view_notes] goes through for the
    day [target]. *)
Definition viewed (target : date) (rec : PatientRecord)
    : list (string * VisitRecord) :=
  List.filter (fun kv => bool_decide (viewed_date kv.2 = Some target)) (visits rec).

(** The text of the note is a string, or the note has none. *)
Definition text_is_str (note : pydict) : bool :=
  match dict_get (Some "Note_text") note with
  | Some (VStr _) | None => true
  | Some _ => false
  end.

(** The block of a note whose text is a string. *)
Definition block_of (vid : string) (vr : VisitRecord) (note : pydict) : string :=
  let note_id := default (VStr "N/A") (dict_get (Some "Note_ID") note) in
  let note_type := default (VStr "N/A") (dict_get (Some "Note_type") (data vr)) in
  let text :=
    match dict_get (Some "Note_text") note with
    | Some (VStr s) => py_strip s
    | _ => py_strip ""
    end in
  ("Visit ID: " ++ vid ++ newline
   ++ "  Note ID: " ++ py_str note_id ++ newline
   ++ "  Type:    " ++ py_str note_type ++ newline
   ++ "  Text:    " ++ text ++ newline)%string.

(** A store whose [Visit_time] has the character U+001C before the day. *)
Definition separator_db : PatientDatabase :=
  mkDatabase
    [("P1", mkPatient "P1"
       [("V1", mkVisit
                 [(Some "Visit_time",
                   VStr ("3/" ++ String (ascii_of_N 28) "14/2024")%string)]
                 [form_notes])])].

(** The answer for a list of texts. *)
Definition view_answer_of (notes_text : list string) : view_answer :=
  match notes_text with
  | [] => ViewNoNotes
  | _ :: _ => ViewNotes notes_text
  end.

(** The patient is in the store and has a visit. *)
Definition has_visits (pid : string) (self : PatientDatabase) : bool :=
  match get_patient pid self with
  | Some rec => match visits rec with [] => false | _ :: _ => true end
  | None => false
  end.

(** Every patient of the store has a visit. *)
Definition peopled (self : PatientDatabase) : Prop :=
  forall p, is_Some (get_patient p self) -> exists v, is_Some (find_visit p v self).

(** The files after [save_visit_data] and [save_visit_notes]. *)
Definition saved_files (can_open : string -> bool) (data_file notes_file : string)
    (column_order : list string) (self : PatientDatabase) (fs : filesystem)
    : filesystem :=
  (save_visit_notes can_open notes_file self
     (save_visit_data can_open data_file column_order self fs).2).2.
(** ** Dictionaries: laws *)

Section DictLaws.
Context {K V : Type} `{EqDecision K}.
Implicit Types (k : K) (v : V) (d : list (K * V)).

Lemma dict_get_set k k' v d :
  dict_get k (dict_set k' v d) = if decide (k = k') then Some v else dict_get k d.
Proof.
  induction d as [|[k0 v0] d IH]; simpl.
  - destruct (decide (k = k')); reflexivity.
  - destruct (decide (k' = k0)) as [->|Hne]; simpl.
    + destruct (decide (k = k0)); reflexivity.
    + destruct (decide (k = k0)) as [->|Hne'].
      * destruct (decide (k0 = k')); congruence.
      * exact IH.
Qed.

Lemma dict_get_set_eq k v d : dict_get k (dict_set k v d) = Some v.
Proof. rewrite dict_get_set. destruct (decide (k = k)); congruence. Qed.

Lemma dict_get_set_ne k k' v d :
  k <> k' -> dict_get k (dict_set k' v d) = dict_get k d.
Proof. intros Hne. rewrite dict_get_set. destruct (decide (k = k')); congruence. Qed.

Lemma dict_keys_set_present k v d :
  dict_mem k d = true -> dict_keys (dict_set k v d) = dict_keys d.
Proof.
  unfold dict_mem. induction d as [|[k0 v0] d IH]; simpl; [discriminate|].
  destruct (decide (k = k0)) as [->|Hne]; simpl; [reflexivity|].
  intros Hm. f_equal. apply IH, Hm.
Qed.

Lemma dict_keys_set_absent k v d :
  dict_get k d = None -> dict_set k v d = d ++ [(k, v)].
Proof.
  induction d as [|[k0 v0] d IH]; simpl; [reflexivity|].
  destruct (decide (k = k0)) as [->|Hne]; [discriminate|].
  intros Hm. f_equal. apply IH, Hm.
Qed.

Lemma dict_get_None_keys k d : dict_get k d = None <-> k ∉ dict_keys d.
Proof.
  induction d as [|[k0 v0] d IH]; simpl.
  - split; [intros _; apply not_elem_of_nil | reflexivity].
  - destruct (decide (k = k0)) as [->|Hne].
    + split; [discriminate|]. intros Hn. exfalso. apply Hn. left.
    + rewrite IH. rewrite not_elem_of_cons. tauto.
Qed.

Lemma dict_get_Some_elem k v d : dict_get k d = Some v -> (k, v) ∈ d.
Proof.
  induction d as [|[k0 v0] d IH]; simpl; [discriminate|].
  destruct (decide (k = k0)) as [->|Hne].
  - intros [= ->]. left.
  - intros Hg. right. apply IH, Hg.
Qed.

Lemma dict_elem_get k v d : dict_wf d -> (k, v) ∈ d -> dict_get k d = Some v.
Proof.
  unfold dict_wf. induction d as [|[k0 v0] d IH]; simpl.
  - intros _ Hin. inversion Hin.
  - intros Hnd Hin. apply NoDup_cons in Hnd as [Hk0 Hnd].
    apply elem_of_cons in Hin as [Heq|Hin].
    + injection Heq as -> ->. destruct (decide (k0 = k0)); congruence.
    + destruct (decide (k = k0)) as [->|Hne].
      * exfalso. apply Hk0. apply (list_elem_of_fmap_2 fst) in Hin. exact Hin.
      * apply IH; assumption.
Qed.

Lemma dict_set_wf k v d : dict_wf d -> dict_wf (dict_set k v d).
Proof.
  unfold dict_wf. intros Hwf.
  destruct (dict_get k d) eqn:Hg.
  - rewrite dict_keys_set_present; [exact Hwf|]. unfold dict_mem. rewrite Hg. reflexivity.
  - rewrite dict_keys_set_absent by exact Hg. unfold dict_keys. rewrite map_app. simpl.
    apply NoDup_app. split; [exact Hwf|]. split.
    + intros x Hx Hx'. apply list_elem_of_singleton in Hx'. subst x.
      apply dict_get_None_keys in Hg. contradiction.
    + apply NoDup_singleton.
Qed.

Lemma dict_update_cons d kv other :
  dict_update d (kv :: other) = dict_update (dict_set kv.1 kv.2 d) other.
Proof. reflexivity. Qed.

Lemma dict_update_wf d other : dict_wf d -> dict_wf (dict_update d other).
Proof.
  revert d. induction other as [|kv other IH]; intros d Hwf; [exact Hwf|].
  rewrite dict_update_cons. apply IH, dict_set_wf, Hwf.
Qed.

(** After [d.update(other)] a key of [other] has the value [other] gives
    it, any other key keeps its value. *)
Lemma dict_get_update k d other :
  dict_wf other ->
  dict_get k (dict_update d other) =
    match dict_get k other with Some v => Some v | None => dict_get k d end.
Proof.
  revert d. induction other as [|[k0 v0] other IH]; intros d Hwf; [reflexivity|].
  rewrite dict_update_cons. simpl.
  unfold dict_wf in Hwf. simpl in Hwf. apply NoDup_cons in Hwf as [Hk0 Hwf].
  rewrite IH by exact Hwf.
  destruct (decide (k = k0)) as [->|Hne].
  - apply dict_get_None_keys in Hk0. rewrite Hk0. apply dict_get_set_eq.
  - rewrite dict_get_set_ne by exact Hne. reflexivity.
Qed.

Lemma dict_mem_update k d other :
  dict_mem k d = true -> dict_mem k (dict_update d other) = true.
Proof.
  revert d. induction other as [|[k0 v0] other IH]; intros d Hm; [exact Hm|].
  rewrite dict_update_cons. apply IH. unfold dict_mem in *. simpl.
  rewrite dict_get_set. destruct (decide (k = k0)); [reflexivity|exact Hm].
Qed.

End DictLaws.

(** ** PatientRecord.add_visit *)

Lemma add_visit_fields visit_id d n r :
  fields_of visit_id (add_visit visit_id d n r)
  = dict_update (fields_of visit_id r) d.
Proof.
  unfold fields_of, add_visit, dict_mem.
  destruct (dict_get visit_id (visits r)) as [vr|] eqn:Hg.
  - rewrite Hg. simpl. rewrite dict_get_set_eq.
    destruct n as [[|? ?]|]; reflexivity.
  - rewrite dict_get_set_eq. simpl. rewrite dict_get_set_eq.
    destruct n as [[|? ?]|]; reflexivity.
Qed.

Lemma add_visit_notes visit_id d n r :
  notes_of visit_id (add_visit visit_id d n r)
  = notes_of visit_id r ++ appended_notes [(d, n)].
Proof.
  unfold notes_of, add_visit, dict_mem, appended_notes.
  destruct (dict_get visit_id (visits r)) as [vr|] eqn:Hg.
  - rewrite Hg. simpl. rewrite dict_get_set_eq.
    destruct n as [[|? ?]|]; simpl; rewrite ?app_nil_r; reflexivity.
  - rewrite dict_get_set_eq. simpl. rewrite dict_get_set_eq.
    destruct n as [[|? ?]|]; reflexivity.
Qed.

Lemma add_visit_present visit_id d n r :
  is_Some (dict_get visit_id (visits (add_visit visit_id d n r))).
Proof.
  unfold add_visit, dict_mem.
  destruct (dict_get visit_id (visits r)) as [vr|] eqn:Hg.
  - rewrite Hg. simpl. rewrite dict_get_set_eq. eexists; reflexivity.
  - rewrite dict_get_set_eq. simpl. rewrite dict_get_set_eq. eexists; reflexivity.
Qed.

Lemma add_visit_other visit_id d n r v :
  v <> visit_id ->
  dict_get v (visits (add_visit visit_id d n r)) = dict_get v (visits r).
Proof.
  intros Hne. unfold add_visit, dict_mem.
  destruct (dict_get visit_id (visits r)) as [vr|] eqn:Hg.
  - rewrite Hg. simpl. rewrite dict_get_set_ne by exact Hne. reflexivity.
  - rewrite dict_get_set_eq. simpl. rewrite !dict_get_set_ne by exact Hne. reflexivity.
Qed.

Lemma add_visit_patient_id visit_id d n r :
  patient_id (add_visit visit_id d n r) = patient_id r.
Proof.
  unfold add_visit.
  destruct (dict_get visit_id _); reflexivity.
Qed.

Lemma add_visit_calls_snoc visit_id calls c r :
  add_visit_calls visit_id (calls ++ [c]) r
  = add_visit visit_id c.1 c.2 (add_visit_calls visit_id calls r).
Proof. unfold add_visit_calls. rewrite fold_left_app. reflexivity. Qed.

Lemma last_supplied_snoc k maps m :
  last_supplied k (maps ++ [m]) =
    match dict_get k m with Some v => Some v | None => last_supplied k maps end.
Proof.
  induction maps as [|m0 maps IH]; simpl.
  - destruct (dict_get k m); reflexivity.
  - rewrite IH. destruct (dict_get k m); [reflexivity|].
    destruct (last_supplied k maps); reflexivity.
Qed.

Lemma last_supplied_Some k maps v :
  last_supplied k maps = Some v -> exists m, m ∈ maps /\ dict_get k m = Some v.
Proof.
  induction maps as [|m maps IH]; simpl; [discriminate|].
  destruct (last_supplied k maps) as [w|] eqn:Hl.
  - intros [= ->]. destruct IH as (m' & Hin & Hg); [reflexivity|].
    exists m'. split; [right; exact Hin | exact Hg].
  - intros Hg. exists m. split; [left | exact Hg].
Qed.

Lemma last_supplied_disjoint k maps m v :
  pairwise_disjoint maps -> m ∈ maps -> dict_get k m = Some v ->
  last_supplied k maps = Some v.
Proof.
  induction maps as [|m0 maps IH]; simpl; intros Hd Hin Hg.
  - inversion Hin.
  - destruct Hd as [Hd0 Hd]. apply elem_of_cons in Hin as [->|Hin].
    + destruct (last_supplied k maps) as [w|] eqn:Hl; [|exact Hg].
      apply last_supplied_Some in Hl as (m' & Hin' & Hg').
      specialize (Hd0 k m' Hin'). unfold dict_mem in Hd0.
      rewrite Hg, Hg' in Hd0. discriminate Hd0; reflexivity.
    + rewrite (IH Hd Hin Hg). reflexivity.
Qed.

(** The fields of the visit after a run of calls: the last call that
    supplies a key decides its value, a key no call supplies keeps the
    value it had. *)
Lemma add_visit_calls_fields visit_id calls r k :
  Forall (fun c => dict_wf c.1) calls ->
  dict_get k (fields_of visit_id (add_visit_calls visit_id calls r)) =
    match last_supplied k (map fst calls) with
    | Some v => Some v
    | None => dict_get k (fields_of visit_id r)
    end.
Proof.
  induction calls as [|c calls IH] using rev_ind; intros Hwf; [reflexivity|].
  destruct (proj1 (Forall_app _ _ _) Hwf) as [Hwf' Hc]. apply Forall_inv in Hc.
  rewrite add_visit_calls_snoc, add_visit_fields, dict_get_update by exact Hc.
  rewrite map_app. simpl. rewrite last_supplied_snoc.
  destruct (dict_get k c.1); [reflexivity|]. apply IH, Hwf'.
Qed.

Lemma add_visit_calls_notes visit_id calls r :
  notes_of visit_id (add_visit_calls visit_id calls r)
  = notes_of visit_id r ++ appended_notes calls.
Proof.
  induction calls as [|c calls IH] using rev_ind.
  - simpl. rewrite app_nil_r. reflexivity.
  - rewrite add_visit_calls_snoc. destruct c as [d n]. simpl.
    rewrite add_visit_notes, IH. unfold appended_notes.
    rewrite flat_map_app, app_assoc. reflexivity.
Qed.

(** C4: a run of [add_visit] calls on one visit id leaves the visit in the
    record; every key has the value of the last call that supplies it and
    otherwise the value it had before; when the visit is new it starts as
    the empty [VisitRecord], without fields and without notes, so that
    after calls with pairwise disjoint field maps a key has a value exactly
    when one of the maps gives it that value, and the notes are the notes
    appended by the calls; no key present before is lost. *)
Theorem add_visit_merges visit_id (calls : list (pydict * option pydict)) r :
  calls <> [] ->
  Forall (fun c => dict_wf c.1) calls ->
  let r' := add_visit_calls visit_id calls r in
  is_Some (dict_get visit_id (visits r'))
  /\ (forall k,
        dict_get k (fields_of visit_id r') =
          match last_supplied k (map fst calls) with
          | Some v => Some v
          | None => dict_get k (fields_of visit_id r)
          end)
  /\ (dict_get visit_id (visits r) = None ->
      notes_of visit_id r' = appended_notes calls
      /\ (pairwise_disjoint (map fst calls) ->
          forall k v,
            dict_get k (fields_of visit_id r') = Some v
            <-> exists m, m ∈ map fst calls /\ dict_get k m = Some v))
  /\ (forall k,
        dict_mem k (fields_of visit_id r) = true ->
        dict_mem k (fields_of visit_id r') = true)
  /\ (dict_get visit_id (visits r) = None ->
      dict_get visit_id (visits (add_visit visit_id [] None r))
      = Some (mkVisit [] [])).
Proof.
  intros Hne Hwf r'. subst r'. split; [|split; [|split; [|split]]].
  - destruct calls as [|c calls] using rev_ind; [congruence|].
    rewrite add_visit_calls_snoc. apply add_visit_present.
  - intros k. apply add_visit_calls_fields, Hwf.
  - intros Hnew. split.
    + rewrite add_visit_calls_notes. unfold notes_of. rewrite Hnew. reflexivity.
    + intros Hdis k v. rewrite add_visit_calls_fields by exact Hwf.
      unfold fields_of at 1. rewrite Hnew. simpl. split.
      * destruct (last_supplied k (map fst calls)) as [w|] eqn:Hl; [|discriminate].
        intros [= ->]. apply last_supplied_Some, Hl.
      * intros (m & Hin & Hg). rewrite (last_supplied_disjoint _ _ _ _ Hdis Hin Hg).
        reflexivity.
  - intros k. unfold dict_mem. rewrite add_visit_calls_fields by exact Hwf.
    destruct (last_supplied k (map fst calls)); [reflexivity|]. tauto.
  - intros Hnew. unfold add_visit, dict_mem. rewrite Hnew.
    rewrite dict_get_set_eq. simpl. apply dict_get_set_eq.
Qed.

Lemma add_visit_merges_witness :
  dict_get (Some "Age") (fields_of "V1" (add_visit_calls "V1" calls_demo record_demo))
  = Some (VStr "32")
  /\ dict_mem (Some "Age") (fields_of "V2" (add_visit_calls "V2" calls_demo record_demo))
     = true.
Proof.
  assert (Hne : calls_demo <> []) by discriminate.
  assert (Hwf : Forall (fun c : pydict * option pydict => dict_wf c.1) calls_demo).
  { apply (bool_decide_unpack _). vm_compute. reflexivity. }
  split.
  - destruct (add_visit_merges "V1" calls_demo record_demo Hne Hwf) as (_ & H & _).
    rewrite H. reflexivity.
  - destruct (add_visit_merges "V2" calls_demo record_demo Hne Hwf)
      as (_ & H & Hnew & _).
    destruct (Hnew eq_refl) as [_ Hdis]. unfold dict_mem. rewrite H. reflexivity.
Defined.

(** C9: [add_visit] appends the note exactly when the [notes] argument is
    true as a condition; with [None] or with an empty mapping the fields
    are merged and the notes of the visit stay as they were. *)
Theorem add_visit_note_iff_truthy visit_id d (n : option pydict) r :
  let r' := add_visit visit_id d n r in
  fields_of visit_id r' = dict_update (fields_of visit_id r) d
  /\ (notes_truthy n = true <->
      exists m, n = Some m /\ notes_of visit_id r' = notes_of visit_id r ++ [m])
  /\ (notes_truthy n = false <-> notes_of visit_id r' = notes_of visit_id r)
  /\ notes_of visit_id (add_visit visit_id d None r) = notes_of visit_id r
  /\ notes_of visit_id (add_visit visit_id d (Some []) r) = notes_of visit_id r.
Proof.
  simpl. split; [apply add_visit_fields|].
  rewrite !add_visit_notes. unfold appended_notes. simpl.
  split; [|split; [|split]].
  - destruct n as [[|kv n0]|]; simpl; split.
    + discriminate.
    + intros (m & [= <-] & Heq). rewrite app_nil_r in Heq.
      apply (f_equal length) in Heq. rewrite length_app in Heq. simpl in Heq. lia.
    + intros _. eexists. split; reflexivity.
    + reflexivity.
    + discriminate.
    + intros (m & Hm & _). discriminate.
  - destruct n as [[|kv n0]|]; simpl; rewrite ?app_nil_r; split; try reflexivity;
      try discriminate.
    intros Heq. apply (f_equal length) in Heq. rewrite length_app in Heq.
    simpl in Heq. lia.
  - apply app_nil_r.
  - apply app_nil_r.
Qed.

(** ** PatientRecord.add_notes_to_visit *)

(** C5: on a visit id the record does not have, [add_notes_to_visit]
    returns [False] and the record is the one it was, so no visit is
    created; on a visit the record has it returns [True], the note is the
    last of that visit's notes, which are one more than before, the fields
    of the visit, every other visit and the keys of the record are as they
    were. *)
Theorem add_notes_to_visit_spec visit_id (n : pydict) r :
  (dict_get visit_id (visits r) = None ->
   add_notes_to_visit visit_id n r = (false, r))
  /\ (forall vr, dict_get visit_id (visits r) = Some vr ->
      exists r',
        add_notes_to_visit visit_id n r = (true, r')
        /\ dict_get visit_id (visits r')
           = Some (mkVisit (data vr) (notes vr ++ [n]))
        /\ length (notes_of visit_id r') = S (length (notes_of visit_id r))
        /\ (forall v, v <> visit_id ->
              dict_get v (visits r') = dict_get v (visits r))
        /\ dict_keys (visits r') = dict_keys (visits r)
        /\ patient_id r' = patient_id r).
Proof.
  unfold add_notes_to_visit. split.
  - intros ->. reflexivity.
  - intros vr Hg. rewrite Hg. eexists. split; [reflexivity|]. simpl.
    split; [apply dict_get_set_eq|].
    split.
    { unfold notes_of. simpl. rewrite dict_get_set_eq, Hg. simpl.
      rewrite length_app. simpl. lia. }
    split; [intros v Hne; apply dict_get_set_ne, Hne|].
    split; [|reflexivity].
    apply dict_keys_set_present. unfold dict_mem. rewrite Hg. reflexivity.
Qed.

Lemma add_notes_to_visit_spec_witness :
  add_notes_to_visit "V7" [(Some "Note_ID", VStr "n9")] record_demo
  = (false, record_demo)
  /\ exists r',
       add_notes_to_visit "V1" [(Some "Note_ID", VStr "n9")] record_demo = (true, r')
       /\ length (notes_of "V1" r') = 2%nat.
Proof.
  split.
  - apply (add_notes_to_visit_spec "V7" [(Some "Note_ID", VStr "n9")] record_demo).
    reflexivity.
  - destruct (add_notes_to_visit_spec "V1" [(Some "Note_ID", VStr "n9")] record_demo)
      as [_ H].
    destruct (H (mkVisit [(Some "Age", VStr "30")]
                   [[(Some "Note_ID", VStr "n1"); (Some "Note_text", VStr "seen")]])
                eq_refl) as (r' & Hr & _ & Hlen & _).
    exists r'. split; [exact Hr | exact Hlen].
Defined.

(** ** PatientDatabase.retrieve_patient_info *)

Lemma retrieve_note_fold info_key ns result :
  fold_left (retrieve_note info_key) ns result
  = result ++ flat_map (fun note => option_list (dict_get (Some info_key) note)) ns.
Proof.
  revert result. induction ns as [|n ns IH]; intros result; simpl.
  - rewrite app_nil_r. reflexivity.
  - rewrite IH. unfold retrieve_note.
    destruct (dict_get (Some info_key) n); simpl; [|reflexivity].
    rewrite <- app_assoc. reflexivity.
Qed.

Lemma retrieve_visit_hits info_key vr result :
  retrieve_visit info_key result vr = result ++ visit_hits info_key vr.
Proof.
  unfold retrieve_visit, visit_hits. rewrite retrieve_note_fold.
  destruct (dict_get (Some info_key) (data vr)); simpl.
  - rewrite <- app_assoc. reflexivity.
  - reflexivity.
Qed.

Lemma retrieve_visit_fold info_key vrs result :
  fold_left (retrieve_visit info_key) vrs result
  = result ++ flat_map (visit_hits info_key) vrs.
Proof.
  revert result. induction vrs as [|vr vrs IH]; intros result; simpl.
  - rewrite app_nil_r. reflexivity.
  - rewrite IH, retrieve_visit_hits, <- app_assoc. reflexivity.
Qed.

(** C6: [retrieve_patient_info] returns [None] exactly when the patient is
    not in the store; for a patient of the store it returns the list made,
    visit after visit in the order of the patient's map, of the field of
    the visit when the visit has the key and then of the entry of each note
    that has the key, in the order of the notes; this list is empty when
    nothing matches; the store after the call is the store before it. *)
Theorem retrieve_patient_info_spec patient_id0 info_key self :
  (retrieve_patient_info patient_id0 info_key self).2 = self
  /\ ((retrieve_patient_info patient_id0 info_key self).1 = None
      <-> dict_get patient_id0 (patients self) = None)
  /\ (forall record,
        dict_get patient_id0 (patients self) = Some record ->
        (retrieve_patient_info patient_id0 info_key self).1
        = Some (flat_map (visit_hits info_key) (dict_values (visits record)))
        /\ ((forall vr, vr ∈ dict_values (visits record) ->
                        visit_hits info_key vr = []) ->
            (retrieve_patient_info patient_id0 info_key self).1 = Some [])).
Proof.
  unfold retrieve_patient_info, get_patient.
  destruct (dict_get patient_id0 (patients self)) as [record|] eqn:Hg; simpl.
  - split; [reflexivity|]. split; [split; discriminate|].
    intros record' [= <-]. rewrite retrieve_visit_fold. simpl.
    split; [reflexivity|]. intros Hnone. f_equal.
    induction (dict_values (visits record)) as [|vr vrs IH]; [reflexivity|].
    simpl. rewrite (Hnone vr) by left. apply IH.
    intros vr' Hin. apply Hnone. right. exact Hin.
  - split; [reflexivity|]. split; [tauto|]. intros record [=].
Qed.

Lemma retrieve_patient_info_spec_witness :
  (retrieve_patient_info "P2" "Age" store_demo).1
  = Some [VInt 41; VStr "forty-one"]
  /\ (retrieve_patient_info "P2" "Zip_code" store_demo).1 = Some [].
Proof.
  destruct (retrieve_patient_info_spec "P2" "Age" store_demo) as (_ & _ & H).
  destruct (retrieve_patient_info_spec "P2" "Zip_code" store_demo) as (_ & _ & H').
  split.
  - refine (proj1 (H _ eq_refl)).
  - refine (proj2 (H' _ eq_refl) _).
    intros vr Hin. apply list_elem_of_In in Hin. simpl in Hin.
    destruct Hin as [<-|[<-|[]]]; reflexivity.
Defined.

(** ** The two date parsers *)

Module ReFacts.
Import Re.

Lemma cls_sound p : p "/"%char = false -> sound (cls p).
Proof.
  intros Hp s a r. unfold cls. destruct s as [|c s]; simpl; [tauto|].
  destruct (p c) eqn:Hc; simpl; [|tauto].
  intros [[= <- <-]|[]]. split; [reflexivity|].
  constructor; [|constructor]. intros ->. congruence.
Qed.

Lemma seq_sound m1 m2 : sound m1 -> sound m2 -> sound (seq m1 m2).
Proof.
  intros H1 H2 s a r. unfold seq. rewrite in_flat_map.
  intros ([a1 r1] & Hin1 & Hin). simpl in Hin. apply in_map_iff in Hin.
  destruct Hin as ([a2 r2] & [= <- <-] & Hin2).
  destruct (H1 _ _ _ Hin1) as [-> Hf1]. destruct (H2 _ _ _ Hin2) as [-> Hf2].
  split; [apply app_assoc|]. apply Forall_app. split; assumption.
Qed.

Lemma alt_sound m1 m2 : sound m1 -> sound m2 -> sound (alt m1 m2).
Proof.
  intros H1 H2 s a r. unfold alt. rewrite in_app_iff. intros [Hin|Hin]; eauto.
Qed.

Lemma lit_sound c : c <> "/"%char -> sound (lit c).
Proof.
  intros Hc. apply cls_sound. apply Ascii.eqb_neq. exact Hc.
Qed.

Lemma range_sound lo hi :
  ((Str.code lo <=? 47) && (47 <=? Str.code hi)) = false -> sound (range lo hi).
Proof. intros Hr. apply cls_sound. exact Hr. Qed.

Lemma digit_sound : sound digit.
Proof. apply cls_sound. reflexivity. Qed.

Lemma re_m_sound : sound re_m.
Proof.
  repeat first [apply alt_sound | apply seq_sound | apply digit_sound
               | apply lit_sound; discriminate | apply range_sound; reflexivity].
Qed.

Lemma re_d_sound : sound re_d.
Proof.
  repeat first [apply alt_sound | apply seq_sound | apply digit_sound
               | apply lit_sound; discriminate | apply range_sound; reflexivity].
Qed.

Lemma re_Y_sound : sound re_Y.
Proof. repeat first [apply seq_sound | apply digit_sound]. Qed.

Lemma lit_match c s a r : In (a, r) (lit c s) -> s = c :: r.
Proof.
  unfold lit, cls. destruct s as [|c' s]; simpl; [tauto|].
  destruct (Ascii.eqb c c') eqn:Hc; simpl; [|tauto].
  apply Ascii.eqb_eq in Hc. subst c'. intros [[= <- <-]|[]]. reflexivity.
Qed.

(** A match of the whole expression that leaves nothing over: the string is
    the three groups separated by slashes. *)
Lemma re_mdY_shape s m d y rest :
  In (m, d, y, rest) (re_mdY s) ->
  s = m ++ "/"%char :: d ++ "/"%char :: y ++ rest
  /\ Forall (fun c => c <> "/"%char) m
  /\ Forall (fun c => c <> "/"%char) d
  /\ Forall (fun c => c <> "/"%char) y.
Proof.
  unfold re_mdY. rewrite in_flat_map. intros ([m0 r0] & Hm & H). simpl in H.
  apply in_flat_map in H as ([x1 r1] & Hs1 & H). simpl in H.
  apply in_flat_map in H as ([d0 r2] & Hd & H). simpl in H.
  apply in_flat_map in H as ([x2 r3] & Hs2 & H). simpl in H.
  apply in_map_iff in H as ([y0 r4] & [= <- <- <- <-] & Hy).
  apply re_m_sound in Hm as [-> Hfm]. apply lit_match in Hs1 as ->.
  apply re_d_sound in Hd as [-> Hfd]. apply lit_match in Hs2 as ->.
  apply re_Y_sound in Hy as [-> Hfy].
  repeat split; assumption.
Qed.

End ReFacts.

Lemma split_nonempty sep s : Str.split sep s <> [].
Proof.
  destruct s as [|c s]; simpl; [discriminate|].
  destruct (Ascii.eqb c sep); [discriminate|].
  destruct (Str.split sep s); discriminate.
Qed.

Lemma split_no_sep sep a :
  Forall (fun c => c <> sep) a -> Str.split sep a = [a].
Proof.
  induction 1 as [|c a Hc _ IH]; simpl; [reflexivity|].
  apply Ascii.eqb_neq in Hc. rewrite Hc, IH. reflexivity.
Qed.

Lemma split_app_sep sep a r :
  Forall (fun c => c <> sep) a ->
  Str.split sep (a ++ sep :: r) = a :: Str.split sep r.
Proof.
  induction 1 as [|c a Hc _ IH]; simpl.
  - rewrite Ascii.eqb_refl. reflexivity.
  - apply Ascii.eqb_neq in Hc. rewrite Hc, IH. reflexivity.
Qed.

Lemma strptime_parse_view (s : Str.chars) dt :
  strptime_mdY s = Some dt ->
  match Str.split "/" s with
  | [ms; ds; ys] =>
      m' ← Str.int ms; d' ← Str.int ds; y' ← Str.int ys; py_date y' m' d'
  | _ => None
  end = Some dt.
Proof.
  unfold strptime_mdY.
  destruct (Re.re_mdY s) as [|[[[m d] y] rest] l] eqn:Hre; [discriminate|].
  destruct rest as [|c rest]; [|discriminate].
  assert (Hin : In (m, d, y, []) (Re.re_mdY s)) by (rewrite Hre; left; reflexivity).
  apply ReFacts.re_mdY_shape in Hin as (-> & Hm & Hd & Hy).
  rewrite app_nil_r.
  rewrite (split_app_sep _ _ _ Hm), (split_app_sep _ _ _ Hd), (split_no_sep _ _ Hy).
  destruct (Str.int y) as [y'|]; [|discriminate].
  destruct (Str.int m) as [m'|]; [|discriminate].
  destruct (Str.int d) as [d'|]; [|discriminate].
  simpl. tauto.
Qed.

(** The direction in which the two parsers agree: whenever the parse of
    the counting path accepts a stored [Visit_time], the parse of the
    note-viewing path accepts it too and gives the same date. *)
Theorem count_parse_implies_view_parse (stored : string) (dt : date) :
  parse_count (py_strip stored) = Some dt ->
  parse_view (py_strip stored) = Some dt.
Proof. unfold parse_count, parse_view. apply strptime_parse_view. Qed.

Lemma count_parse_implies_view_parse_witness :
  parse_view (py_strip " 3/14/2024 ") = Some (mkDate 2024 3 14).
Proof. apply count_parse_implies_view_parse. vm_compute. reflexivity. Defined.

(** C7: the two parsers do not agree.  At the stored [Visit_time]
    [3/14/24] the parse of the counting path, [strptime] with
    [%m/%d/%Y], fails, while the parse of the note-viewing path, [int] of
    the three parts, succeeds and reads the year 24. *)
Lemma parsers_disagree :
  parse_count (py_strip "3/14/24") = None
  /\ parse_view (py_strip "3/14/24") = Some (mkDate 24 3 14).
Proof. split; vm_compute; reflexivity. Qed.

(** ** PatientDatabase.count_visits_in_day *)

Lemma for_each_returns {A S : Type} (body : S -> A -> outcome S) (f : S -> A -> S)
    (l : list A) (s : S) :
  (forall a s0, In a l -> body s0 a = Returned (f s0 a)) ->
  for_each body l s = Returned (fold_left f l s).
Proof.
  revert s. induction l as [|a l IH]; intros s Hb; simpl; [reflexivity|].
  rewrite Hb by (left; reflexivity). simpl. apply IH.
  intros a' s0 Hin. apply Hb. right. exact Hin.
Qed.

Lemma count_visit_str target total vr :
  time_is_str vr -> count_visit target total vr = Returned (count_step target total vr).
Proof.
  unfold time_is_str, count_visit, visit_time, count_step, stored_date.
  destruct (dict_get (Some "Visit_time") (data vr)) as [[|s|z|l]|] eqn:Hg;
    try contradiction; intros _; simpl.
  - destruct (parse_count (py_strip s)) as [d|]; [|reflexivity].
    destruct (decide (d = target)) as [->|Hne].
    + rewrite !bool_decide_eq_true_2 by reflexivity. reflexivity.
    + rewrite !bool_decide_eq_false_2 by congruence. reflexivity.
  - reflexivity.
Qed.

Lemma count_step_fold target vrs total :
  fold_left (count_step target) vrs total
  = total
    + Z.of_nat
        (length (List.filter (fun vr => bool_decide (stored_date vr = Some target)) vrs)).
Proof.
  revert total. induction vrs as [|vr vrs IH]; intros total; simpl; [lia|].
  rewrite IH. unfold count_step.
  destruct (bool_decide (stored_date vr = Some target)); simpl; lia.
Qed.

Lemma count_loops_str target self :
  Forall time_is_str (all_visits self) ->
  for_each
    (fun total pr => for_each (count_visit target) (dict_values (visits pr)) total)
    (dict_values (patients self)) 0
  = Returned (visits_on target self).
Proof.
  unfold visits_on, all_visits.
  generalize (dict_values (patients self)) as prs. intros prs.
  cut (forall total,
    Forall time_is_str (flat_map (fun pr => dict_values (visits pr)) prs) ->
    for_each
      (fun total pr => for_each (count_visit target) (dict_values (visits pr)) total)
      prs total
    = Returned
        (total + Z.of_nat (length (List.filter
           (fun vr => bool_decide (stored_date vr = Some target))
           (flat_map (fun pr => dict_values (visits pr)) prs))))).
  { intros Hc Hs. rewrite Hc by exact Hs. reflexivity. }
  induction prs as [|pr prs IH]; intros total Hs; simpl.
  - f_equal. lia.
  - simpl in Hs. destruct (proj1 (Forall_app _ _ _) Hs) as [Hs1 Hs2].
    rewrite (for_each_returns _ (count_step target)).
    + simpl. rewrite IH by exact Hs2. rewrite count_step_fold.
      rewrite List.filter_app, length_app. f_equal. lia.
    + intros vr s0 Hin. apply count_visit_str.
      rewrite Forall_forall in Hs1. apply Hs1. apply list_elem_of_In. exact Hin.
Qed.

(** The answer is [None] exactly when the day asked for does not parse,
    whatever the store holds. *)
Lemma count_visits_in_day_None_iff day_str self :
  count_visits_in_day day_str self = Returned None
  <-> parse_count (py_strip day_str) = None.
Proof.
  unfold count_visits_in_day.
  destruct (parse_count (py_strip day_str)) as [target|]; [|tauto].
  split; [|discriminate].
  destruct (for_each _ _ _); simpl; discriminate.
Qed.

Lemma count_visits_in_day_invalid_calendar_date self :
  count_visits_in_day "13/40/2024" self = Returned None.
Proof. apply count_visits_in_day_None_iff. vm_compute. reflexivity. Qed.

(** On a store in which every [Visit_time] is a string, a day that parses
    is answered with the number of visits that carry that date; a visit
    without [Visit_time] or with one that does not parse is passed over. *)
Lemma count_visits_in_day_counts day_str self target :
  Forall time_is_str (all_visits self) ->
  parse_count (py_strip day_str) = Some target ->
  count_visits_in_day day_str self = Returned (Some (visits_on target self)).
Proof.
  intros Hs Hp. unfold count_visits_in_day. rewrite Hp.
  rewrite count_loops_str by exact Hs. reflexivity.
Qed.

Lemma count_visits_in_day_no_match self :
  Forall time_is_str (all_visits self) ->
  Forall (fun vr => stored_date vr <> Some (mkDate 2030 1 1)) (all_visits self) ->
  count_visits_in_day "1/1/2030" self = Returned (Some 0).
Proof.
  intros Hs Hn.
  rewrite (count_visits_in_day_counts _ _ (mkDate 2030 1 1) Hs) by (vm_compute; reflexivity).
  do 2 f_equal. unfold visits_on.
  induction (all_visits self) as [|vr vrs IH]; [reflexivity|].
  simpl. rewrite bool_decide_eq_false_2 by (apply (Forall_inv Hn)).
  apply IH.
  - apply (Forall_inv_tail Hs).
  - apply (Forall_inv_tail Hn).
Qed.

(** C1 on a store read from a visit data file with a short row: the
    record read has [None] under [Visit_time], the day asked for parses and
    no visit carries it, and the count raises [AttributeError] instead of
    passing the visit over. *)
Theorem count_visits_in_day_short_row :
  let db := load_data "Patient_data.csv" short_row_fs (mkDatabase []) in
  db = mkDatabase
         [("P1", mkPatient "P1" [("V1", mkVisit [(Some "Visit_time", VNone)] [])])]
  /\ parse_count (py_strip "3/14/2024") = Some (mkDate 2024 3 14)
  /\ visits_on (mkDate 2024 3 14) db = 0
  /\ count_visits_in_day "3/14/2024" db = Raised AttributeError.
Proof. repeat split; vm_compute; reflexivity. Qed.

(** ** The visits of the store under the loaders *)

Lemma add_visit_get visit_id d r :
  dict_get visit_id (visits (add_visit visit_id d None r))
  = Some (merge_visit d (dict_get visit_id (visits r))).
Proof.
  unfold add_visit, dict_mem, merge_visit.
  destruct (dict_get visit_id (visits r)) as [vr|] eqn:Hg.
  - rewrite Hg. simpl. apply dict_get_set_eq.
  - rewrite dict_get_set_eq. simpl. apply dict_get_set_eq.
Qed.

Lemma load_data_row_skip self row :
  as_id (dict_get (Some ID_PATIENT) row) = None
  \/ as_id (dict_get (Some ID_VISIT) row) = None ->
  load_data_row self row = self.
Proof.
  unfold load_data_row. intros [->| ->]; [reflexivity|].
  destruct (as_id (dict_get (Some ID_PATIENT) row)); reflexivity.
Qed.

Lemma find_visit_load_data_row self row pid vid p v :
  as_id (dict_get (Some ID_PATIENT) row) = Some pid ->
  as_id (dict_get (Some ID_VISIT) row) = Some vid ->
  find_visit p v (load_data_row self row) =
    if decide (p = pid /\ v = vid)
    then Some (merge_visit (row_data row) (find_visit p v self))
    else find_visit p v self.
Proof.
  intros Hp Hv. unfold load_data_row. rewrite Hp, Hv.
  fold (row_data row). unfold dict_setdefault, find_visit.
  destruct (dict_get pid (patients self)) as [rec|] eqn:Hg; simpl;
    rewrite ?dict_get_set.
  - destruct (decide (p = pid)) as [->|Hne]; simpl.
    + rewrite Hg. simpl. destruct (decide (v = vid)) as [->|Hne'].
      * rewrite decide_True by tauto. apply add_visit_get.
      * rewrite decide_False by tauto. apply add_visit_other, Hne'.
    + rewrite decide_False by tauto. reflexivity.
  - destruct (decide (p = pid)) as [->|Hne]; simpl.
    + rewrite Hg. simpl. destruct (decide (v = vid)) as [->|Hne'].
      * rewrite decide_True by tauto. apply add_visit_get.
      * rewrite decide_False by tauto. rewrite add_visit_other by exact Hne'.
        reflexivity.
    + rewrite decide_False by tauto. reflexivity.
Qed.

Lemma load_notes_row_skip self row :
  as_id (dict_get (Some ID_PATIENT) row) = None
  \/ as_id (dict_get (Some ID_VISIT) row) = None
  \/ as_id (dict_get (Some "Note_ID") row) = None ->
  load_notes_row self row = self.
Proof.
  unfold load_notes_row. intros [->|[->| ->]]; [reflexivity| |].
  - destruct (as_id (dict_get (Some ID_PATIENT) row)); reflexivity.
  - destruct (as_id (dict_get (Some ID_PATIENT) row)); [|reflexivity].
    destruct (as_id (dict_get (Some ID_VISIT) row)); reflexivity.
Qed.

Lemma find_visit_load_notes_row self row pid vid note_id p v :
  as_id (dict_get (Some ID_PATIENT) row) = Some pid ->
  as_id (dict_get (Some ID_VISIT) row) = Some vid ->
  as_id (dict_get (Some "Note_ID") row) = Some note_id ->
  find_visit p v (load_notes_row self row) =
    if decide (p = pid /\ v = vid)
    then Some (append_note (row_note note_id row) (find_visit p v self))
    else find_visit p v self.
Proof.
  intros Hp Hv Hn. unfold load_notes_row. rewrite Hp, Hv, Hn.
  fold (row_note note_id row). unfold dict_setdefault, find_visit, append_note.
  destruct (dict_get pid (patients self)) as [rec|] eqn:Hg.
  - destruct (dict_get vid (visits rec)) as [vr|] eqn:Hgv;
      cbn [patients visits patient_id data notes mbind option_bind default];
      rewrite !dict_get_set;
      (destruct (decide (p = pid)) as [->|Hne];
       [rewrite Hg; cbn [mbind option_bind visits default]; rewrite ?dict_get_set;
        destruct (decide (v = vid)) as [->|Hne'];
        [rewrite decide_True by tauto; rewrite ?Hgv; reflexivity
        |rewrite decide_False by tauto; rewrite ?dict_get_set_ne by exact Hne';
         reflexivity]
       |rewrite decide_False by tauto; reflexivity]).
  - cbn [patients visits patient_id data notes mbind option_bind default dict_get].
    rewrite !dict_get_set.
    destruct (decide (p = pid)) as [->|Hne].
    + rewrite Hg. cbn [mbind option_bind visits default]. rewrite !dict_get_set.
      destruct (decide (v = vid)) as [->|Hne'].
      * rewrite decide_True by tauto. reflexivity.
      * rewrite decide_False by tauto. reflexivity.
    + rewrite decide_False by tauto. reflexivity.
Qed.

(** ** Append-only *)

Lemma visit_grows_refl vr : visit_grows vr vr.
Proof. split; [reflexivity | tauto]. Qed.

Lemma visit_grows_trans a b c : visit_grows a b -> visit_grows b c -> visit_grows a c.
Proof.
  intros [Hn1 Hk1] [Hn2 Hk2]. split; [etrans; eassumption | auto].
Qed.

Lemma merge_visit_grows d old : visit_grows old (merge_visit d (Some old)).
Proof. split; simpl; [reflexivity | intros k; apply dict_mem_update]. Qed.

Lemma append_note_grows n old : visit_grows old (append_note n (Some old)).
Proof. split; simpl; [apply prefix_app_r; reflexivity | tauto]. Qed.

Lemma store_extends_refl db : store_extends db db.
Proof. intros pid vid old H. exists old. split; [exact H | apply visit_grows_refl]. Qed.

Lemma store_extends_trans a b c :
  store_extends a b -> store_extends b c -> store_extends a c.
Proof.
  intros Hab Hbc pid vid old H.
  destruct (Hab _ _ _ H) as (mid & Hm & Hg1).
  destruct (Hbc _ _ _ Hm) as (new & Hn & Hg2).
  exists new. split; [exact Hn | eapply visit_grows_trans; eassumption].
Qed.

Lemma store_extends_grows db db' : store_extends db db' -> store_grows db db'.
Proof.
  intros He pid vid old new Ho Hn. destruct (He _ _ _ Ho) as (new' & Hn' & Hg).
  congruence.
Qed.

Lemma store_extends_fold (f : PatientDatabase -> pydict -> PatientDatabase) rows db :
  (forall db0 row, store_extends db0 (f db0 row)) ->
  store_extends db (fold_left f rows db).
Proof.
  intros Hf. revert db. induction rows as [|row rows IH]; intros db; simpl.
  - apply store_extends_refl.
  - eapply store_extends_trans; [apply Hf | apply IH].
Qed.

Lemma load_data_row_extends db row : store_extends db (load_data_row db row).
Proof.
  destruct (as_id (dict_get (Some ID_PATIENT) row)) as [pid|] eqn:Hp;
    [|rewrite load_data_row_skip by tauto; apply store_extends_refl].
  destruct (as_id (dict_get (Some ID_VISIT) row)) as [vid|] eqn:Hv;
    [|rewrite load_data_row_skip by tauto; apply store_extends_refl].
  intros p v old Ho. rewrite (find_visit_load_data_row _ _ _ _ _ _ Hp Hv).
  destruct (decide (p = pid /\ v = vid)).
  - eexists. split; [reflexivity|]. rewrite Ho. apply merge_visit_grows.
  - exists old. split; [exact Ho | apply visit_grows_refl].
Qed.

Lemma load_notes_row_extends db row : store_extends db (load_notes_row db row).
Proof.
  destruct (as_id (dict_get (Some ID_PATIENT) row)) as [pid|] eqn:Hp;
    [|rewrite load_notes_row_skip by tauto; apply store_extends_refl].
  destruct (as_id (dict_get (Some ID_VISIT) row)) as [vid|] eqn:Hv;
    [|rewrite load_notes_row_skip by tauto; apply store_extends_refl].
  destruct (as_id (dict_get (Some "Note_ID") row)) as [nid|] eqn:Hn;
    [|rewrite load_notes_row_skip by tauto; apply store_extends_refl].
  intros p v old Ho. rewrite (find_visit_load_notes_row _ _ _ _ _ _ _ Hp Hv Hn).
  destruct (decide (p = pid /\ v = vid)).
  - eexists. split; [reflexivity|]. rewrite Ho. apply append_note_grows.
  - exists old. split; [exact Ho | apply visit_grows_refl].
Qed.

Lemma load_data_extends file_path fs db : store_extends db (load_data file_path fs db).
Proof.
  unfold load_data. destruct (fs !! file_path) as [f|].
  - apply store_extends_fold, load_data_row_extends.
  - apply store_extends_refl.
Qed.

Lemma load_notes_data_extends file_path fs db :
  store_extends db (load_notes_data file_path fs db).
Proof.
  unfold load_notes_data. destruct (fs !! file_path) as [f|].
  - apply store_extends_fold, load_notes_row_extends.
  - apply store_extends_refl.
Qed.

Lemma add_visit_grows visit_id d n r : record_grows r (add_visit visit_id d n r).
Proof.
  intros vid old new Ho Hn.
  destruct (decide (vid = visit_id)) as [->|Hne].
  - pose proof (add_visit_fields visit_id d n r) as Hf.
    pose proof (add_visit_notes visit_id d n r) as Hns.
    unfold fields_of, notes_of in Hf, Hns. rewrite Ho, Hn in Hf, Hns.
    split.
    + rewrite Hns. apply prefix_app_r. reflexivity.
    + intros k. rewrite Hf. apply dict_mem_update.
  - rewrite add_visit_other in Hn by exact Hne.
    assert (new = old) as -> by congruence. apply visit_grows_refl.
Qed.

Lemma add_notes_to_visit_grows visit_id n r :
  record_grows r (add_notes_to_visit visit_id n r).2.
Proof.
  intros vid old new Ho Hn. unfold add_notes_to_visit in Hn.
  destruct (dict_get visit_id (visits r)) as [vr|] eqn:Hg; simpl in Hn.
  - rewrite dict_get_set in Hn. destruct (decide (vid = visit_id)) as [->|Hne].
    + injection Hn as <-. assert (vr = old) as -> by congruence.
      apply (append_note_grows n old).
    + assert (new = old) as -> by congruence. apply visit_grows_refl.
  - assert (new = old) as -> by congruence. apply visit_grows_refl.
Qed.

(** C8: under [add_visit], [add_notes_to_visit], [load_data] and
    [load_notes_data], for every visit that is there before and after, the
    notes it had are the first of the notes it has, unchanged and in the
    same order, and every field name it had is still a field name. *)
Theorem store_operations_append_only :
  (forall visit_id d n r, record_grows r (add_visit visit_id d n r))
  /\ (forall visit_id n r, record_grows r (add_notes_to_visit visit_id n r).2)
  /\ (forall file_path fs db, store_grows db (load_data file_path fs db))
  /\ (forall file_path fs db, store_grows db (load_notes_data file_path fs db)).
Proof.
  split; [exact add_visit_grows|]. split; [exact add_notes_to_visit_grows|].
  split; intros file_path fs db; apply store_extends_grows.
  - apply load_data_extends.
  - apply load_notes_data_extends.
Qed.

(** ** PatientDatabase.save_visit_data *)

Lemma writerows_fit fieldnames rows out :
  forallb (row_fits fieldnames) rows = true ->
  writerows fieldnames rows out
  = (Returned tt, out ++ map (row_cells fieldnames) rows).
Proof.
  revert out. induction rows as [|r rows IH]; intros out Hf; simpl.
  - rewrite app_nil_r. reflexivity.
  - simpl in Hf. apply andb_true_iff in Hf as [Hr Hf].
    unfold dict_to_list. rewrite Hr. rewrite IH by exact Hf.
    rewrite <- app_assoc. reflexivity.
Qed.






(** ** CredentialsManager *)

Lemma for_each_app {A S : Type} (body : S -> A -> outcome S) l1 l2 s :
  for_each body (l1 ++ l2) s = (s' ← for_each body l1 s; for_each body l2 s').
Proof.
  revert s. induction l1 as [|a l1 IH]; intros s; simpl; [reflexivity|].
  destruct (body s a) as [s'|e]; simpl; [apply IH | reflexivity].
Qed.

Lemma stripped_field_trimmed key row s :
  stripped_field key row = Returned s <-> trimmed key row = Some s.
Proof.
  unfold stripped_field, trimmed.
  destruct (dict_get (Some key) row) as [[|s0|z|l]|]; split; intros [=]; subst;
    reflexivity.
Qed.

Lemma nonempty_lower s : nonempty (py_lower s) = nonempty s.
Proof. destruct s; reflexivity. Qed.

(** One row: the table gets the entry of a kept row and is left alone by a
    row that is not kept. *)
Lemma load_credential_kept credentials row credentials' :
  load_credential credentials row = Returned credentials' ->
  has_required row
  /\ credentials' =
       match kept row with
       | Some uc => dict_set uc.1 uc.2 credentials
       | None => credentials
       end.
Proof.
  unfold load_credential, kept, has_required.
  destruct (stripped_field "username" row) as [u|e] eqn:Hu; simpl; [|discriminate].
  destruct (stripped_field "password" row) as [p|e] eqn:Hp; simpl; [|discriminate].
  destruct (stripped_field "role" row) as [r|e] eqn:Hr; simpl; [|discriminate].
  apply stripped_field_trimmed in Hu, Hp, Hr. rewrite Hu, Hp, Hr. simpl.
  intros H. split; [repeat split; eexists; reflexivity|].
  rewrite nonempty_lower in H.
  destruct (nonempty u && nonempty p && nonempty r);
    injection H as <-; reflexivity.
Qed.

Lemma load_credential_returns credentials row :
  has_required row -> exists credentials', load_credential credentials row = Returned credentials'.
Proof.
  unfold has_required, load_credential.
  intros ([u Hu] & [p Hp] & [r Hr]).
  apply stripped_field_trimmed in Hu, Hp, Hr. rewrite Hu, Hp, Hr. simpl.
  destruct (nonempty (py_lower u) && nonempty p && nonempty r); eexists; reflexivity.
Qed.

Lemma dict_get_rev_snoc {V : Type} (u k : string) (v : V) (d : list (string * V)) :
  dict_get u (rev (d ++ [(k, v)])) = if decide (u = k) then Some v else dict_get u (rev d).
Proof. rewrite rev_app_distr. reflexivity. Qed.

(** The table after the rows: a user name maps to the credential of the
    last kept row that has it, on top of the table before. *)
Lemma load_credentials_lookup rows credentials credentials' u :
  for_each load_credential rows credentials = Returned credentials' ->
  dict_get u credentials' =
    match last_kept u rows with
    | Some c => Some c
    | None => dict_get u credentials
    end.
Proof.
  revert credentials'. induction rows as [|row rows IH] using rev_ind;
    intros credentials' H.
  - injection H as <-. reflexivity.
  - rewrite for_each_app in H.
    destruct (for_each load_credential rows credentials) as [mid|e] eqn:Hm;
      simpl in H; [|discriminate].
    destruct (load_credential mid row) as [fin|e] eqn:Hrow; simpl in H; [|discriminate].
    injection H as <-. apply load_credential_kept in Hrow as [_ ->].
    specialize (IH mid eq_refl). unfold last_kept in *. rewrite omap_app. simpl.
    destruct (kept row) as [[k c]|]; simpl.
    + rewrite dict_get_rev_snoc, dict_get_set.
      destruct (decide (u = k)); [reflexivity | exact IH].
    + rewrite app_nil_r. exact IH.
Qed.

Lemma kept_nonempty row u c :
  kept row = Some (u, c) ->
  nonempty u = true /\ nonempty (password c) = true /\ nonempty (role c) = true.
Proof.
  unfold kept.
  destruct (trimmed "username" row) as [u0|]; simpl; [|discriminate].
  destruct (trimmed "password" row) as [p0|]; simpl; [|discriminate].
  destruct (trimmed "role" row) as [r0|]; simpl; [|discriminate].
  destruct (nonempty u0) eqn:H1; simpl; [|discriminate].
  destruct (nonempty p0) eqn:H2; simpl; [|discriminate].
  destruct (nonempty r0) eqn:H3; simpl; [|discriminate].
  intros [= <- <-]. simpl. rewrite nonempty_lower. tauto.
Qed.

Lemma last_kept_Some u rows c :
  last_kept u rows = Some c -> exists row, row ∈ rows /\ kept row = Some (u, c).
Proof.
  unfold last_kept. intros H. apply dict_get_Some_elem in H.
  apply list_elem_of_In, in_rev, list_elem_of_In in H.
  apply list_elem_of_omap in H. exact H.
Qed.

(** A row with an empty user name, password or role after trimming is
    not kept. *)
Lemma kept_blank row :
  trimmed "username" row = Some "" \/ trimmed "password" row = Some ""
  \/ trimmed "role" row = Some "" ->
  kept row = None.
Proof.
  unfold kept. intros [H|[H|H]]; rewrite H; simpl.
  - destruct (trimmed "password" row); simpl; [|reflexivity].
    destruct (trimmed "role" row); reflexivity.
  - destruct (trimmed "username" row); simpl; [|reflexivity].
    destruct (trimmed "role" row); simpl; [|reflexivity].
    rewrite andb_false_r. reflexivity.
  - destruct (trimmed "username" row); simpl; [|reflexivity].
    destruct (trimmed "password" row); simpl; [|reflexivity].
    rewrite andb_false_r. reflexivity.
Qed.

(** The load returns a table when the file is there, its header names the
    three required columns and no row stops before one of them. *)
Lemma load_returns file_path fs f :
  fs !! file_path = Some f ->
  forallb (fun k => bool_decide (k ∈ default [] (reader_fieldnames f))) REQUIRED = true ->
  Forall has_required (DictReader f) ->
  exists credentials, _load file_path fs = Returned credentials.
Proof.
  intros Hf Hreq Hrows. unfold _load. rewrite Hf, Hreq.
  generalize (@nil (string * Credential)) as credentials.
  induction Hrows as [|row rows Hrow _ IH]; intros credentials; simpl.
  - eexists; reflexivity.
  - destruct (load_credential_returns credentials row Hrow) as [c' ->]. simpl.
    apply IH.
Qed.

(** C10: when [_load] returns a table, a user name of the table maps to
    the password and role of the last row with that name among the rows
    whose user name, password and role are not empty after trimming, and a
    name no such row has is not in the table; so every entry has a user
    name, a password and a role that are not empty, and [authenticate]
    returns a role only if it is the role, not empty, of such an entry
    whose password, not empty, is the one given. *)
Theorem credentials_table_keeps_complete_rows file_path fs credentials :
  _load file_path fs = Returned credentials ->
  (exists f, fs !! file_path = Some f
     /\ forall u, dict_get u credentials = last_kept u (DictReader f))
  /\ (forall u c, dict_get u credentials = Some c ->
        nonempty u = true /\ nonempty (password c) = true
        /\ nonempty (role c) = true)
  /\ (forall username password0 r,
        authenticate credentials username password0 = Returned (Some r) ->
        exists c,
          dict_get (py_lower (py_strip username)) credentials = Some c
          /\ r = role c /\ password0 = password c
          /\ nonempty r = true /\ nonempty password0 = true).
Proof.
  unfold _load. destruct (fs !! file_path) as [f|] eqn:Hf; [|discriminate].
  destruct (forallb _ REQUIRED); [|discriminate]. intros Hload.
  assert (Hlook : forall u, dict_get u credentials = last_kept u (DictReader f)).
  { intros u. rewrite (load_credentials_lookup _ _ _ u Hload). simpl.
    destruct (last_kept u (DictReader f)); reflexivity. }
  assert (Hne : forall u c, dict_get u credentials = Some c ->
            nonempty u = true /\ nonempty (password c) = true
            /\ nonempty (role c) = true).
  { intros u c Hg. rewrite Hlook in Hg.
    apply last_kept_Some in Hg as (row & _ & Hk). eapply kept_nonempty, Hk. }
  split; [exists f; split; [reflexivity | exact Hlook]|]. split; [exact Hne|].
  intros username password0 r. unfold authenticate.
  destruct (dict_get (py_lower (py_strip username)) credentials) as [c|] eqn:Hg;
    [|discriminate].
  unfold compare_digest.
  destruct (Str.isascii _ && Str.isascii _); simpl; [|discriminate].
  destruct (String.eqb (password c) password0) eqn:Hpw; [|discriminate].
  intros [= <-]. apply String.eqb_eq in Hpw. subst password0.
  destruct (Hne _ _ Hg) as (_ & Hp & Hr).
  exists c. repeat split; assumption.
Qed.

Lemma credentials_table_keeps_complete_rows_witness :
  exists credentials,
    _load "Credentials.csv" credentials_fs = Returned credentials
    /\ dict_get "bob" credentials = Some (mkCredential "pw2" "nurse")
    /\ dict_get "carol" credentials = None.
Proof.
  destruct (load_returns "Credentials.csv" credentials_fs
              [["username"; "password"; "role"];
               [" Bob "; "pw"; "admin"];
               ["carol"; " "; "nurse"];
               ["BOB"; "pw2"; "nurse"]]) as [credentials Hload].
  - reflexivity.
  - reflexivity.
  - repeat constructor; eexists; reflexivity.
  - exists credentials. split; [exact Hload|].
    destruct (credentials_table_keeps_complete_rows _ _ _ Hload)
      as ((f & Hf & Hlook) & _).
    injection Hf as <-. rewrite !Hlook. split; vm_compute; reflexivity.
Defined.

(** ** Writing both files and reading them back *)

Section DictMore.
Context {K V : Type} `{EqDecision K}.
Implicit Types (k : K) (v : V) (d : list (K * V)).

Lemma dict_keys_set_elem k k' v d :
  k' ∈ dict_keys (dict_set k v d) -> k' = k \/ k' ∈ dict_keys d.
Proof.
  destruct (dict_get k d) eqn:Hg.
  - rewrite dict_keys_set_present by (unfold dict_mem; rewrite Hg; reflexivity). tauto.
  - rewrite dict_keys_set_absent by exact Hg. unfold dict_keys. rewrite map_app.
    simpl. rewrite elem_of_app, list_elem_of_singleton. tauto.
Qed.

Lemma dict_keys_update_elem k d other :
  k ∈ dict_keys (dict_update d other) -> k ∈ dict_keys d \/ k ∈ dict_keys other.
Proof.
  revert d. induction other as [|[k0 v0] other IH]; intros d Hin; [left; exact Hin|].
  rewrite dict_update_cons in Hin. apply IH in Hin as [Hin|Hin].
  - apply dict_keys_set_elem in Hin as [->|Hin]; [right; left | left; exact Hin].
  - right. right. exact Hin.
Qed.

Lemma dict_get_filter (P : K -> bool) k d :
  dict_get k (List.filter (fun kv => P kv.1) d) = if P k then dict_get k d else None.
Proof.
  induction d as [|[k0 v0] d IH]; simpl.
  - destruct (P k); reflexivity.
  - destruct (P k0) eqn:Hk0; simpl.
    + destruct (decide (k = k0)) as [->|Hne]; [rewrite Hk0; reflexivity | exact IH].
    + destruct (decide (k = k0)) as [->|Hne]; [|exact IH].
      rewrite IH, Hk0. reflexivity.
Qed.

Lemma dict_filter_wf (f : K * V -> bool) d : dict_wf d -> dict_wf (List.filter f d).
Proof.
  unfold dict_wf, dict_keys. induction d as [|[k0 v0] d IH]; simpl; [tauto|].
  intros Hnd. apply NoDup_cons in Hnd as [Hk0 Hnd].
  destruct (f (k0, v0)); simpl; [|apply IH, Hnd].
  apply NoDup_cons. split; [|apply IH, Hnd].
  intros Hin. apply Hk0. apply list_elem_of_fmap in Hin as ([k1 v1] & -> & Hin).
  apply list_elem_of_In, filter_In in Hin as [Hin _].
  apply list_elem_of_In in Hin. apply (list_elem_of_fmap_2 fst) in Hin. exact Hin.
Qed.

(** The items under one key of a dict: the one [get] finds, if any. *)
Lemma dict_filter_key k d :
  dict_wf d ->
  List.filter (fun kv => bool_decide (kv.1 = k)) d =
    match dict_get k d with Some x => [(k, x)] | None => [] end.
Proof.
  unfold dict_wf, dict_keys. induction d as [|[k0 v0] d IH]; simpl; [reflexivity|].
  intros Hnd. apply NoDup_cons in Hnd as [Hk0 Hnd].
  destruct (decide (k = k0)) as [->|Hne].
  - rewrite bool_decide_eq_true_2 by reflexivity. f_equal.
    rewrite IH by exact Hnd.
    apply dict_get_None_keys in Hk0. rewrite Hk0. reflexivity.
  - rewrite bool_decide_eq_false_2 by congruence. apply IH, Hnd.
Qed.

Lemma dict_update_nil d : dict_wf d -> dict_update [] d = d.
Proof.
  intros Hwf.
  cut (forall acc, dict_wf (acc ++ d) -> dict_update acc d = acc ++ d).
  { intros Hc. apply (Hc []). exact Hwf. }
  clear Hwf. induction d as [|[k0 v0] d IH]; intros acc Hwf.
  - rewrite app_nil_r. reflexivity.
  - rewrite dict_update_cons. simpl.
    assert (Hnone : dict_get k0 acc = None).
    { apply dict_get_None_keys. unfold dict_wf, dict_keys in Hwf.
      rewrite map_app in Hwf. apply NoDup_app in Hwf as (_ & Hdis & _).
      intros Hin. apply (Hdis _ Hin). left. }
    rewrite (dict_keys_set_absent _ _ _ Hnone).
    rewrite IH; rewrite <- app_assoc; [reflexivity | exact Hwf].
Qed.

End DictMore.

(** *** The reader on a row the writer made *)

Lemma dict_of_zip_fold_get (g : string -> string) cols acc k :
  dict_get k
    (fold_left (fun acc kv => dict_set (Some kv.1) (VStr kv.2) acc)
       (zip cols (map g cols)) acc)
  = match k with
    | Some c => if bool_decide (c ∈ cols) then Some (VStr (g c)) else dict_get k acc
    | None => dict_get None acc
    end.
Proof.
  revert acc. induction cols as [|c0 cols IH]; intros acc;
    cbn [map zip_with fold_left fst snd].
  - destruct k as [c|]; [|reflexivity].
    rewrite bool_decide_eq_false_2 by apply not_elem_of_nil. reflexivity.
  - rewrite IH. destruct k as [c|].
    + destruct (decide (c ∈ cols)) as [Hin|Hnin].
      * rewrite !bool_decide_eq_true_2; [reflexivity | right; exact Hin | exact Hin].
      * rewrite (bool_decide_eq_false_2 _ Hnin). rewrite dict_get_set.
        destruct (decide (Some c = Some c0)) as [[= ->]|Hne].
        -- rewrite bool_decide_eq_true_2 by left. reflexivity.
        -- rewrite bool_decide_eq_false_2; [reflexivity|].
           rewrite elem_of_cons. intros [->|Hin]; [congruence | contradiction].
    + rewrite dict_get_set_ne by discriminate. reflexivity.
Qed.

Lemma dict_of_zip_fold_wf (cols cells : list string) (acc : pydict) :
  dict_wf acc ->
  dict_wf (fold_left (fun acc kv => dict_set (Some kv.1) (VStr kv.2) acc)
             (zip cols cells) acc).
Proof.
  generalize (zip cols cells) as l. intros l. revert acc.
  induction l as [|kv l IH]; intros acc Hwf; simpl; [exact Hwf|].
  apply IH, dict_set_wf, Hwf.
Qed.

Lemma read_row_full (g : string -> string) cols :
  read_row cols (map g cols) = dict_of_zip cols (map g cols).
Proof.
  unfold read_row. rewrite length_map.
  rewrite (proj2 (Nat.ltb_ge _ _)) by lia.
  rewrite drop_all. reflexivity.
Qed.

Lemma read_written_get cols (r : pydict) k :
  dict_get k (read_row cols (row_cells cols r))
  = match k with
    | Some c =>
        if bool_decide (c ∈ cols)
        then Some (VStr (csv_cell (default (VStr "") (dict_get (Some c) r))))
        else None
    | None => None
    end.
Proof.
  unfold row_cells.
  rewrite (read_row_full (fun key => csv_cell (default (VStr "") (dict_get (Some key) r)))).
  unfold dict_of_zip. rewrite dict_of_zip_fold_get. destruct k; reflexivity.
Qed.


(** *** The visits of a store as a list *)

Lemma get_visit_data_rows_triples self :
  get_visit_data_rows self
  = map (fun t => flat_row t.1.1 t.1.2 (data t.2)) (visit_triples self).
Proof.
  unfold get_visit_data_rows, visit_triples.
  induction (dict_values (patients self)) as [|pr prs IH]; [reflexivity|].
  simpl. rewrite map_app, IH, map_map. reflexivity.
Qed.

Lemma get_visit_notes_rows_triples self :
  get_visit_notes_rows self
  = flat_map (fun t => map (flat_row t.1.1 t.1.2) (notes t.2)) (visit_triples self).
Proof.
  unfold get_visit_notes_rows, visit_triples.
  induction (dict_values (patients self)) as [|pr prs IH]; [reflexivity|].
  simpl. rewrite flat_map_app, IH. f_equal.
  induction (visits pr) as [|vv vs IHv]; [reflexivity|].
  simpl. rewrite IHv. reflexivity.
Qed.

Lemma visit_triples_ok cols self :
  store_ok cols self = true -> forallb (triple_ok cols) (visit_triples self) = true.
Proof.
  unfold store_ok, visit_triples. intros H. apply andb_true_iff in H as [_ H].
  destruct self as [ps]. simpl in *.
  induction ps as [|[pid pr] ps IH]; [reflexivity|].
  simpl in H. apply andb_true_iff in H as [Hp H].
  simpl. rewrite forallb_app. rewrite (IH H), andb_true_r.
  unfold patient_ok in Hp. simpl in Hp.
  apply andb_true_iff in Hp as [Hp Hvs]. apply andb_true_iff in Hp as [Hp _].
  apply andb_true_iff in Hp as [Hid Hne]. apply String.eqb_eq in Hid. subst pid.
  induction (visits pr) as [|[vid vr] vs IHv]; [reflexivity|].
  simpl in Hvs. apply andb_true_iff in Hvs as [Hv Hvs].
  simpl. rewrite (IHv Hvs), andb_true_r.
  unfold triple_ok. simpl. rewrite Hne. exact Hv.
Qed.

Lemma filter_has_ids_patient pid p v (vs : list (string * VisitRecord)) :
  NoDup (dict_keys vs) ->
  List.filter (has_ids p v) (map (fun vv => (pid, vv.1, vv.2)) vs) =
    if decide (pid = p)
    then match dict_get v vs with Some vr => [(p, v, vr)] | None => [] end
    else [].
Proof.
  intros Hwf.
  assert (Hf : List.filter (has_ids p v) (map (fun vv => (pid, vv.1, vv.2)) vs) =
               if decide (pid = p)
               then map (fun vv => (p, vv.1, vv.2))
                      (List.filter (fun kv => bool_decide (kv.1 = v)) vs)
               else []).
  { clear Hwf. induction vs as [|[vid vr] vs IH]; simpl.
    - destruct (decide (pid = p)); reflexivity.
    - unfold has_ids at 1. simpl. rewrite IH.
      destruct (decide (pid = p)) as [->|Hne].
      + destruct (decide (vid = v)) as [->|Hne'].
        * rewrite !bool_decide_eq_true_2 by reflexivity. reflexivity.
        * rewrite !bool_decide_eq_false_2 by congruence. reflexivity.
      + rewrite bool_decide_eq_false_2 by congruence. reflexivity. }
  rewrite Hf, (dict_filter_key v vs Hwf).
  destruct (decide (pid = p)); [|reflexivity].
  destruct (dict_get v vs); reflexivity.
Qed.

(** The visits with given ids in the list: the one [find_visit] finds. *)
Lemma filter_has_ids_store cols self p v :
  store_ok cols self = true ->
  List.filter (has_ids p v) (visit_triples self) =
    match find_visit p v self with Some vr => [(p, v, vr)] | None => [] end.
Proof.
  unfold store_ok, visit_triples, find_visit. intros H.
  apply andb_true_iff in H as [Hnd H]. apply bool_decide_eq_true in Hnd.
  destruct self as [ps]. simpl in *.
  induction ps as [|[pid pr] ps IH]; [reflexivity|].
  simpl in H. apply andb_true_iff in H as [Hp H].
  unfold dict_keys in Hnd. simpl in Hnd. apply NoDup_cons in Hnd as [Hpid Hnd].
  specialize (IH Hnd H).
  unfold patient_ok in Hp. simpl in Hp.
  apply andb_true_iff in Hp as [Hp _]. apply andb_true_iff in Hp as [Hp Hvnd].
  apply andb_true_iff in Hp as [Hid _]. apply String.eqb_eq in Hid.
  apply bool_decide_eq_true in Hvnd.
  simpl. rewrite List.filter_app, IH, Hid.
  rewrite (filter_has_ids_patient pid p v (visits pr) Hvnd).
  destruct (decide (pid = p)) as [->|Hne].
  - rewrite decide_True by reflexivity. simpl.
    apply dict_get_None_keys in Hpid. rewrite Hpid. simpl. apply app_nil_r.
  - rewrite decide_False by congruence. reflexivity.
Qed.

(** *** One visit: the row written and the record read *)

Lemma field_ok_elim cols k :
  field_ok cols k = true -> exists c, k = Some c /\ c ∈ cols /\ is_id_column k = false.
Proof.
  destruct k as [c|]; simpl; [|discriminate].
  intros H. apply andb_true_iff in H as [Hin Hid].
  apply bool_decide_eq_true in Hin. apply negb_true_iff in Hid.
  exists c. repeat split; assumption.
Qed.

Lemma fields_not_id cols (d : pydict) k :
  forallb (field_ok cols) (dict_keys d) = true ->
  is_id_column k = true -> dict_get k d = None.
Proof.
  intros Hall Hid. apply dict_get_None_keys. intros Hin.
  rewrite forallb_forall in Hall. apply list_elem_of_In, Hall in Hin.
  apply field_ok_elim in Hin as (c & _ & _ & Hno). congruence.
Qed.

Lemma flat_row_get pid vid (d : pydict) k :
  dict_wf d ->
  dict_get k (flat_row pid vid d) =
    match dict_get k d with
    | Some x => Some x
    | None => dict_get k [(Some ID_PATIENT, VStr pid); (Some ID_VISIT, VStr vid)]
    end.
Proof. intros Hwf. unfold flat_row. apply dict_get_update, Hwf. Qed.

Lemma visit_ok_elim cols vr :
  visit_ok cols vr = true ->
  dict_wf (data vr) /\ forallb (field_ok cols) (dict_keys (data vr)) = true
  /\ forallb note_ok (notes vr) = true.
Proof.
  unfold visit_ok. intros H. apply andb_true_iff in H as [H Hn].
  apply andb_true_iff in H as [Hwf Hk]. apply bool_decide_eq_true in Hwf. tauto.
Qed.

Lemma triple_ok_elim cols t :
  triple_ok cols t = true ->
  nonempty t.1.1 = true /\ nonempty t.1.2 = true /\ visit_ok cols t.2 = true.
Proof.
  unfold triple_ok. intros H. apply andb_true_iff in H as [H Hv].
  apply andb_true_iff in H as [Hp Hvid]. tauto.
Qed.

Lemma as_id_nonempty s : nonempty s = true -> as_id (Some (VStr s)) = Some s.
Proof.
  unfold nonempty, as_id. intros H. apply negb_true_iff in H. rewrite H. reflexivity.
Qed.

Lemma flat_row_fits cols t :
  ID_PATIENT ∈ cols -> ID_VISIT ∈ cols -> triple_ok cols t = true ->
  row_fits cols (flat_row t.1.1 t.1.2 (data t.2)) = true.
Proof.
  intros Hp Hv Hok. apply triple_ok_elim in Hok as (_ & _ & Hok).
  apply visit_ok_elim in Hok as (_ & Hk & _).
  unfold row_fits. apply forallb_forall. intros k Hin.
  apply bool_decide_eq_true. apply list_elem_of_In in Hin.
  unfold flat_row in Hin. apply dict_keys_update_elem in Hin as [Hin|Hin].
  - simpl in Hin. apply elem_of_cons in Hin as [->|Hin];
      [apply list_elem_of_fmap_2; exact Hp|].
    apply list_elem_of_singleton in Hin as ->. apply list_elem_of_fmap_2. exact Hv.
  - rewrite forallb_forall in Hk. apply list_elem_of_In, Hk in Hin.
    apply field_ok_elim in Hin as (c & -> & Hc & _).
    apply list_elem_of_fmap_2. exact Hc.
Qed.

Lemma data_record_key cols t :
  ID_PATIENT ∈ cols -> ID_VISIT ∈ cols -> triple_ok cols t = true ->
  data_key (data_record cols t) = Some (t.1.1, t.1.2).
Proof.
  intros Hp Hv Hok. apply triple_ok_elim in Hok as (Hnp & Hnv & Hok).
  apply visit_ok_elim in Hok as (Hwf & Hk & _).
  unfold data_key, data_record. rewrite !read_written_get.
  rewrite !bool_decide_eq_true_2 by assumption.
  rewrite !flat_row_get by exact Hwf.
  rewrite (fields_not_id cols _ (Some ID_PATIENT)) by (assumption || reflexivity).
  rewrite (fields_not_id cols _ (Some ID_VISIT)) by (assumption || reflexivity).
  change (dict_get (Some ID_PATIENT)
            [(Some ID_PATIENT, VStr t.1.1); (Some ID_VISIT, VStr t.1.2)])
    with (Some (VStr t.1.1)).
  change (dict_get (Some ID_VISIT)
            [(Some ID_PATIENT, VStr t.1.1); (Some ID_VISIT, VStr t.1.2)])
    with (Some (VStr t.1.2)).
  cbn [default csv_cell]. rewrite !as_id_nonempty by assumption. reflexivity.
Qed.


(** *** One note: the row written and the record read *)

Lemma note_ok_elim n :
  note_ok n = true ->
  exists id text,
    n = [(Some "Note_ID", VStr id); (Some "Note_text", VStr text)]
    /\ nonempty id = true.
Proof.
  unfold note_ok.
  destruct n as [|[[k1|] [|id|z|l]] [|[[k2|] [|text|z'|l']] [|? ?]]]; try discriminate.
  intros H. apply andb_true_iff in H as [H Hid]. apply andb_true_iff in H as [H1 H2].
  apply String.eqb_eq in H1, H2. subst. exists id, text. split; [reflexivity | exact Hid].
Qed.

Lemma note_row_facts pid vid n :
  nonempty pid = true -> nonempty vid = true -> note_ok n = true ->
  row_fits NOTES_FIELDNAMES (flat_row pid vid n) = true
  /\ note_key (note_record pid vid n) = Some (pid, vid)
  /\ note_of (note_record pid vid n) = n.
Proof.
  intros Hp Hv Hn. apply note_ok_elim in Hn as (id & text & -> & Hid).
  split; [reflexivity|].
  assert (Hrec : note_record pid vid
                   [(Some "Note_ID", VStr id); (Some "Note_text", VStr text)]
                 = [(Some "Patient_ID", VStr pid); (Some "Visit_ID", VStr vid);
                    (Some "Note_ID", VStr id); (Some "Note_text", VStr text)])
    by reflexivity.
  rewrite Hrec. clear Hrec.
  set (rec := [(Some "Patient_ID", VStr pid); (Some "Visit_ID", VStr vid);
               (Some "Note_ID", VStr id); (Some "Note_text", VStr text)]).
  assert (H1 : dict_get (Some ID_PATIENT) rec = Some (VStr pid)) by reflexivity.
  assert (H2 : dict_get (Some ID_VISIT) rec = Some (VStr vid)) by reflexivity.
  assert (H3 : dict_get (Some "Note_ID") rec = Some (VStr id)) by reflexivity.
  assert (H4 : dict_get (Some "Note_text") rec = Some (VStr text)) by reflexivity.
  unfold note_key, note_of, row_note. rewrite H1, H2, H3, H4.
  rewrite !as_id_nonempty by assumption. split; reflexivity.
Qed.

(** *** The loaders over the records of a file *)

Lemma data_key_Some row pid vid :
  data_key row = Some (pid, vid) <->
  as_id (dict_get (Some ID_PATIENT) row) = Some pid
  /\ as_id (dict_get (Some ID_VISIT) row) = Some vid.
Proof.
  unfold data_key.
  destruct (as_id (dict_get (Some ID_PATIENT) row)) as [p0|];
    destruct (as_id (dict_get (Some ID_VISIT) row)) as [v0|];
    split; try discriminate; try (intros [H1 H2]; discriminate).
  - intros [= -> ->]. tauto.
  - intros [[= ->] [= ->]]. reflexivity.
Qed.

Lemma data_key_None row :
  data_key row = None -> load_data_row (mkDatabase []) row = mkDatabase []
                         /\ forall self, load_data_row self row = self.
Proof.
  unfold data_key. intros H.
  assert (Hs : as_id (dict_get (Some ID_PATIENT) row) = None
               \/ as_id (dict_get (Some ID_VISIT) row) = None).
  { destruct (as_id (dict_get (Some ID_PATIENT) row)); [|tauto].
    destruct (as_id (dict_get (Some ID_VISIT) row)); [discriminate | tauto]. }
  split; [|intros self]; apply load_data_row_skip, Hs.
Qed.

(** After [load_data] a visit is what the records with its two ids make of
    it, merged one after the other: a later record overwrites the fields
    it shares with an earlier one. *)
Lemma find_visit_load_data_rows rows self p v :
  find_visit p v (fold_left load_data_row rows self) =
    fold_left (fun o row => Some (merge_visit (row_data row) o))
      (List.filter (fun row => bool_decide (data_key row = Some (p, v))) rows)
      (find_visit p v self).
Proof.
  revert self. induction rows as [|row rows IH]; intros self; [reflexivity|].
  simpl. rewrite IH. destruct (data_key row) as [[pid vid]|] eqn:Hk.
  - apply data_key_Some in Hk as [Hp Hv].
    rewrite (find_visit_load_data_row _ _ _ _ _ _ Hp Hv).
    destruct (decide (p = pid /\ v = vid)) as [[-> ->]|Hne].
    + rewrite bool_decide_eq_true_2 by reflexivity. reflexivity.
    + rewrite bool_decide_eq_false_2; [reflexivity|].
      intros [= -> ->]. tauto.
  - rewrite bool_decide_eq_false_2 by discriminate.
    rewrite (proj2 (data_key_None _ Hk)). reflexivity.
Qed.

Lemma note_key_Some row pid vid :
  note_key row = Some (pid, vid) ->
  exists note_id,
    as_id (dict_get (Some ID_PATIENT) row) = Some pid
    /\ as_id (dict_get (Some ID_VISIT) row) = Some vid
    /\ as_id (dict_get (Some "Note_ID") row) = Some note_id.
Proof.
  unfold note_key.
  destruct (as_id (dict_get (Some ID_PATIENT) row)) as [p0|]; [|discriminate].
  destruct (as_id (dict_get (Some ID_VISIT) row)) as [v0|]; [|discriminate].
  destruct (as_id (dict_get (Some "Note_ID") row)) as [n0|]; [|discriminate].
  intros [= -> ->]. exists n0. tauto.
Qed.

Lemma note_key_None row self : note_key row = None -> load_notes_row self row = self.
Proof.
  unfold note_key. intros H. apply load_notes_row_skip.
  destruct (as_id (dict_get (Some ID_PATIENT) row)); [|tauto].
  destruct (as_id (dict_get (Some ID_VISIT) row)); [|tauto].
  destruct (as_id (dict_get (Some "Note_ID") row)); [discriminate | tauto].
Qed.

(** After [load_notes_data] a visit has, after the notes it had, the notes
    of the records with its two ids, in the order of the file. *)
Lemma find_visit_load_notes_rows rows self p v :
  find_visit p v (fold_left load_notes_row rows self) =
    fold_left (fun o row => Some (append_note (note_of row) o))
      (List.filter (fun row => bool_decide (note_key row = Some (p, v))) rows)
      (find_visit p v self).
Proof.
  revert self. induction rows as [|row rows IH]; intros self; [reflexivity|].
  simpl. rewrite IH. destruct (note_key row) as [[pid vid]|] eqn:Hk.
  - apply note_key_Some in Hk as (nid & Hp & Hv & Hn).
    rewrite (find_visit_load_notes_row _ _ _ _ _ _ _ Hp Hv Hn).
    destruct (decide (p = pid /\ v = vid)) as [[-> ->]|Hne].
    + rewrite bool_decide_eq_true_2 by reflexivity. simpl.
      unfold note_of. rewrite Hn. reflexivity.
    + rewrite bool_decide_eq_false_2; [reflexivity|].
      intros [= -> ->]. tauto.
  - rewrite bool_decide_eq_false_2 by discriminate.
    rewrite (note_key_None _ _ Hk). reflexivity.
Qed.

Lemma append_notes_fold rows vr :
  fold_left (fun o row => Some (append_note (note_of row) o)) rows (Some vr)
  = Some (mkVisit (data vr) (notes vr ++ map note_of rows)).
Proof.
  revert vr. induction rows as [|row rows IH]; intros vr; simpl.
  - rewrite app_nil_r. destruct vr; reflexivity.
  - rewrite IH. simpl. rewrite <- app_assoc. reflexivity.
Qed.

(** *** The records of the two files written *)

Lemma DictReader_written cols (rows : list pydict) :
  cols <> [] ->
  DictReader (cols :: map (row_cells cols) rows)
  = map (fun r => read_row cols (row_cells cols r)) rows.
Proof.
  intros Hne. unfold DictReader.
  induction rows as [|r rows IH]; [reflexivity|].
  simpl. destruct (row_cells cols r) eqn:Hc.
  - destruct cols; [congruence | discriminate].
  - simpl. rewrite <- Hc, IH. reflexivity.
Qed.

Lemma data_records_filter cols ts p v :
  ID_PATIENT ∈ cols -> ID_VISIT ∈ cols ->
  forallb (triple_ok cols) ts = true ->
  List.filter (fun row => bool_decide (data_key row = Some (p, v)))
    (map (data_record cols) ts)
  = map (data_record cols) (List.filter (has_ids p v) ts).
Proof.
  intros Hp Hv. induction ts as [|t ts IH]; intros Hok; [reflexivity|].
  simpl in Hok. apply andb_true_iff in Hok as [Ht Hok].
  simpl. rewrite (data_record_key cols t Hp Hv Ht), (IH Hok).
  destruct (has_ids p v t) eqn:Hh; unfold has_ids in Hh.
  - apply bool_decide_eq_true in Hh.
    rewrite bool_decide_eq_true_2 by congruence. reflexivity.
  - apply bool_decide_eq_false in Hh.
    rewrite bool_decide_eq_false_2 by congruence. reflexivity.
Qed.

Lemma note_records_filter_one pid vid ns p v :
  nonempty pid = true -> nonempty vid = true -> forallb note_ok ns = true ->
  List.filter (fun row => bool_decide (note_key row = Some (p, v)))
    (map (note_record pid vid) ns)
  = if bool_decide ((pid, vid) = (p, v)) then map (note_record pid vid) ns else [].
Proof.
  intros Hp Hv. induction ns as [|n ns IH]; intros Hok; simpl.
  - destruct (bool_decide _); reflexivity.
  - simpl in Hok. apply andb_true_iff in Hok as [Hn Hok].
    destruct (note_row_facts pid vid n Hp Hv Hn) as (_ & Hk & _).
    rewrite Hk, (IH Hok).
    destruct (decide ((pid, vid) = (p, v))) as [Heq|Hne].
    + rewrite !bool_decide_eq_true_2 by congruence. reflexivity.
    + rewrite !bool_decide_eq_false_2 by congruence. reflexivity.
Qed.

Lemma note_records_filter cols ts p v :
  forallb (triple_ok cols) ts = true ->
  List.filter (fun row => bool_decide (note_key row = Some (p, v)))
    (flat_map (fun t => map (note_record t.1.1 t.1.2) (notes t.2)) ts)
  = flat_map (fun t => map (note_record t.1.1 t.1.2) (notes t.2))
      (List.filter (has_ids p v) ts).
Proof.
  induction ts as [|t ts IH]; intros Hok; [reflexivity|].
  simpl in Hok. apply andb_true_iff in Hok as [Ht Hok].
  apply triple_ok_elim in Ht as (Hp & Hv & Hvr).
  apply visit_ok_elim in Hvr as (_ & _ & Hns).
  simpl. rewrite List.filter_app, (IH Hok).
  rewrite (note_records_filter_one _ _ _ p v Hp Hv Hns).
  destruct (has_ids p v t) eqn:Hh; unfold has_ids in Hh; rewrite Hh; reflexivity.
Qed.

Lemma note_records_notes pid vid ns :
  nonempty pid = true -> nonempty vid = true -> forallb note_ok ns = true ->
  map note_of (map (note_record pid vid) ns) = ns.
Proof.
  intros Hp Hv. induction ns as [|n ns IH]; intros Hok; [reflexivity|].
  simpl in Hok. apply andb_true_iff in Hok as [Hn Hok].
  destruct (note_row_facts pid vid n Hp Hv Hn) as (_ & _ & Hof).
  simpl. rewrite Hof, (IH Hok). reflexivity.
Qed.

Lemma data_rows_fit cols self :
  ID_PATIENT ∈ cols -> ID_VISIT ∈ cols -> store_ok cols self = true ->
  forallb (row_fits cols) (get_visit_data_rows self) = true.
Proof.
  intros Hp Hv Hok. apply visit_triples_ok in Hok.
  rewrite get_visit_data_rows_triples.
  induction (visit_triples self) as [|t ts IH]; [reflexivity|].
  simpl in Hok. apply andb_true_iff in Hok as [Ht Hok].
  simpl. rewrite (flat_row_fits cols t Hp Hv Ht). apply IH, Hok.
Qed.

Lemma note_rows_fit cols self :
  store_ok cols self = true ->
  forallb (row_fits NOTES_FIELDNAMES) (get_visit_notes_rows self) = true.
Proof.
  intros Hok. apply visit_triples_ok in Hok.
  rewrite get_visit_notes_rows_triples.
  induction (visit_triples self) as [|t ts IH]; [reflexivity|].
  simpl in Hok. apply andb_true_iff in Hok as [Ht Hok].
  simpl. rewrite forallb_app, (IH Hok), andb_true_r.
  apply triple_ok_elim in Ht as (Hp & Hv & Hvr).
  apply visit_ok_elim in Hvr as (_ & _ & Hns).
  induction (notes t.2) as [|n ns IHn]; [reflexivity|].
  simpl in Hns. apply andb_true_iff in Hns as [Hn Hns].
  destruct (note_row_facts t.1.1 t.1.2 n Hp Hv Hn) as (Hfit & _).
  simpl. rewrite Hfit. apply IHn, Hns.
Qed.

Lemma written_data_records cols self :
  map (fun r => read_row cols (row_cells cols r)) (get_visit_data_rows self)
  = map (data_record cols) (visit_triples self).
Proof. rewrite get_visit_data_rows_triples, map_map. reflexivity. Qed.

Lemma written_note_records self :
  map (fun r => read_row NOTES_FIELDNAMES (row_cells NOTES_FIELDNAMES r))
    (get_visit_notes_rows self)
  = flat_map (fun t => map (note_record t.1.1 t.1.2) (notes t.2)) (visit_triples self).
Proof.
  rewrite get_visit_notes_rows_triples.
  induction (visit_triples self) as [|t ts IH]; [reflexivity|].
  cbn [flat_map]. rewrite map_app, IH, map_map. reflexivity.
Qed.

Lemma find_visit_triple cols self p v vr :
  store_ok cols self = true -> find_visit p v self = Some vr ->
  triple_ok cols (p, v, vr) = true.
Proof.
  intros Hok Hf. pose proof (filter_has_ids_store cols self p v Hok) as Hfil.
  rewrite Hf in Hfil.
  assert (Hin : In (p, v, vr) (List.filter (has_ids p v) (visit_triples self)))
    by (rewrite Hfil; left; reflexivity).
  apply filter_In in Hin as [Hin _].
  apply visit_triples_ok in Hok. rewrite forallb_forall in Hok. apply Hok, Hin.
Qed.




(** What the conditions of the round trip are for: without the id columns
    in [column_order] the save raises; a note text that is [None] comes back
    as the empty string. *)
Example round_trip_without_id_columns :
  round_trip open_here "Patient_data.csv" "Notes.csv" ["Visit_time"; "Age"; "Race"] clinic_db ∅
  = Raised ValueError.
Proof. vm_compute. reflexivity. Qed.

Example round_trip_none_text :
  exists self' vr',
    round_trip open_here "Patient_data.csv" "Notes.csv" data_fieldnames none_text_db ∅
    = Returned self'
    /\ find_visit "P1" "V1" self' = Some vr'
    /\ notes vr' = [[(Some "Note_ID", VStr "n1"); (Some "Note_text", VStr "")]].
Proof.
  eexists _, _. split; [vm_compute; reflexivity|]. split; reflexivity.
Qed.

(** * Further properties of the code *)

(** ** PatientDatabase.remove_patient *)

(** [remove_patient] returns [True] exactly when the patient is in the
    store; afterwards the patient is not found, every other patient is
    found as before, the ids listed are the former ones without this one,
    and a second call returns [False] and changes nothing. *)
Theorem remove_patient_removes patient_id0 self :
  ((remove_patient patient_id0 self).1 = true
   <-> is_Some (get_patient patient_id0 self))
  /\ get_patient patient_id0 (remove_patient patient_id0 self).2 = None
  /\ (forall q, q <> patient_id0 ->
        get_patient q (remove_patient patient_id0 self).2 = get_patient q self)
  /\ list_patient_ids (remove_patient patient_id0 self).2
     = List.filter (fun q => negb (bool_decide (q = patient_id0)))
         (list_patient_ids self)
  /\ remove_patient patient_id0 (remove_patient patient_id0 self).2
     = (false, (remove_patient patient_id0 self).2).
Proof.
  assert (Hget : forall q,
    get_patient q (remove_patient patient_id0 self).2
    = if decide (q = patient_id0) then None else get_patient q self).
  { intros q. unfold remove_patient, get_patient.
    destruct (dict_get patient_id0 (patients self)) as [pr|] eqn:Hg;
      cbn [snd patients].
    - pose proof (dict_get_filter (fun k => negb (bool_decide (k = patient_id0)))
                    q (patients self)) as Hf.
      cbn beta in Hf. rewrite Hf. clear Hf.
      destruct (decide (q = patient_id0)) as [->|Hne].
      + rewrite bool_decide_eq_true_2 by reflexivity. reflexivity.
      + rewrite bool_decide_eq_false_2 by exact Hne. reflexivity.
    - destruct (decide (q = patient_id0)) as [->|Hne]; [exact Hg | reflexivity]. }
  split; [|split; [|split; [|split]]].
  - unfold remove_patient, get_patient.
    destruct (dict_get patient_id0 (patients self)); simpl; split;
      try discriminate; try (intros [x [=]]); eauto.
  - rewrite Hget. rewrite decide_True by reflexivity. reflexivity.
  - intros q Hne. rewrite Hget. rewrite decide_False by exact Hne. reflexivity.
  - unfold remove_patient, list_patient_ids.
    destruct (dict_get patient_id0 (patients self)) as [pr|] eqn:Hg; cbn [snd patients].
    + clear. unfold dict_keys. induction (patients self) as [|[k x] d IH]; [reflexivity|].
      simpl. destruct (bool_decide (k = patient_id0)); simpl;
        rewrite <- ?IH; reflexivity.
    + apply dict_get_None_keys in Hg. unfold dict_keys in *.
      induction (patients self) as [|[k x] d IH]; [reflexivity|].
      simpl in *. apply not_elem_of_cons in Hg as [Hne Hg].
      rewrite bool_decide_eq_false_2 by congruence. simpl. f_equal. apply IH, Hg.
  - specialize (Hget patient_id0). rewrite decide_True in Hget by reflexivity.
    unfold get_patient in Hget. unfold remove_patient at 1. rewrite Hget. reflexivity.
Qed.

(** ** The loaders, record by record *)

Lemma read_row_wf fieldnames row : dict_wf (read_row fieldnames row).
Proof.
  unfold read_row.
  assert (Hd : dict_wf (dict_of_zip fieldnames row))
    by (apply dict_of_zip_fold_wf, NoDup_nil_2).
  destruct (length fieldnames <? length row)%nat; [apply dict_set_wf, Hd|].
  revert Hd. generalize (dict_of_zip fieldnames row) as d.
  induction (drop (length row) fieldnames) as [|key keys IH]; intros d Hd; simpl;
    [exact Hd|].
  apply IH, dict_set_wf, Hd.
Qed.

Lemma DictReader_wf f row : In row (DictReader f) -> dict_wf row.
Proof.
  destruct f as [|fieldnames rows]; simpl; [tauto|].
  intros Hin. apply in_map_iff in Hin as (cells & <- & _). apply read_row_wf.
Qed.

Lemma merges_fold rows vr :
  fold_left (fun o row => Some (merge_visit (row_data row) o)) rows (Some vr)
  = Some (mkVisit (fold_left (fun d row => dict_update d (row_data row)) rows (data vr))
            (notes vr)).
Proof.
  revert vr. induction rows as [|row rows IH]; intros vr; simpl.
  - destruct vr; reflexivity.
  - rewrite IH. reflexivity.
Qed.

Lemma merges_fold_any rows o :
  fold_left (fun o row => Some (merge_visit (row_data row) o)) rows o
  = match rows with
    | [] => o
    | _ :: _ =>
        Some (mkVisit
                (fold_left (fun d row => dict_update d (row_data row)) rows
                   (data (default (mkVisit [] []) o)))
                (notes (default (mkVisit [] []) o)))
    end.
Proof.
  destruct rows as [|row rows]; [reflexivity|]. simpl. rewrite merges_fold. reflexivity.
Qed.

Lemma appends_fold_any rows o :
  fold_left (fun o row => Some (append_note (note_of row) o)) rows o
  = match rows with
    | [] => o
    | _ :: _ =>
        Some (mkVisit (data (default (mkVisit [] []) o))
                (notes (default (mkVisit [] []) o) ++ map note_of rows))
    end.
Proof.
  destruct rows as [|row rows]; [reflexivity|]. simpl. rewrite append_notes_fold.
  simpl. rewrite <- app_assoc. reflexivity.
Qed.

Lemma load_data_find file_path fs self p v :
  find_visit p v (load_data file_path fs self)
  = match List.filter (fun row => bool_decide (data_key row = Some (p, v)))
            (DictReader (default [] (fs !! file_path))) with
    | [] => find_visit p v self
    | rows =>
        Some (mkVisit
                (fold_left (fun d row => dict_update d (row_data row)) rows
                   (data (default (mkVisit [] []) (find_visit p v self))))
                (notes (default (mkVisit [] []) (find_visit p v self))))
    end.
Proof.
  unfold load_data. destruct (fs !! file_path) as [f|]; simpl; [|reflexivity].
  rewrite find_visit_load_data_rows, merges_fold_any.
  destruct (List.filter _ (DictReader f)); reflexivity.
Qed.

(** After [load_data] a visit is what the records of the file with its
    patient id and visit id make of it, their fields merged one after the
    other into the visit that was there, or into a new one; records without
    one of the two ids, and a path with no file, change nothing; the notes
    of the visit are not touched. *)
Theorem load_data_merges_records file_path fs self p v :
  find_visit p v (load_data file_path fs self)
  = match List.filter (fun row => bool_decide (data_key row = Some (p, v)))
            (DictReader (default [] (fs !! file_path))) with
    | [] => find_visit p v self
    | rows =>
        Some (mkVisit
                (fold_left (fun d row => dict_update d (row_data row)) rows
                   (data (default (mkVisit [] []) (find_visit p v self))))
                (notes (default (mkVisit [] []) (find_visit p v self))))
    end.
Proof. exact (load_data_find file_path fs self p v). Qed.

(** When a visit occurs in several records of the visit data file, each
    field has the value of the last record that has it: the fields of the
    last record are all there with their values. *)
Theorem load_data_last_record_wins file_path fs f self p v pre row post :
  fs !! file_path = Some f ->
  DictReader f = pre ++ row :: post ->
  data_key row = Some (p, v) ->
  Forall (fun r => data_key r <> Some (p, v)) post ->
  exists vr,
    find_visit p v (load_data file_path fs self) = Some vr
    /\ forall k x, dict_get k (row_data row) = Some x -> dict_get k (data vr) = Some x.
Proof.
  intros Hf Hrows Hkey Hpost. unfold load_data. rewrite Hf.
  rewrite find_visit_load_data_rows, Hrows.
  rewrite List.filter_app. simpl. rewrite bool_decide_eq_true_2 by exact Hkey.
  assert (Hnil : List.filter (fun r => bool_decide (data_key r = Some (p, v))) post = []).
  { clear Hrows. induction Hpost as [|r post Hr _ IH]; [reflexivity|].
    simpl. rewrite bool_decide_eq_false_2 by exact Hr. exact IH. }
  rewrite Hnil, fold_left_app. simpl. eexists. split; [reflexivity|].
  intros k x Hg. simpl. rewrite dict_get_update, Hg; [reflexivity|].
  apply dict_filter_wf. apply (DictReader_wf f). rewrite Hrows.
  apply in_or_app. right. left. reflexivity.
Qed.

Lemma load_data_last_record_wins_witness :
  exists vr,
    find_visit "P1" "V1"
      (load_data "Patient_data.csv"
         {[ "Patient_data.csv" :=
              [["Patient_ID"; "Visit_ID"; "Age"; "Race"];
               ["P1"; "V1"; "30"; "A"]; ["P2"; "V1"; "50"; "B"];
               ["P1"; "V1"; "31"]; [""; "V1"; "99"; "C"]] ]}
         (mkDatabase []))
    = Some vr
    /\ dict_get (Some "Age") (data vr) = Some (VStr "31")
    /\ dict_get (Some "Race") (data vr) = Some VNone.
Proof.
  destruct (load_data_last_record_wins "Patient_data.csv"
              {[ "Patient_data.csv" :=
                   [["Patient_ID"; "Visit_ID"; "Age"; "Race"];
                    ["P1"; "V1"; "30"; "A"]; ["P2"; "V1"; "50"; "B"];
                    ["P1"; "V1"; "31"]; [""; "V1"; "99"; "C"]] ]}
              [["Patient_ID"; "Visit_ID"; "Age"; "Race"];
               ["P1"; "V1"; "30"; "A"]; ["P2"; "V1"; "50"; "B"];
               ["P1"; "V1"; "31"]; [""; "V1"; "99"; "C"]]
              (mkDatabase []) "P1" "V1"
              [read_row ["Patient_ID"; "Visit_ID"; "Age"; "Race"] ["P1"; "V1"; "30"; "A"];
               read_row ["Patient_ID"; "Visit_ID"; "Age"; "Race"] ["P2"; "V1"; "50"; "B"]]
              (read_row ["Patient_ID"; "Visit_ID"; "Age"; "Race"] ["P1"; "V1"; "31"])
              [read_row ["Patient_ID"; "Visit_ID"; "Age"; "Race"] [""; "V1"; "99"; "C"]])
    as (vr & Hf & Hk).
  - reflexivity.
  - reflexivity.
  - reflexivity.
  - repeat constructor. vm_compute. discriminate.
  - exists vr. split; [exact Hf|]. split; apply Hk; reflexivity.
Defined.

Lemma load_notes_data_find file_path fs self p v :
  find_visit p v (load_notes_data file_path fs self)
  = match List.filter (fun row => bool_decide (note_key row = Some (p, v)))
            (DictReader (default [] (fs !! file_path))) with
    | [] => find_visit p v self
    | rows =>
        Some (mkVisit (data (default (mkVisit [] []) (find_visit p v self)))
                (notes (default (mkVisit [] []) (find_visit p v self))
                 ++ map note_of rows))
    end.
Proof.
  unfold load_notes_data. destruct (fs !! file_path) as [f|]; simpl; [|reflexivity].
  rewrite find_visit_load_notes_rows, appends_fold_any.
  destruct (List.filter _ (DictReader f)); reflexivity.
Qed.

(** After [load_notes_data] a visit has the fields it had and, after the
    notes it had, one note for each record of the file with its patient id
    and visit id and a note id, in the order of the file; a visit that was
    not there is made without fields; other records, and a path with no
    file, change nothing. *)
Theorem load_notes_data_appends_records file_path fs self p v :
  find_visit p v (load_notes_data file_path fs self)
  = match List.filter (fun row => bool_decide (note_key row = Some (p, v)))
            (DictReader (default [] (fs !! file_path))) with
    | [] => find_visit p v self
    | rows =>
        Some (mkVisit (data (default (mkVisit [] []) (find_visit p v self)))
                (notes (default (mkVisit [] []) (find_visit p v self))
                 ++ map note_of rows))
    end.
Proof. exact (load_notes_data_find file_path fs self p v). Qed.

(** Loading the same notes file a second time appends its notes once
    more: every visit then has the notes of the file twice. *)
Theorem load_notes_data_twice_duplicates file_path fs self p v vr :
  find_visit p v (load_notes_data file_path fs self) = Some vr ->
  find_visit p v (load_notes_data file_path fs (load_notes_data file_path fs self))
  = Some (mkVisit (data vr)
            (notes vr
             ++ map note_of
                  (List.filter (fun row => bool_decide (note_key row = Some (p, v)))
                     (DictReader (default [] (fs !! file_path)))))).
Proof.
  intros H1. rewrite load_notes_data_find, H1. simpl.
  destruct (List.filter _ _); simpl; [|reflexivity].
  rewrite app_nil_r. destruct vr; reflexivity.
Qed.

Lemma load_notes_data_twice_duplicates_witness :
  find_visit "P1" "V1"
    (load_notes_data "Notes.csv" one_note_fs
       (load_notes_data "Notes.csv" one_note_fs (mkDatabase [])))
  = Some (mkVisit []
            [[(Some "Note_ID", VStr "n1"); (Some "Note_text", VStr "seen")];
             [(Some "Note_ID", VStr "n1"); (Some "Note_text", VStr "seen")]]).
Proof.
  rewrite (load_notes_data_twice_duplicates "Notes.csv" one_note_fs (mkDatabase [])
             "P1" "V1"
             (mkVisit [] [[(Some "Note_ID", VStr "n1"); (Some "Note_text", VStr "seen")]]))
    by reflexivity.
  reflexivity.
Defined.

(** The two loaders can be run in either order: every visit has the same
    fields and the same notes. *)
Theorem loaders_commute data_path notes_path fs self p v :
  find_visit p v (load_notes_data notes_path fs (load_data data_path fs self))
  = find_visit p v (load_data data_path fs (load_notes_data notes_path fs self)).
Proof.
  rewrite !load_notes_data_find, !load_data_find.
  rewrite !load_notes_data_find.
  destruct (List.filter _ (DictReader (default [] (fs !! notes_path)))) as [|n ns];
    destruct (List.filter _ (DictReader (default [] (fs !! data_path)))) as [|d ds];
    reflexivity.
Qed.

(** ** The outcomes of count_visits_in_day and of _load *)

Lemma times_are_str_Forall vrs : times_are_str vrs = true <-> Forall time_is_str vrs.
Proof.
  unfold times_are_str. rewrite forallb_forall, Forall_forall.
  split; intros H vr Hin.
  - apply list_elem_of_In, H in Hin. unfold time_is_str.
    destruct (dict_get (Some "Visit_time") (data vr)) as [[| | |]|];
      (exact I || discriminate).
  - apply list_elem_of_In, H in Hin. unfold time_is_str in Hin.
    destruct (dict_get (Some "Visit_time") (data vr)) as [[| | |]|];
      (reflexivity || contradiction).
Qed.

Lemma count_visit_raises target total vr :
  ~ time_is_str vr -> count_visit target total vr = Raised AttributeError.
Proof.
  unfold time_is_str, count_visit, visit_time.
  destruct (dict_get (Some "Visit_time") (data vr)) as [[| | |]|];
    (reflexivity || (intros H; exfalso; apply H; exact I)).
Qed.

Lemma count_inner_raises target vrs total :
  times_are_str vrs = false ->
  for_each (count_visit target) vrs total = Raised AttributeError.
Proof.
  revert total. induction vrs as [|vr vrs IH]; intros total; simpl; [discriminate|].
  destruct (dict_get (Some "Visit_time") (data vr)) as [[|s|z|l]|] eqn:Hg; simpl;
    intros Hf;
    try (rewrite count_visit_raises;
         [reflexivity | unfold time_is_str; rewrite Hg; tauto]).
  - rewrite count_visit_str by (unfold time_is_str; rewrite Hg; exact I).
    simpl. apply IH, Hf.
  - rewrite count_visit_str by (unfold time_is_str; rewrite Hg; exact I).
    simpl. apply IH, Hf.
Qed.

Lemma count_outer_raises target prs total :
  times_are_str (flat_map (fun pr => dict_values (visits pr)) prs) = false ->
  for_each
    (fun total pr => for_each (count_visit target) (dict_values (visits pr)) total)
    prs total
  = Raised AttributeError.
Proof.
  unfold times_are_str. revert total.
  induction prs as [|pr prs IH]; intros total; simpl; [discriminate|].
  rewrite forallb_app. intros Hf.
  destruct (forallb _ (dict_values (visits pr))) eqn:Hpr; simpl in Hf.
  - rewrite (for_each_returns _ (count_step target)).
    + simpl. apply IH, Hf.
    + intros vr s0 Hin. apply count_visit_str.
      apply times_are_str_Forall in Hpr. rewrite Forall_forall in Hpr.
      apply Hpr, list_elem_of_In, Hin.
  - rewrite count_inner_raises by exact Hpr. reflexivity.
Qed.

Lemma count_outcomes day_str self :
  count_visits_in_day day_str self =
    match parse_count (py_strip day_str) with
    | None => Returned None
    | Some target =>
        if times_are_str (all_visits self)
        then Returned (Some (visits_on target self))
        else Raised AttributeError
    end.
Proof.
  destruct (parse_count (py_strip day_str)) as [target|] eqn:Hp.
  - destruct (times_are_str (all_visits self)) eqn:Hs.
    + apply count_visits_in_day_counts; [|exact Hp].
      apply times_are_str_Forall, Hs.
    + unfold count_visits_in_day. rewrite Hp.
      unfold all_visits in Hs. rewrite count_outer_raises by exact Hs. reflexivity.
  - apply count_visits_in_day_None_iff, Hp.
Qed.

(** [count_visits_in_day] has three outcomes: [None] when the day does not
    parse, whatever the store holds; the number of visits that carry the
    day when every [Visit_time] of the store is a string; [AttributeError]
    when the day parses and some visit has a [Visit_time] that is not a
    string. *)
Theorem count_visits_in_day_outcomes day_str self :
  count_visits_in_day day_str self =
    match parse_count (py_strip day_str) with
    | None => Returned None
    | Some target =>
        if times_are_str (all_visits self)
        then Returned (Some (visits_on target self))
        else Raised AttributeError
    end.
Proof. exact (count_outcomes day_str self). Qed.

Lemma records_have_required_Forall rows :
  records_have_required rows = true <-> Forall has_required rows.
Proof.
  unfold records_have_required. rewrite forallb_forall, Forall_forall.
  split; intros H row Hin.
  - apply list_elem_of_In, H in Hin. unfold has_required.
    destruct (trimmed "username" row), (trimmed "password" row), (trimmed "role" row);
      try discriminate.
    repeat split; eexists; reflexivity.
  - apply list_elem_of_In, H in Hin. destruct Hin as ([u ->] & [p ->] & [r ->]).
    reflexivity.
Qed.

Lemma load_credential_raises credentials row :
  ~ has_required row -> load_credential credentials row = Raised AttributeError.
Proof.
  unfold has_required, load_credential, stripped_field, trimmed.
  destruct (dict_get (Some "username") row) as [[|u|z|l]|]; simpl;
    try reflexivity; try (intros _; reflexivity).
  destruct (dict_get (Some "password") row) as [[|p|z|l]|]; simpl;
    try reflexivity; try (intros _; reflexivity).
  destruct (dict_get (Some "role") row) as [[|r|z|l]|]; simpl;
    try reflexivity; try (intros _; reflexivity).
  intros H. exfalso. apply H. repeat split; eexists; reflexivity.
Qed.

Lemma load_credentials_raise rows credentials :
  records_have_required rows = false ->
  for_each load_credential rows credentials = Raised AttributeError.
Proof.
  revert credentials. induction rows as [|row rows IH]; intros credentials Hf;
    [discriminate|].
  simpl. destruct (load_credential credentials row) as [c'|e] eqn:Hrow.
  - simpl. apply IH. apply load_credential_kept in Hrow as [Hreq _].
    simpl in Hf. destruct Hreq as ([u Hu] & [p Hp] & [r Hr]).
    rewrite Hu, Hp, Hr in Hf. exact Hf.
  - simpl. f_equal. revert Hrow. unfold load_credential, stripped_field.
    destruct (dict_get (Some "username") row) as [[|u|z|l]|]; simpl;
      try (intros [= <-]; reflexivity).
    destruct (dict_get (Some "password") row) as [[|p|z|l]|]; simpl;
      try (intros [= <-]; reflexivity).
    destruct (dict_get (Some "role") row) as [[|r|z|l]|]; simpl;
      try (intros [= <-]; reflexivity).
    destruct (nonempty _ && _ && _); discriminate.
Qed.


(** ** The usage log *)

Lemma record_event_log usage_file e fs :
  record_event usage_file (ev_timestamp e) (ev_username e) (ev_role e)
    (ev_event e) (ev_action e) fs
  = (Returned tt,
     <[usage_file := default [USAGE_FIELDS] (fs !! usage_file) ++ [event_cells e]]> fs).
Proof.
  unfold record_event.
  assert (Hd : forall u r t ev a,
    dict_to_list USAGE_FIELDS
      [(Some "username", VStr u); (Some "role", VStr r); (Some "timestamp", VStr t);
       (Some "event", VStr ev); (Some "action", VStr a)]
    = Returned [u; r; t; ev; a]) by reflexivity.
  rewrite Hd. unfold event_cells. f_equal.
  destruct (fs !! usage_file) as [rows|] eqn:Hf.
  - rewrite Hf. reflexivity.
  - rewrite lookup_insert_eq. simpl. apply insert_insert_eq.
Qed.

(** The usage log only grows: [record_event] never raises; a run of calls
    leaves, under the path of the log, the rows that were there (the header
    alone when there was no file) followed by one row per call, in the
    order of the calls, and leaves every other file as it was. *)
Theorem record_events_append usage_file events fs :
  (forall e,
     (record_event usage_file (ev_timestamp e) (ev_username e) (ev_role e)
        (ev_event e) (ev_action e) fs).1 = Returned tt)
  /\ record_events usage_file events fs !! usage_file
     = match events with
       | [] => fs !! usage_file
       | _ :: _ =>
           Some (default [USAGE_FIELDS] (fs !! usage_file) ++ map event_cells events)
       end
  /\ (forall q, q <> usage_file ->
        record_events usage_file events fs !! q = fs !! q).
Proof.
  split; [intros e; rewrite record_event_log; reflexivity|].
  assert (Hstep : forall evs fs0 rows,
    fs0 !! usage_file = Some rows ->
    record_events usage_file evs fs0 !! usage_file = Some (rows ++ map event_cells evs)
    /\ forall q, q <> usage_file -> record_events usage_file evs fs0 !! q = fs0 !! q).
  { induction evs as [|e evs IH]; intros fs0 rows Hrows.
    - simpl. rewrite app_nil_r. split; [exact Hrows | reflexivity].
    - unfold record_events. cbn [fold_left]. rewrite record_event_log. cbn [snd].
      rewrite Hrows. cbn [from_option id].
      destruct (IH (<[usage_file := rows ++ [event_cells e]]> fs0)
                  (rows ++ [event_cells e])) as [Hlog Hother];
        [apply lookup_insert_eq|].
      unfold record_events in Hlog, Hother. split.
      + rewrite Hlog, <- app_assoc. reflexivity.
      + intros q Hq. rewrite Hother by exact Hq. apply lookup_insert_ne. congruence. }
  destruct events as [|e evs]; [split; reflexivity|].
  unfold record_events. cbn [fold_left]. rewrite record_event_log. cbn [snd].
  destruct (Hstep evs
              (<[usage_file := default [USAGE_FIELDS] (fs !! usage_file)
                               ++ [event_cells e]]> fs)
              (default [USAGE_FIELDS] (fs !! usage_file) ++ [event_cells e]))
    as [Hlog Hother]; [apply lookup_insert_eq|].
  unfold record_events in Hlog, Hother. split.
  - rewrite Hlog, <- app_assoc. reflexivity.
  - intros q Hq. rewrite Hother by exact Hq. apply lookup_insert_ne. congruence.
Qed.

(** ** The shape of the store after an insertion *)

Section DictShape.
Context {K V : Type} `{EqDecision K}.
Implicit Types (k : K) (v : V) (d : list (K * V)).

Lemma dict_set_snoc k v w d :
  dict_get k d = None -> dict_set k v (d ++ [(k, w)]) = d ++ [(k, v)].
Proof.
  induction d as [|[k0 v0] d IH]; simpl.
  - intros _. rewrite decide_True by reflexivity. reflexivity.
  - destruct (decide (k = k0)) as [->|Hne]; [discriminate|].
    intros Hg. rewrite IH by exact Hg. reflexivity.
Qed.



End DictShape.

Lemma add_visit_new visit_id d n r :
  dict_get visit_id (visits r) = None ->
  add_visit visit_id d n r
  = mkPatient (patient_id r)
      (visits r ++ [(visit_id, mkVisit (dict_update [] d) (appended_notes [(d, n)]))]).
Proof.
  intros Hg. unfold add_visit, dict_mem. rewrite Hg.
  rewrite dict_get_set_eq. rewrite (dict_keys_set_absent _ _ _ Hg).
  rewrite (dict_set_snoc _ _ _ _ Hg). unfold appended_notes. simpl.
  destruct n as [[|kv n]|]; reflexivity.
Qed.



Lemma load_data_row_patients self row pid vid :
  data_key row = Some (pid, vid) ->
  patients (load_data_row self row) =
    match dict_get pid (patients self) with
    | Some rec => dict_set pid (add_visit vid (row_data row) None rec) (patients self)
    | None =>
        patients self
        ++ [(pid, add_visit vid (row_data row) None (mkPatient pid []))]
    end.
Proof.
  intros Hk. apply data_key_Some in Hk as [Hp Hv].
  unfold load_data_row. rewrite Hp, Hv. fold (row_data row).
  unfold dict_setdefault.
  destruct (dict_get pid (patients self)) as [rec|] eqn:Hg; simpl; [reflexivity|].
  rewrite (dict_keys_set_absent _ _ _ Hg). apply dict_set_snoc, Hg.
Qed.


(** ** Properties of every visit kept by the loaders *)










(** ** Saving after loading a file with a column the column list lacks *)













(** ** The date dialog: what it returns parses back *)

Lemma digit_cases k :
  0 <= k <= 9 ->
  k = 0 \/ k = 1 \/ k = 2 \/ k = 3 \/ k = 4 \/ k = 5 \/ k = 6 \/ k = 7 \/ k = 8 \/ k = 9.
Proof. lia. Qed.

Ltac each_digit H :=
  apply digit_cases in H;
  repeat (destruct H as [H|H]); subst.

Lemma digit_char_isdigit k : 0 <= k <= 9 -> Str.isdigit (digit_char k) = true.
Proof. intros H. each_digit H; reflexivity. Qed.

Lemma digit_char_val k : 0 <= k <= 9 -> Str.digit_val (digit_char k) = Some k.
Proof. intros H. each_digit H; reflexivity. Qed.

Lemma digit_char_isspace k : 0 <= k <= 9 -> Str.isspace (digit_char k) = false.
Proof. intros H. each_digit H; reflexivity. Qed.

Lemma digit_char_isspace_int k : 0 <= k <= 9 -> Str.isspace_int (digit_char k) = false.
Proof. intros H. each_digit H; reflexivity. Qed.

Lemma digit_char_nonzero k : 1 <= k <= 9 -> Ascii.eqb (digit_char k) "0" = false.
Proof.
  intros H. assert (H' : 0 <= k <= 9) by lia. each_digit H'; (reflexivity || lia).
Qed.

Lemma re_Y_four x1 x2 x3 x4 rest :
  Str.isdigit x1 = true -> Str.isdigit x2 = true ->
  Str.isdigit x3 = true -> Str.isdigit x4 = true ->
  Re.re_Y (x1 :: x2 :: x3 :: x4 :: rest) = [([x1; x2; x3; x4], rest)].
Proof.
  intros H1 H2 H3 H4. unfold Re.re_Y, Re.seq, Re.digit, Re.cls. simpl.
  rewrite H1. simpl. rewrite H2. simpl. rewrite H3. simpl. rewrite H4. reflexivity.
Qed.

Lemma digits4_range y :
  0 <= y <= 9999 ->
  0 <= y / 1000 <= 9 /\ 0 <= y / 100 mod 10 <= 9
  /\ 0 <= y / 10 mod 10 <= 9 /\ 0 <= y mod 10 <= 9.
Proof.
  intros H.
  pose proof (Z.mod_pos_bound (y / 100) 10 ltac:(lia)).
  pose proof (Z.mod_pos_bound (y / 10) 10 ltac:(lia)).
  pose proof (Z.mod_pos_bound y 10 ltac:(lia)).
  assert (0 <= y / 1000) by (apply Z.div_pos; lia).
  assert (y / 1000 < 10) by (apply Z.div_lt_upper_bound; lia).
  lia.
Qed.

Lemma re_Y_digits4 y rest :
  0 <= y <= 9999 -> Re.re_Y (digits4 y ++ rest) = [(digits4 y, rest)].
Proof.
  intros H. destruct (digits4_range y H) as (H1 & H2 & H3 & H4).
  unfold digits4. simpl. apply re_Y_four; apply digit_char_isdigit; assumption.
Qed.

Lemma strip_digits x l y :
  Str.isspace x = false -> Str.isspace y = false ->
  Str.strip (x :: l ++ [y]) = x :: l ++ [y].
Proof.
  intros Hx Hy. unfold Str.strip. cbn [Str.lstrip]. rewrite Hx. unfold Str.rstrip.
  replace (rev (x :: l ++ [y])) with (y :: rev (x :: l))
    by (simpl; rewrite rev_app_distr; reflexivity).
  cbn [Str.lstrip]. rewrite Hy.
  change (rev (y :: rev (x :: l))) with (rev (rev (x :: l)) ++ [y]).
  rewrite rev_involutive. reflexivity.
Qed.

Lemma strip_int_digits x l y :
  Str.isspace_int x = false -> Str.isspace_int y = false ->
  Str.strip_int (x :: l ++ [y]) = x :: l ++ [y].
Proof.
  intros Hx Hy. unfold Str.strip_int. cbn [Str.lstrip_int]. rewrite Hx.
  replace (rev (x :: l ++ [y])) with (y :: rev (x :: l))
    by (simpl; rewrite rev_app_distr; reflexivity).
  cbn [Str.lstrip_int]. rewrite Hy.
  change (rev (y :: rev (x :: l))) with (rev (rev (x :: l)) ++ [y]).
  rewrite rev_involutive. reflexivity.
Qed.

Lemma int_digits_four a b c e :
  0 <= a <= 9 -> 0 <= b <= 9 -> 0 <= c <= 9 -> 0 <= e <= 9 ->
  Str.int [digit_char a; digit_char b; digit_char c; digit_char e]
  = Some (1000 * a + 100 * b + 10 * c + e).
Proof.
  intros Ha Hb Hc He. unfold Str.int.
  assert (Hs : Str.strip_int [digit_char a; digit_char b; digit_char c; digit_char e]
               = [digit_char a; digit_char b; digit_char c; digit_char e])
    by (apply (strip_int_digits (digit_char a) [digit_char b; digit_char c]
                 (digit_char e));
        apply digit_char_isspace_int; assumption).
  rewrite Hs. clear Hs.
  assert (Hd : Str.int_digits 0 false
                 [digit_char a; digit_char b; digit_char c; digit_char e]
               = Some (1000 * a + 100 * b + 10 * c + e)).
  { cbn [Str.int_digits]. rewrite (digit_char_val a) by assumption.
    cbn [Str.int_digits]. rewrite (digit_char_val b) by assumption.
    cbn [Str.int_digits]. rewrite (digit_char_val c) by assumption.
    cbn [Str.int_digits]. rewrite (digit_char_val e) by assumption.
    f_equal. lia. }
  each_digit Ha; exact Hd.
Qed.

Lemma int_digits4 y : 0 <= y <= 9999 -> Str.int (digits4 y) = Some y.
Proof.
  intros H. destruct (digits4_range y H) as (H1 & H2 & H3 & H4).
  unfold digits4. rewrite int_digits_four by assumption. f_equal.
  pose proof (Z.div_mod y 10 ltac:(lia)) as E1.
  pose proof (Z.div_mod (y / 10) 10 ltac:(lia)) as E2.
  pose proof (Z.div_mod (y / 100) 10 ltac:(lia)) as E3.
  replace (y / 10 / 10) with (y / 100) in E2 by (rewrite Z.div_div by lia; reflexivity).
  replace (y / 100 / 10) with (y / 1000) in E3 by (rewrite Z.div_div by lia; reflexivity).
  assert (E4 : y / 1000 mod 10 = y / 1000) by (apply Z.mod_small; lia).
  lia.
Qed.

Lemma month_cases m :
  1 <= m <= 12 ->
  m = 1 \/ m = 2 \/ m = 3 \/ m = 4 \/ m = 5 \/ m = 6 \/ m = 7 \/ m = 8 \/ m = 9
  \/ m = 10 \/ m = 11 \/ m = 12.
Proof. lia. Qed.

Lemma day_cases d :
  1 <= d <= 31 ->
  d = 1 \/ d = 2 \/ d = 3 \/ d = 4 \/ d = 5 \/ d = 6 \/ d = 7 \/ d = 8 \/ d = 9
  \/ d = 10 \/ d = 11 \/ d = 12 \/ d = 13 \/ d = 14 \/ d = 15 \/ d = 16 \/ d = 17
  \/ d = 18 \/ d = 19 \/ d = 20 \/ d = 21 \/ d = 22 \/ d = 23 \/ d = 24 \/ d = 25
  \/ d = 26 \/ d = 27 \/ d = 28 \/ d = 29 \/ d = 30 \/ d = 31.
Proof. lia. Qed.

Ltac eval_pad2 :=
  repeat match goal with
         | |- context [pad2 ?n] =>
             let v := eval vm_compute in (pad2 n) in change (pad2 n) with v
         end.

Ltac eval_matchers :=
  repeat match goal with
         | |- context [Re.re_m ?s] =>
             let v := eval vm_compute in (Re.re_m s) in change (Re.re_m s) with v
         | |- context [Re.re_d ?s] =>
             let v := eval vm_compute in (Re.re_d s) in change (Re.re_d s) with v
         | |- context [Re.lit ?c ?s] =>
             let v := eval vm_compute in (Re.lit c s) in change (Re.lit c s) with v
         end.

(** The month group on a month of two digits followed by a slash: one way
    to go on, with the two digits. *)
Lemma re_m_pad2 {X : Type} m rest (F : Str.chars -> Str.chars -> list X) :
  1 <= m <= 12 ->
  flat_map (fun mm => flat_map (fun s1 => F mm.1 s1.2) (Re.lit "/" mm.2))
    (Re.re_m (pad2 m ++ "/"%char :: rest))
  = F (pad2 m) rest.
Proof.
  intros H. apply month_cases in H.
  repeat (destruct H as [H|H]); subst; eval_pad2; cbn [app]; eval_matchers;
    cbn [flat_map fst snd]; eval_matchers; cbn [flat_map fst snd app];
    rewrite ?app_nil_r; reflexivity.
Qed.

Lemma re_d_pad2 {X : Type} d rest (F : Str.chars -> Str.chars -> list X) :
  1 <= d <= 31 ->
  flat_map (fun dd => flat_map (fun s2 => F dd.1 s2.2) (Re.lit "/" dd.2))
    (Re.re_d (pad2 d ++ "/"%char :: rest))
  = F (pad2 d) rest.
Proof.
  intros H. apply day_cases in H.
  repeat (destruct H as [H|H]); subst; eval_pad2; cbn [app]; eval_matchers;
    cbn [flat_map fst snd]; eval_matchers; cbn [flat_map fst snd app];
    rewrite ?app_nil_r; reflexivity.
Qed.

Lemma int_pad2 n : 1 <= n <= 31 -> Str.int (pad2 n) = Some n.
Proof.
  intros H. apply day_cases in H.
  repeat (destruct H as [H|H]); subst; reflexivity.
Qed.

Lemma year_text_digits4 pad_year y :
  1 <= y <= 9999 -> pad_year = true \/ 1000 <= y -> year_text pad_year y = digits4 y.
Proof.
  intros Hy [->|Hbig]; [reflexivity|]. unfold year_text.
  destruct pad_year; [reflexivity|]. unfold digits4. simpl.
  rewrite digit_char_nonzero; [reflexivity|].
  assert (1 <= y / 1000) by (apply Z.div_le_lower_bound; lia).
  assert (y / 1000 < 10) by (apply Z.div_lt_upper_bound; lia).
  lia.
Qed.

Lemma py_date_range y m d dt :
  py_date y m d = Some dt ->
  dt = mkDate y m d /\ 1 <= y <= 9999 /\ 1 <= m <= 12 /\ 1 <= d <= 31.
Proof.
  unfold py_date.
  destruct (1 <=? y) eqn:H1; simpl; [|discriminate].
  destruct (y <=? 9999) eqn:H2; simpl; [|discriminate].
  destruct (1 <=? m) eqn:H3; simpl; [|discriminate].
  destruct (m <=? 12) eqn:H4; simpl; [|discriminate].
  destruct (1 <=? d) eqn:H5; simpl; [|discriminate].
  destruct (d <=? days_in_month y m) eqn:H6; simpl; [|discriminate].
  intros [= <-]. split; [reflexivity|].
  assert (days_in_month y m <= 31).
  { unfold days_in_month. destruct (m =? 2); [destruct (is_leap y); lia|].
    destruct ((m =? 4) || (m =? 6) || (m =? 9) || (m =? 11)); lia. }
  lia.
Qed.

Lemma strftime_round_trip pad_year y m d dt :
  py_date y m d = Some dt ->
  pad_year = true \/ 1000 <= y ->
  strptime_mdY (strftime_mdY pad_year dt) = Some dt.
Proof.
  intros Hdate Hpad.
  destruct (py_date_range _ _ _ _ Hdate) as (-> & Hy & Hm & Hd).
  unfold strftime_mdY. simpl year. simpl month. simpl day.
  rewrite (year_text_digits4 pad_year y Hy Hpad).
  assert (Hre : Re.re_mdY (pad2 m ++ "/"%char :: pad2 d ++ "/"%char :: digits4 y)
                = [(pad2 m, pad2 d, digits4 y, [])]).
  { unfold Re.re_mdY.
    etransitivity;
      [exact (re_m_pad2 m _
                (fun a r =>
                   flat_map (fun dd =>
                     flat_map (fun s2 =>
                       map (fun yy => (a, dd.1, yy.1, yy.2)) (Re.re_Y s2.2))
                       (Re.lit "/" dd.2))
                     (Re.re_d r)) Hm)|].
    cbn beta.
    etransitivity;
      [exact (re_d_pad2 d _
                (fun a r => map (fun yy => (pad2 m, a, yy.1, yy.2)) (Re.re_Y r)) Hd)|].
    cbn beta.
    rewrite <- (app_nil_r (digits4 y)) at 1.
    rewrite re_Y_digits4 by lia. reflexivity. }
  unfold strptime_mdY. rewrite Hre.
  rewrite int_digits4 by lia. rewrite !int_pad2 by lia. exact Hdate.
Qed.

(** To format a date with ["%m/%d/%Y"] and to parse the text with the same
    format gives the date back, when the year is printed on four digits:
    on a C library that pads the year, or from the year 1000 on. *)
Theorem strftime_strptime_round_trip pad_year y m d dt :
  py_date y m d = Some dt ->
  pad_year = true \/ 1000 <= y ->
  strptime_mdY (strftime_mdY pad_year dt) = Some dt.
Proof. exact (strftime_round_trip pad_year y m d dt). Qed.

Lemma strftime_strptime_round_trip_witness :
  strptime_mdY (strftime_mdY false (mkDate 2024 2 29)) = Some (mkDate 2024 2 29).
Proof.
  apply (strftime_strptime_round_trip false 2024 2 29); [reflexivity | right; lia].
Defined.

Lemma strptime_Ymd_valid sep s dt :
  strptime_Ymd sep s = Some dt -> py_date (year dt) (month dt) (day dt) = Some dt.
Proof.
  unfold strptime_Ymd.
  destruct (re_Ymd sep s) as [|[[[y m] d] rest] l]; [discriminate|].
  destruct rest; [|discriminate].
  destruct (Str.int y) as [y'|]; [|discriminate].
  destruct (Str.int m) as [m'|]; [|discriminate].
  destruct (Str.int d) as [d'|]; [|discriminate].
  simpl. intros H. destruct (py_date_range _ _ _ _ H) as (-> & _). exact H.
Qed.

Lemma prompt_date_parse_valid raw dt :
  prompt_date_parse raw = Some dt -> py_date (year dt) (month dt) (day dt) = Some dt.
Proof.
  unfold prompt_date_parse.
  destruct (strptime_Ymd "-" _) as [dt'|] eqn:H1.
  - intros [= <-]. eapply strptime_Ymd_valid, H1.
  - apply strptime_Ymd_valid.
Qed.

Lemma strftime_strip pad_year dt :
  py_date (year dt) (month dt) (day dt) = Some dt ->
  pad_year = true \/ 1000 <= year dt ->
  Str.strip (strftime_mdY pad_year dt) = strftime_mdY pad_year dt.
Proof.
  intros Hdate Hpad.
  destruct (py_date_range _ _ _ _ Hdate) as (_ & Hy & Hm & Hd).
  unfold strftime_mdY. rewrite (year_text_digits4 pad_year _ Hy Hpad).
  destruct (digits4_range (year dt) ltac:(lia)) as (_ & _ & _ & H4).
  unfold pad2, digits4.
  apply (strip_digits (digit_char (month dt / 10))
           (digit_char (month dt mod 10) :: "/"%char
            :: digit_char (day dt / 10) :: digit_char (day dt mod 10) :: "/"%char
            :: [digit_char (year dt / 1000); digit_char (year dt / 100 mod 10);
                digit_char (year dt / 10 mod 10)])
           (digit_char (year dt mod 10))).
  - apply digit_char_isspace.
    assert (0 <= month dt / 10) by (apply Z.div_pos; lia).
    assert (month dt / 10 < 10) by (apply Z.div_lt_upper_bound; lia). lia.
  - apply digit_char_isspace. exact H4.
Qed.

(** What [prompt_date] returns for an answer it accepts is a day that
    [count_visits_in_day] accepts, the day read in the answer, when the
    year is printed on four digits (on a C library that pads the year, or
    from the year 1000 on): the count is then never the [None] that makes
    [count_visits] report a bad date, and on a store whose [Visit_time]s
    are strings it is the number of visits of that day. *)
Theorem prompt_date_answer_is_counted pad_year raw ds :
  prompt_date_answer pad_year raw = Some ds ->
  exists dt,
    prompt_date_parse raw = Some dt
    /\ (pad_year = true \/ 1000 <= year dt ->
        parse_count (py_strip ds) = Some dt
        /\ forall self,
             count_visits_in_day ds self <> Returned None
             /\ (times_are_str (all_visits self) = true ->
                 count_visits_in_day ds self = Returned (Some (visits_on dt self)))).
Proof.
  unfold prompt_date_answer.
  destruct (prompt_date_parse raw) as [dt|] eqn:Hparse; [|discriminate].
  intros Hds.
  assert (Hds' : ds = string_of_list_ascii (strftime_mdY pad_year dt))
    by (injection Hds as <-; reflexivity).
  clear Hds. subst ds.
  exists dt. split; [reflexivity|]. intros Hpad.
  pose proof (prompt_date_parse_valid _ _ Hparse) as Hdate.
  assert (Hp : parse_count (py_strip (string_of_list_ascii (strftime_mdY pad_year dt)))
               = Some dt).
  { unfold parse_count, py_strip.
    rewrite !list_ascii_of_string_of_list_ascii.
    rewrite (strftime_strip _ _ Hdate Hpad).
    destruct (py_date_range _ _ _ _ Hdate) as (_ & Hy & _).
    apply (strftime_round_trip pad_year _ _ _ dt Hdate).
    destruct Hpad; [left|right]; assumption. }
  split; [exact Hp|]. intros self.
  rewrite count_outcomes, Hp. split.
  - destruct (times_are_str (all_visits self)); discriminate.
  - intros ->. reflexivity.
Qed.

Lemma prompt_date_answer_is_counted_witness :
  parse_count (py_strip "03/05/2024") = Some (mkDate 2024 3 5).
Proof.
  destruct (prompt_date_answer_is_counted false " 2024-3-5 " "03/05/2024" eq_refl)
    as (dt & Hdt & H).
  assert (dt = mkDate 2024 3 5) as -> by (vm_compute in Hdt; congruence).
  apply H. right. simpl. lia.
Defined.

(** On a C library that does not pad the year, a year below 1000 comes out
    of the dialog on three digits, and the count refuses it. *)
Example prompt_date_unpadded_year :
  prompt_date_answer false "0999-01-01" = Some "01/01/999"
  /\ forall self, count_visits_in_day "01/01/999" self = Returned None.
Proof.
  split; [reflexivity|]. intros self.
  apply count_visits_in_day_None_iff. reflexivity.
Qed.

(** ** The yearly trend *)

Lemma parse_count_empty : parse_count (py_strip "") = None.
Proof. reflexivity. Qed.

Lemma trend_row_usable year_counts pid vid vr :
  NoDup (dict_keys (data vr)) ->
  trend_row year_counts (flat_row pid vid (data vr)) =
    if time_is_usable vr then Returned (trend_step year_counts vr)
    else Raised AttributeError.
Proof.
  intros Hwf. unfold trend_row, time_is_usable, trend_step, stored_date.
  rewrite (flat_row_get pid vid (data vr) (Some "Visit_time") Hwf).
  destruct (dict_get (Some "Visit_time") (data vr)) as [[|s|z|l]|] eqn:Hg.
  - reflexivity.
  - destruct (String.eqb s "") eqn:Hs; [|reflexivity].
    apply String.eqb_eq in Hs. subst s. rewrite parse_count_empty. reflexivity.
  - destruct (z =? 0); reflexivity.
  - destruct l; reflexivity.
  - reflexivity.
Qed.

Lemma for_each_trend_visits year_counts pid (vs : list (string * VisitRecord)) :
  fields_wf (dict_values vs) = true ->
  for_each trend_row (map (fun vv => flat_row pid vv.1 (data vv.2)) vs) year_counts =
    if forallb time_is_usable (dict_values vs)
    then Returned (fold_left trend_step (dict_values vs) year_counts)
    else Raised AttributeError.
Proof.
  revert year_counts. induction vs as [|[vid vr] vs IH]; intros yc Hwf; [reflexivity|].
  simpl in Hwf. apply andb_true_iff in Hwf as [Hvr Hwf].
  apply bool_decide_eq_true in Hvr.
  simpl. rewrite (trend_row_usable yc pid vid vr Hvr).
  destruct (time_is_usable vr); simpl; [apply IH, Hwf | reflexivity].
Qed.

Lemma for_each_trend_rows year_counts (prs : list PatientRecord) :
  fields_wf (flat_map (fun pr => dict_values (visits pr)) prs) = true ->
  for_each trend_row
    (flat_map (fun pr => map (fun vv => flat_row (patient_id pr) vv.1 (data vv.2))
                           (visits pr)) prs)
    year_counts =
    if forallb time_is_usable (flat_map (fun pr => dict_values (visits pr)) prs)
    then Returned (fold_left trend_step
                     (flat_map (fun pr => dict_values (visits pr)) prs) year_counts)
    else Raised AttributeError.
Proof.
  revert year_counts. induction prs as [|pr prs IH]; intros yc Hwf; [reflexivity|].
  unfold fields_wf in Hwf. simpl in Hwf. rewrite forallb_app in Hwf.
  apply andb_true_iff in Hwf as [Hpr Hwf].
  simpl. rewrite for_each_app, forallb_app, fold_left_app.
  rewrite (for_each_trend_visits yc (patient_id pr) (visits pr) Hpr).
  destruct (forallb time_is_usable (dict_values (visits pr))); simpl;
    [apply IH, Hwf | reflexivity].
Qed.

Lemma trend_step_wf year_counts vr : dict_wf year_counts -> dict_wf (trend_step year_counts vr).
Proof.
  intros Hwf. unfold trend_step. destruct (stored_date vr); [apply dict_set_wf|];
    exact Hwf.
Qed.

Lemma trend_fold_wf vrs year_counts :
  dict_wf year_counts -> dict_wf (fold_left trend_step vrs year_counts).
Proof.
  revert year_counts. induction vrs as [|vr vrs IH]; intros yc Hwf; [exact Hwf|].
  simpl. apply IH, trend_step_wf, Hwf.
Qed.

(** The count a year has after the loop: what it had, plus the number of
    visits of that year; a year without visits is not added. *)
Lemma trend_fold_get vrs year_counts y :
  dict_get y (fold_left trend_step vrs year_counts) =
    let n := Z.of_nat
               (length (List.filter
                          (fun vr => bool_decide (year <$> stored_date vr = Some y)) vrs)) in
    if n =? 0 then dict_get y year_counts
    else Some (default 0 (dict_get y year_counts) + n).
Proof.
  revert year_counts. induction vrs as [|vr vrs IH]; intros yc; [reflexivity|].
  cbn [fold_left List.filter]. rewrite IH. cbn zeta. unfold trend_step.
  destruct (stored_date vr) as [d|]; cbn [fmap option_fmap option_map].
  - rewrite dict_get_set. destruct (decide (y = year d)) as [->|Hne].
    + rewrite bool_decide_eq_true_2 by reflexivity. cbn [length].
      rewrite Nat2Z.inj_succ.
      set (N := Z.of_nat (length _)).
      assert (HN : 0 <= N) by apply Nat2Z.is_nonneg.
      replace (Z.succ N =? 0) with false by (symmetry; apply Z.eqb_neq; lia).
      destruct (N =? 0) eqn:Hz.
      * apply Z.eqb_eq in Hz. rewrite Hz. reflexivity.
      * cbn [from_option id]. f_equal. unfold id. lia.
    + rewrite bool_decide_eq_false_2 by congruence. reflexivity.
  - rewrite bool_decide_eq_false_2 by discriminate. reflexivity.
Qed.

Lemma sorted_le_nodup_lt (l : list Z) :
  StronglySorted Z.le l -> NoDup l -> StronglySorted Z.lt l.
Proof.
  induction 1 as [|x l Hs IH Hall]; intros Hnd; constructor.
  - apply IH. apply NoDup_cons in Hnd. tauto.
  - apply NoDup_cons in Hnd as [Hx _]. rewrite Forall_forall in *.
    intros z Hz. specialize (Hall z Hz).
    assert (x <> z) by (intros ->; contradiction). lia.
Qed.

Lemma zip_map_fst {A B : Type} (f : A -> B) (l : list A) :
  map fst (zip l (map f l)) = l.
Proof. induction l as [|a l IH]; simpl; [reflexivity | rewrite IH; reflexivity]. Qed.

Lemma zip_map_elem {A B : Type} (f : A -> B) (l : list A) a b :
  (a, b) ∈ zip l (map f l) <-> a ∈ l /\ b = f a.
Proof.
  induction l as [|x l IH]; simpl.
  - split; [intros H; inversion H | intros [H _]; inversion H].
  - rewrite !elem_of_cons, IH. split.
    + intros [[= -> ->]|[Hin ->]]; tauto.
    + intros [[->|Hin] ->]; [left; reflexivity | right; tauto].
Qed.

Lemma trend_counts_get self y :
  dict_get y (fold_left trend_step (all_visits self) [])
  = if visits_in_year y self =? 0 then None else Some (visits_in_year y self).
Proof.
  rewrite trend_fold_get. cbn zeta. fold (visits_in_year y self). simpl.
  destruct (visits_in_year y self =? 0); reflexivity.
Qed.

Lemma visits_in_year_pos self vr d :
  In vr (all_visits self) -> stored_date vr = Some d ->
  0 < visits_in_year (year d) self.
Proof.
  intros Hin Hd. unfold visits_in_year.
  assert (Hf : In vr (List.filter
                        (fun vr => bool_decide (year <$> stored_date vr = Some (year d)))
                        (all_visits self))).
  { apply filter_In. split; [exact Hin|]. apply bool_decide_eq_true_2.
    rewrite Hd. reflexivity. }
  destruct (List.filter _ (all_visits self)); [destruct Hf | simpl; lia].
Qed.

Lemma visits_in_year_zero self y :
  (forall vr, In vr (all_visits self) -> stored_date vr = None) ->
  visits_in_year y self = 0.
Proof.
  intros Hnone. unfold visits_in_year.
  induction (all_visits self) as [|vr vrs IH]; [reflexivity|].
  simpl. rewrite (Hnone vr) by (left; reflexivity).
  rewrite bool_decide_eq_false_2 by discriminate.
  apply IH. intros vr' Hin. apply Hnone. right. exact Hin.
Qed.

Lemma trend_table_spec self :
  fields_wf (all_visits self) = true ->
  (forallb time_is_usable (all_visits self) = false ->
   trend_table self = Raised AttributeError)
  /\ (forallb time_is_usable (all_visits self) = true ->
      exists r,
        trend_table self = Returned r
        /\ (r = None <-> forall vr, In vr (all_visits self) -> stored_date vr = None)
        /\ forall l, r = Some l ->
             StronglySorted Z.lt (map fst l)
             /\ forall y c, (y, c) ∈ l <-> c = visits_in_year y self /\ 0 < c).
Proof.
  intros Hwf. unfold trend_table, get_visit_data_rows.
  rewrite (for_each_trend_rows [] (dict_values (patients self)) Hwf).
  fold (all_visits self). split; [intros ->; reflexivity|]. intros ->.
  cbn [mbind outcome_bind].
  pose proof (trend_counts_get self) as Hget.
  assert (Hnd : NoDup (dict_keys (fold_left trend_step (all_visits self) [])))
    by (apply trend_fold_wf, NoDup_nil_2).
  destruct (fold_left trend_step (all_visits self) []) as [|[k0 c0] yc] eqn:Hyc.
  - eexists. split; [reflexivity|]. split; [|discriminate].
    split; [|reflexivity]. intros _ vr Hin.
    destruct (stored_date vr) as [d|] eqn:Hd; [|reflexivity].
    pose proof (visits_in_year_pos self vr d Hin Hd) as Hpos.
    specialize (Hget (year d)). simpl in Hget.
    destruct (visits_in_year (year d) self =? 0) eqn:Hz; [|discriminate].
    apply Z.eqb_eq in Hz. lia.
  - eexists. split; [reflexivity|]. split.
    + split; [discriminate|]. intros Hnone. exfalso.
      specialize (Hget k0). rewrite (visits_in_year_zero self k0 Hnone) in Hget.
      simpl in Hget. rewrite decide_True in Hget by reflexivity. discriminate.
    + intros l [= <-]. split.
      * rewrite zip_map_fst. apply sorted_le_nodup_lt.
        -- apply StronglySorted_merge_sort; apply _.
        -- rewrite merge_sort_Permutation. exact Hnd.
      * intros y c. rewrite zip_map_elem. rewrite merge_sort_Permutation.
        specialize (Hget y).
        change (default 0 (dict_get y ((k0, c0) :: yc)))
          with (default 0 (dict_get y ((k0, c0) :: yc))).
        split.
        -- intros [Hin Hc].
           destruct (visits_in_year y self =? 0) eqn:Hz.
           ++ apply dict_get_None_keys in Hget. contradiction.
           ++ cbn [dict_get] in Hget. rewrite Hget in Hc. simpl in Hc. subst c.
              apply Z.eqb_neq in Hz. split; [reflexivity|].
              unfold visits_in_year in *. lia.
        -- intros [-> Hpos].
           destruct (visits_in_year y self =? 0) eqn:Hz;
             [apply Z.eqb_eq in Hz; lia|].
           split.
           ++ destruct (decide (y ∈ dict_keys ((k0, c0) :: yc))) as [Hin|Hnin];
                [exact Hin|].
              apply dict_get_None_keys in Hnin. congruence.
           ++ cbn [dict_get] in Hget. rewrite Hget. reflexivity.
Qed.

(** The table of [show_temporal_trends], on a store whose field maps are
    Python dicts.  It raises [AttributeError] when some [Visit_time] is
    neither a string nor false as a condition.  Otherwise there is no table
    exactly when no visit carries a date; and the table has its years in
    strictly ascending order, a year being there, with the number of visits
    of that year, exactly when that number is not zero. *)
Theorem trend_table_counts self :
  fields_wf (all_visits self) = true ->
  (forallb time_is_usable (all_visits self) = false ->
   trend_table self = Raised AttributeError)
  /\ (forallb time_is_usable (all_visits self) = true ->
      exists r,
        trend_table self = Returned r
        /\ (r = None <-> forall vr, In vr (all_visits self) -> stored_date vr = None)
        /\ forall l, r = Some l ->
             StronglySorted Z.lt (map fst l)
             /\ forall y c, (y, c) ∈ l <-> c = visits_in_year y self /\ 0 < c).
Proof. exact (trend_table_spec self). Qed.

Lemma filter_length_le {A : Type} (P Q : A -> bool) (l : list A) :
  (forall a, P a = true -> Q a = true) ->
  (length (List.filter P l) <= length (List.filter Q l))%nat.
Proof.
  intros HPQ. induction l as [|a l IH]; simpl; [lia|].
  destruct (P a) eqn:HP.
  - rewrite (HPQ a HP). simpl. lia.
  - destruct (Q a); simpl; lia.
Qed.

Lemma times_are_str_usable vrs :
  times_are_str vrs = true -> forallb time_is_usable vrs = true.
Proof.
  unfold times_are_str. rewrite !forallb_forall. intros H vr Hin.
  specialize (H vr Hin). unfold time_is_usable.
  destruct (dict_get (Some "Visit_time") (data vr)) as [[| | |]|];
    (reflexivity || discriminate).
Qed.

(** The count of a day and the yearly trend agree: when
    [count_visits_in_day] gives a number for a day, the number is at most
    the number of visits of the year of that day, and when it is not zero
    the table of [show_temporal_trends] has that year with that number of
    visits. *)
Theorem daily_count_within_yearly_trend day_str self n target :
  fields_wf (all_visits self) = true ->
  parse_count (py_strip day_str) = Some target ->
  count_visits_in_day day_str self = Returned (Some n) ->
  n <= visits_in_year (year target) self
  /\ (0 < n ->
      exists l,
        trend_table self = Returned (Some l)
        /\ (year target, visits_in_year (year target) self) ∈ l).
Proof.
  intros Hwf Hp Hcount. rewrite count_outcomes, Hp in Hcount.
  destruct (times_are_str (all_visits self)) eqn:Hs; [|discriminate].
  injection Hcount as <-.
  assert (Hle : visits_on target self <= visits_in_year (year target) self).
  { unfold visits_on, visits_in_year. apply inj_le. apply filter_length_le.
    intros vr Hvr. apply bool_decide_eq_true in Hvr. apply bool_decide_eq_true_2.
    rewrite Hvr. reflexivity. }
  split; [exact Hle|]. intros Hpos.
  destruct (trend_table_spec self Hwf) as [_ Htab].
  destruct (Htab (times_are_str_usable _ Hs)) as (r & Hr & Hnone & Hl).
  destruct r as [l|].
  - exists l. split; [exact Hr|]. apply (proj2 (Hl l eq_refl)).
    split; [reflexivity | lia].
  - exfalso. pose proof (visits_in_year_zero self (year target)
                           (proj1 Hnone eq_refl)). lia.
Qed.

Lemma daily_count_within_yearly_trend_witness :
  exists l,
    trend_table clinic_db = Returned (Some l) /\ (2024, 1) ∈ l.
Proof.
  destruct (daily_count_within_yearly_trend "3/14/2024" clinic_db 1
              (mkDate 2024 3 14)) as [_ H]; try reflexivity.
  destruct (H ltac:(lia)) as (l & Hl & Hin). exists l. split; [exact Hl|exact Hin].
Defined.

Lemma trend_table_counts_witness :
  exists l, trend_table clinic_db = Returned (Some l)
            /\ StronglySorted Z.lt (map fst l).
Proof.
  destruct (trend_table_counts clinic_db) as [_ H]; [reflexivity|].
  destruct (H eq_refl) as (r & Hr & _ & Hl).
  assert (r = Some [(2024, 1)]) as -> by (vm_compute in Hr; congruence).
  exists [(2024, 1)]. split; [exact Hr|]. apply (Hl _ eq_refl).
Defined.

(** ** The handler add_patient *)

Lemma dict_elem_get_last {K V : Type} `{EqDecision K} (k : K) (v : V) d :
  dict_get k d = None -> dict_get k (d ++ [(k, v)]) = Some v.
Proof.
  intros Hg. rewrite <- (dict_keys_set_absent k v d Hg). apply dict_get_set_eq.
Qed.

Lemma dict_get_app_ne {K V : Type} `{EqDecision K} (k k' : K) (v : V) d :
  k' <> k -> dict_get k' (d ++ [(k, v)]) = dict_get k' d.
Proof.
  intros Hne. induction d as [|[k0 v0] d IH]; simpl.
  - rewrite decide_False by exact Hne. reflexivity.
  - destruct (decide (k' = k0)); [reflexivity | exact IH].
Qed.

Lemma add_patient_memory can_open pid pair vid data_file notes_file cols db fs :
  (add_patient can_open pid pair vid data_file notes_file cols db fs).1.2
  = (add_patient (fun _ => false) pid pair vid "" "" [] db ∅).1.2.
Proof.
  unfold add_patient. destruct pid as [pid|]; [|reflexivity].
  destruct (String.eqb pid ""); [reflexivity|].
  destruct pair as [[vd vn]|]; [|reflexivity].
  destruct (get_patient pid _); [|reflexivity].
  destruct (save_visit_data can_open data_file _ _ _).1,
    (save_visit_data _ "" _ _ _).1;
    reflexivity.
Qed.

Lemma added_patients pid vd vn vid db :
  pid <> "" -> find_visit pid vid db = None ->
  patients (added pid vd vn vid db) =
    match dict_get pid (patients db) with
    | Some rec =>
        dict_set pid
          (mkPatient (patient_id rec) (visits rec ++ [(vid, form_visit vd vn)]))
          (patients db)
    | None => patients db ++ [(pid, mkPatient pid [(vid, form_visit vd vn)])]
    end.
Proof.
  intros Hpid Hfresh. unfold added, add_patient.
  rewrite (proj2 (String.eqb_neq pid "") Hpid). unfold get_patient.
  unfold find_visit in Hfresh.
  destruct (dict_get pid (patients db)) as [rec|] eqn:Hg; simpl in Hfresh.
  - rewrite Hg. rewrite (add_visit_new _ _ _ _ Hfresh).
    destruct (save_visit_data _ _ _ _ _).1; reflexivity.
  - cbn [patients]. rewrite dict_get_set_eq.
    rewrite (add_visit_new vid vd (Some vn) (mkPatient pid [])) by reflexivity.
    rewrite (dict_keys_set_absent _ _ _ Hg), (dict_set_snoc _ _ _ _ Hg).
    destruct (save_visit_data _ _ _ _ _).1; reflexivity.
Qed.

Lemma all_visits_snoc ps pid rec :
  all_visits (mkDatabase (ps ++ [(pid, rec)]))
  = all_visits (mkDatabase ps) ++ dict_values (visits rec).
Proof.
  unfold all_visits, dict_values. simpl. rewrite map_app, flat_map_app. simpl.
  rewrite app_nil_r. reflexivity.
Qed.

Lemma all_visits_set ps pid rec :
  dict_get pid ps = Some rec ->
  exists l1 l2,
    all_visits (mkDatabase ps) = l1 ++ dict_values (visits rec) ++ l2
    /\ forall rec',
         all_visits (mkDatabase (dict_set pid rec' ps))
         = l1 ++ dict_values (visits rec') ++ l2.
Proof.
  unfold all_visits. simpl.
  induction ps as [|[k x] ps IH]; simpl; [discriminate|].
  destruct (decide (pid = k)) as [->|Hne].
  - intros [= ->]. exists [], (flat_map (fun pr => dict_values (visits pr)) (dict_values ps)).
    split; [reflexivity|]. intros rec'. reflexivity.
  - intros Hg. destruct (IH Hg) as (l1 & l2 & H1 & H2).
    exists (dict_values (visits x) ++ l1), l2. split.
    + rewrite H1, <- app_assoc. reflexivity.
    + intros rec'. simpl. rewrite H2, <- app_assoc. reflexivity.
Qed.

(** What [add_patient] does to the visits of the store, for a visit id the
    patient does not have yet: the visits are those of before and the new
    one, placed after the other visits of its patient. *)
Lemma added_all_visits pid vd vn vid db :
  pid <> "" -> find_visit pid vid db = None ->
  exists l1 l2,
    all_visits db = l1 ++ l2
    /\ all_visits (added pid vd vn vid db) = l1 ++ form_visit vd vn :: l2.
Proof.
  intros Hpid Hfresh.
  pose proof (added_patients pid vd vn vid db Hpid Hfresh) as Hps.
  destruct (added pid vd vn vid db) as [ps'] eqn:Hadd. simpl in Hps. subst ps'.
  destruct db as [ps]. simpl in *.
  destruct (dict_get pid ps) as [rec|] eqn:Hg.
  - destruct (all_visits_set ps pid rec Hg) as (l1 & l2 & H1 & H2).
    exists (l1 ++ dict_values (visits rec)), l2. split.
    + rewrite H1, <- app_assoc. reflexivity.
    + rewrite H2. simpl. unfold dict_values. rewrite map_app. simpl.
      rewrite <- !app_assoc. reflexivity.
  - exists (all_visits (mkDatabase ps)), []. split; [rewrite app_nil_r; reflexivity|].
    rewrite all_visits_snoc. reflexivity.
Qed.

(** After [add_patient] with a visit id the patient does not have yet: the
    new visit is found under the patient, with the fields and the note of
    the form; every other visit is found as before; the visits of a day are
    those of before, and one more when the new visit carries that day; so
    [count_visits_in_day], when it gave a number before and the new
    [Visit_time] is a string, gives that number or one more. *)
Theorem add_patient_adds_one_visit
    can_open pid vd vn vid data_file notes_file cols db fs :
  pid <> "" -> find_visit pid vid db = None ->
  let db' :=
    (add_patient can_open (Some pid) (Some (vd, vn)) vid data_file notes_file cols
       db fs).1.2 in
  find_visit pid vid db' = Some (form_visit vd vn)
  /\ (forall p v, (p, v) <> (pid, vid) -> find_visit p v db' = find_visit p v db)
  /\ (forall target,
        visits_on target db'
        = visits_on target db
          + (if bool_decide (stored_date (form_visit vd vn) = Some target)
             then 1 else 0))
  /\ (forall day_str n,
        count_visits_in_day day_str db = Returned (Some n) ->
        time_is_str (form_visit vd vn) ->
        exists target,
          parse_count (py_strip day_str) = Some target
          /\ count_visits_in_day day_str db'
             = Returned
                 (Some (n + (if bool_decide (stored_date (form_visit vd vn) = Some target)
                             then 1 else 0)))).
Proof.
  intros Hpid Hfresh db'. unfold db'. rewrite add_patient_memory.
  fold (added pid vd vn vid db).
  pose proof (added_patients pid vd vn vid db Hpid Hfresh) as Hps.
  destruct (added_all_visits pid vd vn vid db Hpid Hfresh) as (l1 & l2 & Hall & Hall').
  assert (Hfind : forall p v,
            find_visit p v (added pid vd vn vid db) =
              if decide ((p, v) = (pid, vid)) then Some (form_visit vd vn)
              else find_visit p v db).
  { intros p v. unfold find_visit in *. rewrite Hps.
    destruct (dict_get pid (patients db)) as [rec|] eqn:Hg; simpl in Hfresh.
    - rewrite dict_get_set. destruct (decide (p = pid)) as [->|Hne].
      + rewrite Hg. simpl.
        destruct (decide (v = vid)) as [->|Hne'].
        * rewrite decide_True by reflexivity.
          apply dict_elem_get_last. exact Hfresh.
        * rewrite decide_False by congruence.
          apply dict_get_app_ne. exact Hne'.
      + rewrite decide_False by congruence. reflexivity.
    - destruct (decide (p = pid)) as [->|Hne].
      + rewrite Hg. rewrite (dict_elem_get_last _ _ _ Hg). simpl.
        destruct (decide (v = vid)) as [->|Hne'].
        * rewrite !decide_True by reflexivity. reflexivity.
        * rewrite !decide_False by congruence. reflexivity.
      + rewrite decide_False by congruence.
        rewrite (dict_get_app_ne _ _ _ _ Hne). reflexivity. }
  assert (Hon : forall target,
            visits_on target (added pid vd vn vid db)
            = visits_on target db
              + (if bool_decide (stored_date (form_visit vd vn) = Some target)
                 then 1 else 0)).
  { intros target. unfold visits_on. rewrite Hall, Hall'.
    rewrite !List.filter_app, !length_app. simpl.
    destruct (bool_decide (stored_date (form_visit vd vn) = Some target)); simpl;
      rewrite !Nat2Z.inj_add; rewrite ?Nat2Z.inj_succ; lia. }
  split; [|split; [|split]].
  - rewrite Hfind. rewrite decide_True by reflexivity. reflexivity.
  - intros p v Hne. rewrite Hfind. rewrite decide_False by exact Hne. reflexivity.
  - exact Hon.
  - intros day_str n Hcount Hstr.
    rewrite count_outcomes in Hcount.
    destruct (parse_count (py_strip day_str)) as [target|] eqn:Hp; [|discriminate].
    destruct (times_are_str (all_visits db)) eqn:Hs; [|discriminate].
    injection Hcount as <-. exists target. split; [reflexivity|].
    rewrite count_outcomes, Hp.
    assert (Hs' : times_are_str (all_visits (added pid vd vn vid db)) = true).
    { apply times_are_str_Forall. rewrite Hall'.
      apply times_are_str_Forall in Hs. rewrite Hall in Hs.
      destruct (proj1 (Forall_app _ _ _) Hs) as [H1 H2].
      apply Forall_app. split; [exact H1|]. constructor; assumption. }
    rewrite Hs', Hon. reflexivity.
Qed.

Lemma add_patient_adds_one_visit_witness :
  let db' :=
    (add_patient open_here (Some "P1") (Some (form_data, form_notes)) "V3"
       "Patient_data.csv" "Notes.csv" data_fieldnames clinic_db ∅).1.2 in
  find_visit "P1" "V3" db' = Some (form_visit form_data form_notes)
  /\ visits_on (mkDate 2024 3 14) db' = 2
  /\ count_visits_in_day "3/14/2024" db' = Returned (Some 2).
Proof.
  destruct (add_patient_adds_one_visit open_here "P1" form_data form_notes "V3"
              "Patient_data.csv" "Notes.csv" data_fieldnames clinic_db ∅)
    as (Hnew & _ & Hon & Hcount).
  - discriminate.
  - reflexivity.
  - split; [exact Hnew|]. split.
    + rewrite Hon. vm_compute. reflexivity.
    + destruct (Hcount "3/14/2024" 1) as (target & Htarget & ->).
      * vm_compute. reflexivity.
      * vm_compute. reflexivity.
      * assert (target = mkDate 2024 3 14) as ->
          by (vm_compute in Htarget; congruence).
        vm_compute. reflexivity.
Defined.


(** ** Changing the store, saving and starting again *)

(** The two saves followed by the start-up of the application, on a store
    as in [store_ok] and at paths that open. *)
Lemma saves_then_start_up can_open data_path notes_path cols self fs :
  can_open data_path = true -> can_open notes_path = true ->
  data_path <> notes_path ->
  ID_PATIENT ∈ cols -> ID_VISIT ∈ cols ->
  store_ok cols self = true ->
  (save_visit_data can_open data_path cols self fs).1 = Returned tt
  /\ (save_visit_notes can_open notes_path self
        (save_visit_data can_open data_path cols self fs).2).1
     = Returned tt
  /\ forall pid vid,
       find_visit pid vid
         (start_up data_path notes_path
            (save_visit_notes can_open notes_path self
               (save_visit_data can_open data_path cols self fs).2).2)
       = (fun vr =>
            mkVisit (data (merge_visit (row_data (data_record cols (pid, vid, vr))) None))
              (notes vr))
         <$> find_visit pid vid self.
Proof.
  intros Hopen1 Hopen2 Hpaths Hp Hv Hok.
  assert (Hcols : cols <> []) by (intros ->; inversion Hp).
  unfold start_up, save_visit_data, save_visit_notes, write_csv.
  rewrite Hopen1, Hopen2.
  rewrite (writerows_fit cols) by (apply data_rows_fit; assumption). simpl.
  rewrite (writerows_fit NOTES_FIELDNAMES) by (apply (note_rows_fit cols), Hok). simpl.
  split; [reflexivity|]. split; [reflexivity|]. intros pid vid.
  unfold load_notes_data, load_data.
  rewrite lookup_insert_eq.
  rewrite lookup_insert_ne by congruence. rewrite lookup_insert_eq.
  rewrite (DictReader_written cols) by exact Hcols.
  rewrite (DictReader_written NOTES_FIELDNAMES) by discriminate.
  rewrite find_visit_load_notes_rows, find_visit_load_data_rows.
  rewrite written_data_records, written_note_records.
  rewrite (data_records_filter cols) by (try assumption; apply visit_triples_ok, Hok).
  rewrite (note_records_filter cols) by (apply visit_triples_ok, Hok).
  rewrite (filter_has_ids_store cols self pid vid Hok).
  destruct (find_visit pid vid self) as [vr|] eqn:Hf; [|reflexivity].
  pose proof (find_visit_triple cols self pid vid vr Hok Hf) as Ht.
  destruct (triple_ok_elim _ _ Ht) as (Hnp & Hnv & Hvr). simpl in Hnp, Hnv, Hvr.
  destruct (visit_ok_elim _ _ Hvr) as (Hwf & Hk & Hns).
  simpl. rewrite app_nil_r, append_notes_fold. simpl.
  rewrite note_records_notes by assumption. reflexivity.
Qed.








(** ** Logging in *)

Lemma lstrip_clean s :
  match Str.lstrip s with [] => True | c :: _ => Str.isspace c = false end.
Proof.
  induction s as [|c s IH]; simpl; [exact I|].
  destruct (Str.isspace c) eqn:Hc; [exact IH | exact Hc].
Qed.

Lemma lstrip_fixed s :
  match s with [] => True | c :: _ => Str.isspace c = false end ->
  Str.lstrip s = s.
Proof. destruct s as [|c s]; simpl; [reflexivity|]. intros ->. reflexivity. Qed.

Lemma lstrip_suffix s : exists sp, s = sp ++ Str.lstrip s.
Proof.
  induction s as [|c s [sp IH]]; [exists []; reflexivity|]. simpl.
  destruct (Str.isspace c).
  - exists (c :: sp). simpl. f_equal. exact IH.
  - exists []. reflexivity.
Qed.

Lemma strip_idempotent s : Str.strip (Str.strip s) = Str.strip s.
Proof.
  unfold Str.strip.
  assert (Hl : Str.lstrip (Str.rstrip (Str.lstrip s)) = Str.rstrip (Str.lstrip s)).
  { apply lstrip_fixed. pose proof (lstrip_clean s) as Hc.
    unfold Str.rstrip.
    destruct (lstrip_suffix (rev (Str.lstrip s))) as [sp Hsp].
    assert (Ht : Str.lstrip s = rev (Str.lstrip (rev (Str.lstrip s))) ++ rev sp).
    { rewrite <- rev_app_distr, <- Hsp, rev_involutive. reflexivity. }
    destruct (rev (Str.lstrip (rev (Str.lstrip s)))) as [|c r]; [exact I|].
    rewrite Ht in Hc. exact Hc. }
  rewrite Hl. unfold Str.rstrip at 1. unfold Str.rstrip at 1.
  rewrite rev_involutive.
  assert (Hll : forall t, Str.lstrip (Str.lstrip t) = Str.lstrip t)
    by (intros t; apply lstrip_fixed, lstrip_clean).
  rewrite Hll. reflexivity.
Qed.

Lemma py_strip_idempotent s : py_strip (py_strip s) = py_strip s.
Proof.
  unfold py_strip. rewrite list_ascii_of_string_of_list_ascii, strip_idempotent.
  reflexivity.
Qed.

Lemma record_event_row usage_file now username role0 event action fs :
  record_event usage_file now username role0 event action fs
  = (Returned tt,
     <[usage_file := log_after usage_file [log_row now username role0 event action] fs]>
       fs).
Proof. exact (record_event_log usage_file (mkEvent now username role0 event action) fs). Qed.

Lemma load_table file_path fs credentials :
  _load file_path fs = Returned credentials ->
  exists f,
    fs !! file_path = Some f
    /\ forallb (fun k => bool_decide (k ∈ default [] (head f))) REQUIRED = true
    /\ records_have_required (DictReader f) = true
    /\ forall u, dict_get u credentials = last_kept u (DictReader f).
Proof.
  unfold _load. destruct (fs !! file_path) as [f|] eqn:Hf; [|discriminate].
  unfold reader_fieldnames.
  destruct (forallb _ REQUIRED) eqn:Hreq; [|discriminate]. intros Hload.
  exists f. split; [reflexivity|]. split; [exact Hreq|]. split.
  - destruct (records_have_required (DictReader f)) eqn:Hrows; [reflexivity|].
    rewrite (load_credentials_raise _ _ Hrows) in Hload. discriminate.
  - intros u. rewrite (load_credentials_lookup _ _ _ u Hload). simpl.
    destruct (last_kept u (DictReader f)); reflexivity.
Qed.

Lemma load_raised file_path fs e :
  _load file_path fs = Raised e ->
  match fs !! file_path with
  | None => e = FileNotFoundError
  | Some f =>
      if forallb (fun k => bool_decide (k ∈ default [] (head f))) REQUIRED
      then records_have_required (DictReader f) = false /\ e = AttributeError
      else e = ValueError
  end.
Proof.
  unfold _load. destruct (fs !! file_path) as [f|] eqn:Hf; [|congruence].
  unfold reader_fieldnames.
  destruct (forallb _ REQUIRED) eqn:Hreq; [|congruence]. intros Hload.
  destruct (records_have_required (DictReader f)) eqn:Hrows.
  - apply records_have_required_Forall in Hrows.
    destruct (load_returns file_path fs f Hf Hreq Hrows) as [c Hc].
    unfold _load in Hc. rewrite Hf in Hc. unfold reader_fieldnames in Hc.
    rewrite Hreq in Hc. congruence.
  - rewrite (load_credentials_raise _ _ Hrows) in Hload. split; congruence.
Qed.

(** The click on the login button, read off the credentials file. *)
Lemma login_cases env now1 now2 username_entry password_entry fs :
  PatientApp.authenticate env now1 now2 username_entry password_entry fs =
  let username := py_strip username_entry in
  let password0 := py_strip password_entry in
  let log rows :=
    <[usage_file_of env := log_after (usage_file_of env) rows fs]> fs in
  match fs !! users_file env with
  | None =>
      (CredentialsError FileNotFoundError,
       log [log_row now1 username "" "login_failed" "load_credentials_error"])
  | Some f =>
      if forallb (fun k => bool_decide (k ∈ default [] (head f))) REQUIRED
      then
        if records_have_required (DictReader f)
        then
          match last_kept (py_lower username) (DictReader f) with
          | None => (LoginFailed, log [log_row now1 username "" "login_failed" ""])
          | Some c =>
              if Str.isascii (list_ascii_of_string (password c))
                 && Str.isascii (list_ascii_of_string password0)
              then
                if String.eqb (password c) password0
                then
                  match dict_get (py_lower (role c)) ROLE_MAP with
                  | Some cls =>
                      (Welcome (mkUser cls username (role c))
                         (start_up (data_file_of env) (notes_file_of env)
                            (log [log_row now1 username (role c) "login_success" ""])),
                       log [log_row now1 username (role c) "login_success" ""])
                  | None =>
                      (UnsupportedRole (py_lower (role c)),
                       log [log_row now1 username (role c) "login_success" "";
                            log_row now2 username (py_lower (role c))
                              "login_failed" "unsupported_role"])
                  end
                else (LoginFailed, log [log_row now1 username "" "login_failed" ""])
              else (Uncaught TypeError, fs)
          end
        else (Uncaught AttributeError, fs)
      else
        (CredentialsError ValueError,
         log [log_row now1 username "" "login_failed" "load_credentials_error"])
  end.
Proof.
  cbn zeta. unfold PatientApp.authenticate.
  destruct (_load (users_file env) fs) as [credentials|e] eqn:Hload.
  - destruct (load_table _ _ _ Hload) as (f & Hf & Hreq & Hrows & Hlook).
    rewrite Hf, Hreq, Hrows. unfold authenticate.
    rewrite py_strip_idempotent, Hlook.
    destruct (last_kept (py_lower (py_strip username_entry)) (DictReader f))
      as [c|] eqn:Hc.
    + unfold compare_digest.
      destruct (Str.isascii _ && Str.isascii _); [|reflexivity].
      cbn [mbind outcome_bind].
      destruct (String.eqb (password c) (py_strip password_entry)).
      * destruct (last_kept_Some _ _ _ Hc) as (row & _ & Hk).
        destruct (kept_nonempty _ _ _ Hk) as (_ & _ & Hr).
        destruct (role c) as [|a r] eqn:Hrole; [discriminate|].
        rewrite record_event_row. cbn [fst snd].
        unfold PatientApp.dispatch_user.
        destruct (dict_get (py_lower (String a r)) ROLE_MAP) as [cls|].
        -- rewrite Hlook, Hc, Hrole. reflexivity.
        -- rewrite record_event_row. cbn [fst snd]. f_equal.
           unfold log_after. rewrite lookup_insert_eq. cbn [default].
           rewrite insert_insert_eq. unfold id. rewrite <- app_assoc. reflexivity.
      * rewrite record_event_row. reflexivity.
    + rewrite record_event_row. reflexivity.
  - pose proof (load_raised _ _ _ Hload) as He.
    destruct (fs !! users_file env) as [f|].
    + destruct (forallb _ REQUIRED).
      * destruct He as [-> ->]. reflexivity.
      * subst e. rewrite record_event_row. reflexivity.
    + subst e. rewrite record_event_row. reflexivity.
Qed.

(** A click on the login button never fails on
    [credentials[username.lower()]].  The only exceptions that escape are
    the [AttributeError] of a credentials row that stops before one of the
    three columns and the [TypeError] of [compare_digest] on a password
    that is not ASCII, both before anything is logged.  The welcome screen
    is reached exactly when the header has the three columns, every record
    has the three fields, and the last complete row for the typed name
    (trimmed, in lower case) has the typed password (trimmed), in ASCII,
    and a role that in lower case is one of the four; the user then has the
    typed name trimmed and the role as the file writes it, and the store is
    the one loaded from the two files. *)
Theorem login_welcome env now1 now2 username_entry password_entry fs :
  let result :=
    PatientApp.authenticate env now1 now2 username_entry password_entry fs in
  (forall key, result.1 <> UncaughtKeyError key)
  /\ (forall e, result.1 = Uncaught e ->
        (e = AttributeError \/ e = TypeError) /\ result.2 = fs)
  /\ (forall u db,
        result.1 = Welcome u db <->
        exists f c,
          fs !! users_file env = Some f
          /\ forallb (fun k => bool_decide (k ∈ default [] (head f))) REQUIRED = true
          /\ records_have_required (DictReader f) = true
          /\ last_kept (py_lower (py_strip username_entry)) (DictReader f) = Some c
          /\ Str.isascii (list_ascii_of_string (password c)) = true
          /\ password c = py_strip password_entry
          /\ dict_get (py_lower (role c)) ROLE_MAP = Some (user_cls u)
          /\ user_name u = py_strip username_entry
          /\ user_role u = role c
          /\ db = start_up (data_file_of env) (notes_file_of env) result.2).
Proof.
  intros result. unfold result. rewrite login_cases. cbn zeta.
  destruct (fs !! users_file env) as [f|] eqn:Hf.
  2:{ cbn [fst snd]. split; [discriminate|]. split; [discriminate|].
      intros u db. split; [discriminate|]. intros (f & c & [=] & _). }
  destruct (forallb _ REQUIRED) eqn:Hreq.
  2:{ cbn [fst snd]. split; [discriminate|]. split; [discriminate|].
      intros u db. split; [discriminate|].
      intros (f' & c & [= <-] & Hreq' & _). congruence. }
  destruct (records_have_required (DictReader f)) eqn:Hrows.
  2:{ cbn [fst snd]. split; [discriminate|].
      split; [intros e [= <-]; split; [left|]; reflexivity|].
      intros u db. split; [discriminate|].
      intros (f' & c & [= <-] & _ & Hrows' & _). congruence. }
  destruct (last_kept _ (DictReader f)) as [c|] eqn:Hc.
  2:{ cbn [fst snd]. split; [discriminate|]. split; [discriminate|].
      intros u db. split; [discriminate|].
      intros (f' & c & [= <-] & _ & _ & Hc' & _). congruence. }
  destruct (Str.isascii (list_ascii_of_string (password c))) eqn:Ha1.
  2:{ cbn [andb fst snd]. split; [discriminate|].
      split; [intros e [= <-]; split; [right|]; reflexivity|].
      intros u db. split; [discriminate|].
      intros (f' & c' & [= <-] & _ & _ & Hc' & Ha & _). congruence. }
  destruct (String.eqb (password c) (py_strip password_entry)) eqn:Hpw.
  2:{ assert (Hne : password c <> py_strip password_entry)
        by (apply String.eqb_neq, Hpw).
      destruct (Str.isascii (list_ascii_of_string (py_strip password_entry)));
        cbn [andb fst snd].
      - split; [discriminate|]. split; [discriminate|].
        intros u db. split; [discriminate|].
        intros (f' & c' & [= <-] & _ & _ & Hc' & _ & Hp & _). congruence.
      - split; [discriminate|].
        split; [intros e [= <-]; split; [right|]; reflexivity|].
        intros u db. split; [discriminate|].
        intros (f' & c' & [= <-] & _ & _ & Hc' & _ & Hp & _). congruence. }
  apply String.eqb_eq in Hpw. rewrite <- Hpw, Ha1. cbn [andb].
  destruct (dict_get (py_lower (role c)) ROLE_MAP) as [cls|] eqn:Hcls.
  2:{ cbn [fst snd]. split; [discriminate|]. split; [discriminate|].
      intros u db. split; [discriminate|].
      intros (f' & c' & [= <-] & _ & _ & Hc' & _ & _ & Hr & _). congruence. }
  cbn [fst snd]. split; [discriminate|]. split; [discriminate|].
  intros u db. split.
  - intros [= <- <-]. exists f, c. cbn [user_cls user_name user_role].
    repeat split; assumption.
  - intros (f' & c' & [= <-] & _ & _ & Hc' & _ & _ & Hr & Hn & Hro & ->).
    assert (c' = c) as -> by congruence.
    destruct u as [ucls uname urole].
    cbn [user_cls user_name user_role] in Hr, Hn, Hro. subst uname urole.
    assert (ucls = cls) as -> by congruence. reflexivity.
Qed.

(** What a click on the login button leaves in the usage log, when no
    exception escapes: one row, [login_failed] or [login_success], with the
    typed name trimmed; and two rows when the role of the file is none of
    the four, a [login_success] with the role as written followed by a
    [login_failed] with the role in lower case.  When an exception escapes
    nothing is logged. *)
Theorem login_log env now1 now2 username_entry password_entry fs :
  let result :=
    PatientApp.authenticate env now1 now2 username_entry password_entry fs in
  let username := py_strip username_entry in
  let log rows :=
    <[usage_file_of env := log_after (usage_file_of env) rows fs]> fs in
  match result.1 with
  | CredentialsError _ =>
      result.2 = log [log_row now1 username "" "login_failed" "load_credentials_error"]
  | LoginFailed => result.2 = log [log_row now1 username "" "login_failed" ""]
  | Welcome u _ =>
      result.2 = log [log_row now1 username (user_role u) "login_success" ""]
  | UnsupportedRole role0 =>
      exists role1,
        role0 = py_lower role1
        /\ result.2 = log [log_row now1 username role1 "login_success" "";
                           log_row now2 username role0 "login_failed" "unsupported_role"]
  | Uncaught _ | UncaughtKeyError _ => result.2 = fs
  end.
Proof.
  intros result username log. unfold result. rewrite login_cases. cbn zeta.
  destruct (fs !! users_file env) as [f|]; [|reflexivity].
  destruct (forallb _ REQUIRED); [|reflexivity].
  destruct (records_have_required (DictReader f)); [|reflexivity].
  destruct (last_kept _ (DictReader f)) as [c|]; [|reflexivity].
  destruct (Str.isascii _ && Str.isascii _); [|reflexivity].
  destruct (String.eqb _ _); [|reflexivity].
  destruct (dict_get (py_lower (role c)) ROLE_MAP) as [cls|]; [reflexivity|].
  cbn [fst snd]. exists (role c). split; reflexivity.
Qed.

(** The last complete row for [bob] decides, whatever the case and the
    blanks of what is typed. *)
Example login_last_row_decides :
  (PatientApp.authenticate paths_demo "t1" "t2" " BOB " "pw2 " credentials_fs).1
  = Welcome (mkUser NurseUser "BOB" "nurse") (mkDatabase [])
  /\ (PatientApp.authenticate paths_demo "t1" "t2" "bob" "pw" credentials_fs).1
     = LoginFailed.
Proof. split; vm_compute; reflexivity. Qed.

(** ** Viewing notes *)

Lemma note_block_cases vid vr note :
  note_block vid (default (VStr "N/A") (dict_get (Some "Note_type") (data vr))) note
  = if text_is_str note then Returned (block_of vid vr note) else Raised AttributeError.
Proof.
  unfold note_block, note_text, text_is_str, block_of.
  destruct (dict_get (Some "Note_text") note) as [[|s|z|l]|]; reflexivity.
Qed.

Lemma view_inner vid vr ns acc :
  for_each
    (fun acc note =>
       b ← note_block vid
             (default (VStr "N/A") (dict_get (Some "Note_type") (data vr))) note;
       Returned (acc ++ [b]))
    ns acc
  = if forallb text_is_str ns then Returned (acc ++ map (block_of vid vr) ns)
    else Raised AttributeError.
Proof.
  revert acc. induction ns as [|n ns IH]; intros acc.
  - cbn [for_each forallb map]. rewrite app_nil_r. reflexivity.
  - cbn [for_each forallb map]. rewrite note_block_cases.
    destruct (text_is_str n); [|reflexivity].
    cbn [mbind outcome_bind andb]. rewrite IH.
    destruct (forallb text_is_str ns); [|reflexivity].
    rewrite <- app_assoc. reflexivity.
Qed.

Lemma view_visit_cases target acc kv :
  time_is_str kv.2 ->
  view_visit target acc kv
  = if bool_decide (viewed_date kv.2 = Some target)
    then if forallb text_is_str (notes kv.2)
         then Returned (acc ++ map (block_of kv.1 kv.2) (notes kv.2))
         else Raised AttributeError
    else Returned acc.
Proof.
  unfold view_visit, visit_time, viewed_date, time_is_str.
  assert (Hin : forall o : option date,
            match o with
            | Some visit_date =>
                if bool_decide (visit_date = target) && has_notes kv.2
                then
                  for_each
                    (fun acc note =>
                       b ← note_block kv.1
                             (default (VStr "N/A")
                                (dict_get (Some "Note_type") (data kv.2))) note;
                       Returned (acc ++ [b]))
                    (notes kv.2) acc
                else Returned acc
            | None => Returned acc
            end
            = if bool_decide (o = Some target)
              then if forallb text_is_str (notes kv.2)
                   then Returned (acc ++ map (block_of kv.1 kv.2) (notes kv.2))
                   else Raised AttributeError
              else Returned acc).
  { intros [d|]; [|rewrite bool_decide_eq_false_2 by discriminate; reflexivity].
    destruct (decide (d = target)) as [->|Hne].
    - rewrite !bool_decide_eq_true_2 by reflexivity. cbn [andb].
      unfold has_notes. destruct (notes kv.2) as [|n ns] eqn:Hn.
      + cbn [forallb map]. rewrite app_nil_r. reflexivity.
      + rewrite view_inner. reflexivity.
    - rewrite !bool_decide_eq_false_2 by congruence. reflexivity. }
  destruct (dict_get (Some "Visit_time") (data kv.2)) as [[|s|z|l]|];
    intros Hstr; try contradiction; cbn [mbind outcome_bind]; apply Hin.
Qed.

Lemma view_loop target vs acc :
  Forall time_is_str (map snd vs) ->
  for_each (view_visit target) vs acc
  = let shown :=
      List.filter (fun kv => bool_decide (viewed_date kv.2 = Some target)) vs in
    if forallb (fun kv => forallb text_is_str (notes kv.2)) shown
    then Returned (acc ++ flat_map (fun kv => map (block_of kv.1 kv.2) (notes kv.2)) shown)
    else Raised AttributeError.
Proof.
  cbn zeta. revert acc. induction vs as [|kv vs IH]; intros acc Hstr.
  - cbn [for_each List.filter forallb flat_map]. rewrite app_nil_r. reflexivity.
  - cbn [map] in Hstr. apply Forall_cons in Hstr as [Hkv Hstr].
    cbn [for_each List.filter]. rewrite (view_visit_cases _ _ _ Hkv).
    destruct (bool_decide (viewed_date kv.2 = Some target)).
    + cbn [forallb flat_map].
      destruct (forallb text_is_str (notes kv.2)); [|reflexivity].
      cbn [mbind outcome_bind andb]. rewrite (IH _ Hstr).
      destruct (forallb _ (List.filter _ vs)); [|reflexivity].
      rewrite <- app_assoc. reflexivity.
    + cbn [mbind outcome_bind]. apply (IH _ Hstr).
Qed.

Lemma view_notes_cases pid ds db rec :
  pid <> "" -> get_patient (py_strip pid) db = Some rec ->
  times_are_str (dict_values (visits rec)) = true ->
  view_notes (Some pid) (Some ds) db =
    match parse_count (py_strip ds) with
    | None => Returned ViewInvalidDate
    | Some target =>
        if forallb (fun kv => forallb text_is_str (notes kv.2)) (viewed target rec)
        then Returned
               (view_answer_of
                  (flat_map (fun kv => map (block_of kv.1 kv.2) (notes kv.2))
                     (viewed target rec)))
        else Raised AttributeError
    end.
Proof.
  intros Hpid Hrec Hstr. unfold view_notes.
  destruct pid as [|a pid]; [congruence|]. rewrite Hrec.
  destruct (parse_count (py_strip ds)) as [target|]; [|reflexivity].
  rewrite view_loop by (apply times_are_str_Forall, Hstr).
  cbn zeta. fold (viewed target rec).
  destruct (forallb _ (viewed target rec)); [|reflexivity].
  cbn [app mbind outcome_bind].
  destruct (flat_map _ (viewed target rec)); reflexivity.
Qed.

(** [view_notes] for a patient of the store whose [Visit_time]s are
    strings, once both dialogs are answered: the box for an invalid date
    when the day does not parse; otherwise it goes through the visits of
    the patient that carry the day, in the order of the record, and either
    shows one text per note of these visits (the box for no notes when
    there is none), or raises [AttributeError] when one of these notes has
    a text that is not a string. *)
Theorem view_notes_outcomes pid ds db rec :
  pid <> "" -> get_patient (py_strip pid) db = Some rec ->
  times_are_str (dict_values (visits rec)) = true ->
  view_notes (Some pid) (Some ds) db =
    match parse_count (py_strip ds) with
    | None => Returned ViewInvalidDate
    | Some target =>
        if forallb (fun kv => forallb text_is_str (notes kv.2)) (viewed target rec)
        then Returned
               (view_answer_of
                  (flat_map (fun kv => map (block_of kv.1 kv.2) (notes kv.2))
                     (viewed target rec)))
        else Raised AttributeError
    end.
Proof. exact (view_notes_cases pid ds db rec). Qed.

(** A new patient added through [add_patient], with the [Visit_time] the
    date dialog gave and a note with a text: the patient is in the store
    under the id as typed, but [view_notes] looks the id up trimmed.  So,
    asked for that patient and that day, it shows the note of the new visit
    when the id was typed without white space around it, and otherwise
    says that there are no records for the patient. *)
Theorem view_notes_after_add_patient
    can_open pid vd nid text t target vid data_file notes_file cols db fs :
  pid <> "" -> get_patient pid db = None -> get_patient (py_strip pid) db = None ->
  NoDup (dict_keys vd) ->
  dict_get (Some "Visit_time") vd = Some (VStr t) ->
  parse_count (py_strip t) = Some target ->
  let vn := [(Some "Note_ID", VStr nid); (Some "Note_text", VStr text)] in
  let db' :=
    (add_patient can_open (Some pid) (Some (vd, vn)) vid data_file notes_file cols
       db fs).1.2 in
  is_Some (get_patient pid db')
  /\ view_notes (Some pid) (Some t) db'
     = if decide (py_strip pid = pid)
       then Returned (ViewNotes [block_of vid (mkVisit vd [vn]) vn])
       else Returned ViewNoRecords.
Proof.
  intros Hpid Hnew Hnew' Hwf Htime Hparse vn db'. unfold db'.
  rewrite add_patient_memory. fold (added pid vd vn vid db).
  unfold get_patient in Hnew, Hnew'.
  assert (Hfresh : find_visit pid vid db = None)
    by (unfold find_visit; rewrite Hnew; reflexivity).
  pose proof (added_patients pid vd vn vid db Hpid Hfresh) as Hps.
  rewrite Hnew in Hps.
  assert (Hform : form_visit vd vn = mkVisit vd [vn])
    by (unfold form_visit; rewrite (dict_update_nil _ Hwf); reflexivity).
  rewrite Hform in Hps.
  assert (Hget : get_patient pid (added pid vd vn vid db)
                 = Some (mkPatient pid [(vid, mkVisit vd [vn])]))
    by (unfold get_patient; rewrite Hps; apply dict_elem_get_last, Hnew).
  split; [rewrite Hget; eexists; reflexivity|].
  destruct (decide (py_strip pid = pid)) as [Heq|Hne].
  - rewrite (view_notes_cases pid t _ (mkPatient pid [(vid, mkVisit vd [vn])]) Hpid).
    + rewrite Hparse. unfold viewed. cbn [visits List.filter snd].
      assert (Hv : viewed_date (mkVisit vd [vn]) = Some target).
      { unfold viewed_date. cbn [data]. rewrite Htime.
        unfold parse_view. apply strptime_parse_view. exact Hparse. }
      rewrite Hv, bool_decide_eq_true_2 by reflexivity. reflexivity.
    + rewrite Heq. exact Hget.
    + cbn [visits dict_values map snd times_are_str forallb data]. rewrite Htime.
      reflexivity.
  - unfold view_notes. destruct pid as [|a pid]; [congruence|].
    unfold get_patient. rewrite Hps.
    rewrite dict_get_app_ne by exact Hne. rewrite Hnew'. reflexivity.
Qed.

Lemma view_notes_after_add_patient_witness :
  let db' :=
    (add_patient open_here (Some " P9") (Some (form_data, form_notes)) "V3"
       "Patient_data.csv" "Notes.csv" data_fieldnames clinic_db ∅).1.2 in
  is_Some (get_patient " P9" db')
  /\ view_notes (Some " P9") (Some "03/14/2024") db' = Returned ViewNoRecords.
Proof.
  apply (view_notes_after_add_patient open_here " P9" form_data "a1b2" "seen" "03/14/2024"
           (mkDate 2024 3 14) "V3" "Patient_data.csv" "Notes.csv" data_fieldnames
           clinic_db ∅).
  - discriminate.
  - reflexivity.
  - reflexivity.
  - apply (bool_decide_unpack _). vm_compute. reflexivity.
  - reflexivity.
  - vm_compute. reflexivity.
Defined.

(** A [Visit_time] with U+001C before the day: [str.strip] would drop the
    character, [int] does not, so [view_notes] passes the visit over. *)
Example view_notes_skips_unreadable_day :
  Str.int [ascii_of_N 28; "1"%char; "4"%char] = None
  /\ view_notes (Some "P1") (Some "03/14/2024") separator_db = Returned ViewNoNotes.
Proof. split; vm_compute; reflexivity. Qed.

Lemma view_notes_outcomes_witness :
  exists notes_text,
    view_notes (Some " P1 ") (Some "03/14/2024") clinic_db
    = Returned (ViewNotes notes_text)
    /\ length notes_text = 2%nat.
Proof.
  eexists. split.
  - rewrite (view_notes_outcomes " P1 " "03/14/2024" clinic_db
               (mkPatient "P1"
                  [("V1", mkVisit [(Some "Visit_time", VStr "3/14/2024");
                                   (Some "Age", VInt 30)]
                            [[(Some "Note_ID", VStr "n1"); (Some "Note_text", VStr "seen")];
                             [(Some "Note_ID", VStr "n2"); (Some "Note_text", VStr "")]]);
                   ("V2", mkVisit [(Some "Race", VNone)] [])])).
    + vm_compute. reflexivity.
    + discriminate.
    + vm_compute. reflexivity.
    + vm_compute. reflexivity.
  - reflexivity.
Defined.

(** ** Patients without visits *)

Lemma has_visits_find pid self :
  has_visits pid self = true <-> exists v, is_Some (find_visit pid v self).
Proof.
  unfold has_visits, find_visit, get_patient.
  destruct (dict_get pid (patients self)) as [rec|]; cbn [mbind option_bind].
  - destruct (visits rec) as [|[v vr] vs]; split.
    + discriminate.
    + intros [v [x [=]]].
    + intros _. exists v. cbn [dict_get]. rewrite decide_True by reflexivity.
      eexists; reflexivity.
    + reflexivity.
  - split; [discriminate|]. intros [v [x [=]]].
Qed.

Lemma find_visit_patient p v self :
  is_Some (find_visit p v self) -> is_Some (get_patient p self).
Proof.
  unfold find_visit, get_patient.
  destruct (dict_get p (patients self)); [eexists; reflexivity|].
  intros [x [=]].
Qed.

Lemma load_data_row_other self row p :
  (forall vid, data_key row <> Some (p, vid)) ->
  get_patient p (load_data_row self row) = get_patient p self.
Proof.
  intros Hne. destruct (data_key row) as [[pid vid]|] eqn:Hk;
    [|rewrite (proj2 (data_key_None _ Hk)); reflexivity].
  assert (Hp : p <> pid) by (intros ->; apply (Hne vid); reflexivity).
  unfold get_patient. rewrite (load_data_row_patients _ _ _ _ Hk).
  destruct (dict_get pid (patients self)).
  - apply dict_get_set_ne, Hp.
  - apply dict_get_app_ne, Hp.
Qed.

Lemma load_notes_row_other self row p :
  (forall vid, note_key row <> Some (p, vid)) ->
  get_patient p (load_notes_row self row) = get_patient p self.
Proof.
  intros Hne. unfold note_key in Hne. unfold load_notes_row, get_patient.
  destruct (as_id (dict_get (Some ID_PATIENT) row)) as [pid|]; [|reflexivity].
  destruct (as_id (dict_get (Some ID_VISIT) row)) as [vid|]; [|reflexivity].
  destruct (as_id (dict_get (Some "Note_ID") row)) as [nid|]; [|reflexivity].
  assert (Hp : p <> pid) by (intros ->; apply (Hne vid); reflexivity).
  unfold dict_setdefault.
  destruct (dict_get pid (patients self)) as [rec|];
    destruct (dict_get vid _); cbn [patients];
    rewrite ?dict_get_set_ne by exact Hp; reflexivity.
Qed.

Lemma load_data_row_peopled self row : peopled self -> peopled (load_data_row self row).
Proof.
  intros Hall p Hp.
  destruct (data_key row) as [[pid vid]|] eqn:Hk;
    [|rewrite (proj2 (data_key_None _ Hk)) in Hp |- *; apply Hall, Hp].
  pose proof (proj1 (data_key_Some _ _ _) Hk) as [Hpid Hvid].
  destruct (decide (p = pid)) as [->|Hne].
  - exists vid. rewrite (find_visit_load_data_row _ _ _ _ _ _ Hpid Hvid).
    rewrite decide_True by tauto. eexists; reflexivity.
  - rewrite load_data_row_other in Hp by (rewrite Hk; congruence).
    destruct (Hall p Hp) as [v Hv]. exists v.
    rewrite (find_visit_load_data_row _ _ _ _ _ _ Hpid Hvid).
    rewrite decide_False by tauto. exact Hv.
Qed.

Lemma load_notes_row_peopled self row : peopled self -> peopled (load_notes_row self row).
Proof.
  intros Hall p Hp.
  destruct (note_key row) as [[pid vid]|] eqn:Hk.
  - destruct (note_key_Some _ _ _ Hk) as (nid & Hpid & Hvid & Hnid).
    destruct (decide (p = pid)) as [->|Hne].
    + exists vid. rewrite (find_visit_load_notes_row _ _ _ _ _ _ _ Hpid Hvid Hnid).
      rewrite decide_True by tauto. eexists; reflexivity.
    + rewrite load_notes_row_other in Hp by (rewrite Hk; congruence).
      destruct (Hall p Hp) as [v Hv]. exists v.
      rewrite (find_visit_load_notes_row _ _ _ _ _ _ _ Hpid Hvid Hnid).
      rewrite decide_False by tauto. exact Hv.
  - rewrite load_notes_row_other in Hp by (rewrite Hk; discriminate).
    destruct (Hall p Hp) as [v Hv]. exists v.
    assert (Hskip : load_notes_row self row = self).
    { apply load_notes_row_skip. unfold note_key in Hk.
      destruct (as_id (dict_get (Some ID_PATIENT) row)); [|tauto].
      destruct (as_id (dict_get (Some ID_VISIT) row)); [|tauto].
      destruct (as_id (dict_get (Some "Note_ID") row)); [discriminate|tauto]. }
    rewrite Hskip. exact Hv.
Qed.

Lemma start_up_peopled data_file notes_file fs :
  peopled (start_up data_file notes_file fs).
Proof.
  assert (H0 : peopled (mkDatabase [])) by (intros p [x [=]]).
  assert (H1 : peopled (load_data data_file fs (mkDatabase []))).
  { unfold load_data. destruct (fs !! data_file) as [f|]; [|exact H0].
    generalize (mkDatabase []) H0. induction (DictReader f) as [|row rows IH];
      intros self Hs; [exact Hs|].
    cbn [fold_left]. apply IH, load_data_row_peopled, Hs. }
  unfold start_up, load_notes_data. destruct (fs !! notes_file) as [f|]; [|exact H1].
  generalize (load_data data_file fs (mkDatabase [])) H1.
  induction (DictReader f) as [|row rows IH]; intros self Hs; [exact Hs|].
  cbn [fold_left]. apply IH, load_notes_row_peopled, Hs.
Qed.

Lemma saved_patients can_open data_file notes_file cols self fs pid :
  can_open data_file = true -> can_open notes_file = true ->
  data_file <> notes_file ->
  ID_PATIENT ∈ cols -> ID_VISIT ∈ cols ->
  store_ok cols self = true ->
  is_Some (get_patient pid
             (start_up data_file notes_file
                (saved_files can_open data_file notes_file cols self fs)))
  <-> has_visits pid self = true.
Proof.
  intros Hopen1 Hopen2 Hpaths Hp Hv Hok.
  destruct (saves_then_start_up can_open data_file notes_file cols self fs
              Hopen1 Hopen2 Hpaths Hp Hv Hok)
    as (_ & _ & Hfind).
  fold (saved_files can_open data_file notes_file cols self fs) in Hfind.
  rewrite has_visits_find. split.
  - intros Hsome. destruct (start_up_peopled _ _ _ pid Hsome) as [v Hv'].
    exists v. rewrite Hfind in Hv'.
    destruct (find_visit pid v self); [eexists; reflexivity|].
    destruct Hv' as [x [=]].
  - intros [v [vr Hvr]]. apply (find_visit_patient pid v).
    rewrite Hfind, Hvr. eexists; reflexivity.
Qed.



Lemma store_ok_new_patient cols pid db :
  pid <> "" -> get_patient pid db = None -> store_ok cols db = true ->
  store_ok cols (mkDatabase (dict_set pid (mkPatient pid []) (patients db))) = true.
Proof.
  intros Hpid Hnew Hok. unfold get_patient in Hnew.
  unfold store_ok in *. cbn [patients].
  apply andb_true_iff in Hok as [Hnd Hall]. apply bool_decide_eq_true in Hnd.
  rewrite (dict_keys_set_absent _ _ _ Hnew).
  apply andb_true_iff. split.
  - apply bool_decide_eq_true.
    unfold dict_keys. rewrite map_app. cbn [map fst].
    apply NoDup_app. split; [exact Hnd|]. split; [|apply NoDup_singleton].
    intros x Hx Hx'. apply list_elem_of_singleton in Hx'. subst x.
    apply dict_get_None_keys in Hnew. contradiction.
  - rewrite forallb_app, Hall. cbn [forallb andb]. unfold patient_ok.
    cbn [patient_id visits fst snd forallb dict_keys map].
    rewrite String.eqb_refl. unfold nonempty.
    rewrite (proj2 (String.eqb_neq pid "") Hpid). cbn [negb andb].
    rewrite bool_decide_eq_true_2 by apply NoDup_nil_2. reflexivity.
Qed.

(** [add_patient] for a new patient id, when the form is cancelled: the
    handler has already put an empty record for the patient in the store,
    and it returns without writing a file.  The patient is then listed in
    memory, but a later save, at paths that can be opened for writing,
    writes no row for it, so after a new start of the application the
    patient is not found. *)
Theorem add_patient_cancelled_form
    can_open pid vid data_file notes_file cols db fs :
  pid <> "" -> get_patient pid db = None ->
  data_file <> notes_file -> ID_PATIENT ∈ cols -> ID_VISIT ∈ cols ->
  store_ok cols db = true ->
  let result :=
    add_patient can_open (Some pid) None vid data_file notes_file cols db fs in
  result.1.1 = Returned tt
  /\ result.2 = fs
  /\ get_patient pid result.1.2 = Some (mkPatient pid [])
  /\ list_patient_ids result.1.2 = list_patient_ids db ++ [pid]
  /\ (can_open data_file = true -> can_open notes_file = true ->
      get_patient pid
        (start_up data_file notes_file
           (saved_files can_open data_file notes_file cols result.1.2 fs))
      = None).
Proof.
  intros Hpid Hnew Hpaths Hp Hv Hok result.
  assert (Hres : result =
            (Returned tt,
             mkDatabase (dict_set pid (mkPatient pid []) (patients db)), fs)).
  { unfold result, add_patient. rewrite (proj2 (String.eqb_neq pid "") Hpid), Hnew.
    reflexivity. }
  rewrite Hres. cbn [fst snd].
  pose proof Hnew as Hnew'. unfold get_patient in Hnew'.
  split; [reflexivity|]. split; [reflexivity|]. split; [|split].
  - unfold get_patient. cbn [patients]. apply dict_get_set_eq.
  - unfold list_patient_ids. cbn [patients].
    rewrite (dict_keys_set_absent _ _ _ Hnew'). unfold dict_keys.
    rewrite map_app. reflexivity.
  - intros Hopen1 Hopen2. apply eq_None_not_Some. intros Hsome.
    apply saved_patients in Hsome;
      [|assumption|assumption|assumption|assumption|assumption
       |apply store_ok_new_patient; assumption].
    unfold has_visits, get_patient in Hsome. cbn [patients] in Hsome.
    rewrite dict_get_set_eq in Hsome. discriminate.
Qed.

Lemma add_patient_cancelled_form_witness :
  let result :=
    add_patient open_here (Some "P9") None "V3" "Patient_data.csv" "Notes.csv"
      data_fieldnames clinic_db ∅ in
  list_patient_ids result.1.2 = ["P1"; "P2"; "P9"]
  /\ get_patient "P9"
       (start_up "Patient_data.csv" "Notes.csv"
          (saved_files open_here "Patient_data.csv" "Notes.csv" data_fieldnames
             result.1.2 ∅))
     = None.
Proof.
  destruct (add_patient_cancelled_form open_here "P9" "V3" "Patient_data.csv"
              "Notes.csv" data_fieldnames clinic_db ∅)
    as (_ & _ & _ & Hids & Hgone).
  - discriminate.
  - reflexivity.
  - discriminate.
  - apply (bool_decide_unpack _). vm_compute. reflexivity.
  - apply (bool_decide_unpack _). vm_compute. reflexivity.
  - vm_compute. reflexivity.
  - split; [exact Hids | apply Hgone; reflexivity].
Defined.
